(** * TECS: Total Energy Control System (src/lib/tecs/TECS.cpp)

    A shallow embedding of the fixed-wing longitudinal controller and the
    properties its specification states about it.

    Numbers.  The controller computes on single-precision floats.  They are
    modelled here as rationals extended with the IEEE special values
    ([PInf], [NInf], [NaN]): arithmetic on finite values is exact (rounding
    and overflow are abstracted away, and there is a single zero, which
    behaves like +0), while the special values follow IEEE-754: a finite
    non-zero value divided by zero is an infinity, 0/0 and inf-inf are NaN,
    NaN propagates through arithmetic and every ordered comparison with NaN
    is false. *)

From Stdlib Require Import QArith Qabs Lqa ZArith Lia Bool.

(** ** Extended rationals *)

Inductive float : Type :=
| Fin (q : Q)
| PInf
| NInf
| NaN.

Declare Scope fl_scope.
Delimit Scope fl_scope with F.
Bind Scope fl_scope with float.

Module Fl.

Definition sgn (q : Q) : comparison := (q ?= 0)%Q.

(** The infinity carrying the sign [c]; a zero sign has no infinity. *)
Definition inf_of (c : comparison) : float :=
  match c with Gt => PInf | Lt => NInf | Eq => NaN end.

Definition flip (c : comparison) : comparison := CompOpp c.

Definition neg (a : float) : float :=
  match a with
  | Fin q => Fin (- q)
  | PInf => NInf
  | NInf => PInf
  | NaN => NaN
  end.

Definition add (a b : float) : float :=
  match a, b with
  | NaN, _ | _, NaN => NaN
  | Fin x, Fin y => Fin (x + y)
  | PInf, NInf | NInf, PInf => NaN
  | PInf, _ | _, PInf => PInf
  | NInf, _ | _, NInf => NInf
  end.

Definition sub (a b : float) : float := add a (neg b).

Definition mul (a b : float) : float :=
  match a, b with
  | NaN, _ | _, NaN => NaN
  | Fin x, Fin y => Fin (x * y)
  | Fin x, PInf | PInf, Fin x => inf_of (sgn x)
  | Fin x, NInf | NInf, Fin x => inf_of (flip (sgn x))
  | PInf, PInf | NInf, NInf => PInf
  | PInf, NInf | NInf, PInf => NInf
  end.

(** Division.  The zero divisor is +0: [x / 0] is the infinity of the sign
    of [x], and [0 / 0] is NaN. *)
Definition div (a b : float) : float :=
  match a, b with
  | NaN, _ | _, NaN => NaN
  | Fin x, Fin y =>
      match sgn y with
      | Eq => inf_of (sgn x)
      | _ => Fin (x / y)
      end
  | Fin _, (PInf | NInf) => Fin 0
  | PInf, Fin y => match sgn y with Lt => NInf | _ => PInf end
  | NInf, Fin y => match sgn y with Lt => PInf | _ => NInf end
  | (PInf | NInf), (PInf | NInf) => NaN
  end.

(** [a < b]; false as soon as one side is NaN. *)
Definition ltb (a b : float) : bool :=
  match a, b with
  | NaN, _ | _, NaN => false
  | Fin x, Fin y => match (x ?= y)%Q with Lt => true | _ => false end
  | NInf, (Fin _ | PInf) => true
  | Fin _, PInf => true
  | _, _ => false
  end.

(** [a <= b]; false as soon as one side is NaN. *)
Definition leb (a b : float) : bool :=
  match a, b with
  | NaN, _ | _, NaN => false
  | Fin x, Fin y => match (x ?= y)%Q with Gt => false | _ => true end
  | NInf, _ => true
  | _, PInf => true
  | _, _ => false
  end.

Definition gtb (a b : float) : bool := ltb b a.
Definition geb (a b : float) : bool := leb b a.

(** PX4_ISFINITE *)
Definition isfinite (a : float) : bool :=
  match a with Fin _ => true | _ => false end.

Definition isnan (a : float) : bool :=
  match a with NaN => true | _ => false end.

(** fabsf *)
Definition fabsf (a : float) : float :=
  match a with
  | Fin q => Fin (Qabs q)
  | PInf | NInf => PInf
  | NaN => NaN
  end.

(** fmaxf / fmax of the C library: a NaN argument is ignored. *)
Definition fmaxf (a b : float) : float :=
  match a, b with
  | NaN, _ => b
  | _, NaN => a
  | _, _ => if ltb a b then b else a
  end.

(** Conversion of an unsigned 64-bit integer. *)
Definition of_uint64 (n : Z) : float := Fin (inject_Z n).

(** Equality of values (rationals are compared up to [Qeq]). *)
Definition feq (a b : float) : Prop :=
  match a, b with
  | Fin x, Fin y => (x == y)%Q
  | PInf, PInf | NInf, NInf | NaN, NaN => True
  | _, _ => False
  end.

Definition le (a b : float) : Prop := leb a b = true.
Definition lt (a b : float) : Prop := ltb a b = true.
Definition finite (a : float) : Prop := isfinite a = true.

End Fl.

Notation "- a" := (Fl.neg a) : fl_scope.
Infix "+" := Fl.add : fl_scope.
Infix "-" := Fl.sub : fl_scope.
Infix "*" := Fl.mul : fl_scope.
Infix "/" := Fl.div : fl_scope.
Infix "<?" := Fl.ltb : fl_scope.
Infix "<=?" := Fl.leb : fl_scope.
Infix ">?" := Fl.gtb : fl_scope.
Infix ">=?" := Fl.geb : fl_scope.
Infix "<=" := Fl.le : fl_scope.
Infix "<" := Fl.lt : fl_scope.
Infix "==" := Fl.feq : fl_scope.
Notation "a <= b <= c" := (Fl.le a b /\ Fl.le b c) : fl_scope.

Arguments Fin q%_Q.

Local Open Scope fl_scope.

(** ** Library pieces used by TECS.cpp *)

(** Modelled from the spec: [FLT_EPSILON], the single-precision machine
    epsilon of <float.h> that the spec's division guards refer to: 2^-23. *)
Definition FLT_EPSILON : float := Fin (1 # 8388608).

(** Modelled from the spec: [CONSTANTS_ONE_G] of lib/geo, the spec's [g]
    (standard gravity, m/s^2). *)
Definition CONSTANTS_ONE_G : float := Fin (980665 # 100000).

(** Modelled from the spec: [DT_DEFAULT] of TECS.hpp, 0.02 s. *)
Definition DT_DEFAULT : float := Fin (2 # 100).

(** Modelled from the spec: [kTASErrorPercentage] of TECS.hpp, default 0.1. *)
Definition kTASErrorPercentage : float := Fin (1 # 10).

Definition DT_MIN : float := Fin (1 # 1000).
Definition DT_MAX : float := Fin 1.

Module math.

(** Modelled from the spec: [math::max] of lib/mathlib, the spec's max,
    written with one comparison: [(a > b) ? a : b]. *)
Definition max (a b : float) : float := if a >? b then a else b.

(** Modelled from the spec: [math::min] of lib/mathlib: [(a < b) ? a : b]. *)
Definition min (a b : float) : float := if a <? b then a else b.

(** Modelled from the spec: [math::constrain] of lib/mathlib, the spec's
    clamp.  Both comparisons are false on a NaN value, which is passed
    through. *)
Definition constrain (val min_val max_val : float) : float :=
  if val <? min_val then min_val
  else if val >? max_val then max_val
  else val.

(** Modelled from the spec: [math::signNoZero], the sign of a value with
    zero counted as positive: [(0 <= val) - (val < 0)]. *)
Definition signNoZero (val : float) : float :=
  Fin ((if Fin 0 <=? val then 1 else 0) - (if val <? Fin 0 then 1 else 0)).

End math.

Arguments Fl.neg : simpl never.
Arguments Fl.add : simpl never.
Arguments Fl.sub : simpl never.
Arguments Fl.mul : simpl never.
Arguments Fl.div : simpl never.
Arguments Fl.ltb : simpl never.
Arguments Fl.leb : simpl never.
Arguments Fl.gtb : simpl never.
Arguments Fl.geb : simpl never.
Arguments Fl.fabsf : simpl never.
Arguments Fl.fmaxf : simpl never.
Arguments math.max : simpl never.
Arguments math.min : simpl never.
Arguments math.constrain : simpl never.
Arguments math.signNoZero : simpl never.

(** ** External components

    The first-order filters and the two jerk-limited trajectory generators
    are separate classes of the repository (lib/mathlib's AlphaFilter,
    lib/motion_planning's VelocitySmoothing and ManualVelocitySmoothingZ).
    TECS.cpp only calls their methods, so they enter the embedding as
    interfaces: every result below holds for all their implementations. *)

Class AlphaFilterOps := {
  AlphaFilter : Type;
  AlphaFilter_setParameters : float -> float -> AlphaFilter -> AlphaFilter;
  AlphaFilter_reset : float -> AlphaFilter -> AlphaFilter;
  AlphaFilter_update : float -> AlphaFilter -> AlphaFilter;
  AlphaFilter_getState : AlphaFilter -> float
}.

Class VelocitySmoothingOps := {
  VelocitySmoothing : Type;
  VS_setMaxJerk : float -> VelocitySmoothing -> VelocitySmoothing;
  VS_setMaxAccel : float -> VelocitySmoothing -> VelocitySmoothing;
  VS_setMaxVel : float -> VelocitySmoothing -> VelocitySmoothing;
  VS_getCurrentPosition : VelocitySmoothing -> float;
  VS_getCurrentVelocity : VelocitySmoothing -> float;
  VS_setCurrentPosition : float -> VelocitySmoothing -> VelocitySmoothing;
  VS_setCurrentVelocity : float -> VelocitySmoothing -> VelocitySmoothing;
  VS_updateDurations : float -> VelocitySmoothing -> VelocitySmoothing;
  VS_updateTraj : float -> VelocitySmoothing -> VelocitySmoothing;
  VS_reset : float -> float -> float -> VelocitySmoothing -> VelocitySmoothing;
  (* math::trajectory::computeMaxSpeedFromDistance(jerk, accel, braking_distance, final_speed) *)
  computeMaxSpeedFromDistance : float -> float -> float -> float -> float
}.

Class ManualVelocitySmoothingZOps := {
  ManualVelocitySmoothingZ : Type;
  MVS_setMaxJerk : float -> ManualVelocitySmoothingZ -> ManualVelocitySmoothingZ;
  MVS_setMaxAccelUp : float -> ManualVelocitySmoothingZ -> ManualVelocitySmoothingZ;
  MVS_setMaxAccelDown : float -> ManualVelocitySmoothingZ -> ManualVelocitySmoothingZ;
  MVS_setMaxVelUp : float -> ManualVelocitySmoothingZ -> ManualVelocitySmoothingZ;
  MVS_setMaxVelDown : float -> ManualVelocitySmoothingZ -> ManualVelocitySmoothingZ;
  MVS_setVelSpFeedback : float -> ManualVelocitySmoothingZ -> ManualVelocitySmoothingZ;
  MVS_setCurrentPositionEstimate : float -> ManualVelocitySmoothingZ -> ManualVelocitySmoothingZ;
  MVS_update : float -> float -> ManualVelocitySmoothingZ -> ManualVelocitySmoothingZ;
  MVS_getCurrentVelocity : ManualVelocitySmoothingZ -> float;
  MVS_getCurrentPosition : ManualVelocitySmoothingZ -> float;
  MVS_reset : float -> float -> float -> ManualVelocitySmoothingZ -> ManualVelocitySmoothingZ
}.

(** ** The controller object *)

Inductive ECL_TECS_MODE : Type :=
| ECL_TECS_MODE_NORMAL
| ECL_TECS_MODE_UNDERSPEED
| ECL_TECS_MODE_BAD_DESCENT
| ECL_TECS_MODE_CLIMBOUT.

(** Field update: [s.{f := v}] is [s] with member [f] set to [v]. *)
Class Setter {R T : Type} (proj : R -> T) := set : T -> R -> R.
Arguments set {R T} proj {Setter} _ _.
Notation "s .{ f := v }" := (set f v s)
  (at level 1, left associativity, format "s .{ f  :=  v }").

Section Controller.

Context {AF : AlphaFilterOps} {VS : VelocitySmoothingOps}
        {MVS : ManualVelocitySmoothingZOps}.

(** The members of class TECS that TECS.cpp reads or writes.  Timestamps are
    unsigned 64-bit microsecond counts. *)
Record TECS : Type := {
  (* tuning parameters and host-set flags *)
  _equivalent_airspeed_min : float;
  _equivalent_airspeed_max : float;
  _equivalent_airspeed_trim : float;
  _max_climb_rate : float;
  _max_sink_rate : float;
  _min_sink_rate : float;
  _vert_accel_limit : float;
  _jerk_max : float;
  _pitch_damping_gain : float;
  _throttle_damping_gain : float;
  _integrator_gain_pitch : float;
  _integrator_gain_throttle : float;
  _airspeed_error_gain : float;
  _height_error_gain : float;
  _height_setpoint_gain_ff : float;
  _pitch_speed_weight : float;
  _load_factor_correction : float;
  _load_factor : float;
  _throttle_slewrate : float;
  _tas_estimate_freq : float;
  _speed_derivative_time_const : float;
  _STE_rate_time_const : float;
  _SEB_rate_ff : float;
  _airspeed_enabled : bool;
  _detect_underspeed_enabled : bool;
  (* clocks *)
  _state_update_timestamp : Z;
  _speed_update_timestamp : Z;
  _pitch_update_timestamp : Z;
  (* inertial and speed states *)
  _vert_vel_state : float;
  _vert_pos_state : float;
  _EAS : float;
  _tas_rate_state : float;
  _tas_state : float;
  _tas_innov : float;
  _tas_rate_raw : float;
  _tas_rate_filtered : float;
  (* setpoints *)
  _EAS_setpoint : float;
  _TAS_setpoint : float;
  _TAS_setpoint_last : float;
  _TAS_setpoint_adj : float;
  _TAS_rate_setpoint : float;
  _TAS_max : float;
  _TAS_min : float;
  _hgt_setpoint : float;
  _hgt_rate_setpoint : float;
  (* energies *)
  _SPE_setpoint : float;
  _SKE_setpoint : float;
  _SPE_rate_setpoint : float;
  _SKE_rate_setpoint : float;
  _SPE_estimate : float;
  _SKE_estimate : float;
  _SPE_rate : float;
  _SKE_rate : float;
  _STE_error : float;
  _STE_rate_error : float;
  _STE_rate_setpoint : float;
  _STE_rate_max : float;
  _STE_rate_min : float;
  _SEB_error : float;
  _SEB_rate_error : float;
  _SPE_weighting : float;
  _SKE_weighting : float;
  (* integrators and outputs *)
  _throttle_integ_state : float;
  _pitch_integ_state : float;
  _last_throttle_setpoint : float;
  _last_pitch_setpoint : float;
  _pitch_setpoint_unc : float;
  (* limits captured from the arguments of the step *)
  _throttle_setpoint_max : float;
  _throttle_setpoint_min : float;
  _pitch_setpoint_max : float;
  _pitch_setpoint_min : float;
  _throttle_trim : float;
  _dt : float;
  (* mode flags *)
  _states_initialized : bool;
  _climbout_mode_active : bool;
  _uncommanded_descent_recovery : bool;
  _percent_undersped : float;
  _tecs_mode : ECL_TECS_MODE;
  (* filters and trajectory generators *)
  _TAS_rate_filter : AlphaFilter;
  _STE_rate_error_filter : AlphaFilter;
  _alt_control_traj_generator : VelocitySmoothing;
  _velocity_control_traj_generator : ManualVelocitySmoothingZ
}.

(** Setters are read off the eta-expansion of the record: abstracting the
    projection [proj] in [TECS_eta] leaves the record with a hole at that
    member. *)
Definition TECS_eta (s : TECS) : TECS :=
  Build_TECS
    (_equivalent_airspeed_min s) (_equivalent_airspeed_max s)
    (_equivalent_airspeed_trim s) (_max_climb_rate s) (_max_sink_rate s)
    (_min_sink_rate s) (_vert_accel_limit s) (_jerk_max s)
    (_pitch_damping_gain s) (_throttle_damping_gain s)
    (_integrator_gain_pitch s) (_integrator_gain_throttle s)
    (_airspeed_error_gain s) (_height_error_gain s)
    (_height_setpoint_gain_ff s) (_pitch_speed_weight s)
    (_load_factor_correction s) (_load_factor s) (_throttle_slewrate s)
    (_tas_estimate_freq s) (_speed_derivative_time_const s)
    (_STE_rate_time_const s) (_SEB_rate_ff s) (_airspeed_enabled s)
    (_detect_underspeed_enabled s) (_state_update_timestamp s)
    (_speed_update_timestamp s) (_pitch_update_timestamp s)
    (_vert_vel_state s) (_vert_pos_state s) (_EAS s) (_tas_rate_state s)
    (_tas_state s) (_tas_innov s) (_tas_rate_raw s) (_tas_rate_filtered s)
    (_EAS_setpoint s) (_TAS_setpoint s) (_TAS_setpoint_last s)
    (_TAS_setpoint_adj s) (_TAS_rate_setpoint s) (_TAS_max s) (_TAS_min s)
    (_hgt_setpoint s) (_hgt_rate_setpoint s) (_SPE_setpoint s)
    (_SKE_setpoint s) (_SPE_rate_setpoint s) (_SKE_rate_setpoint s)
    (_SPE_estimate s) (_SKE_estimate s) (_SPE_rate s) (_SKE_rate s)
    (_STE_error s) (_STE_rate_error s) (_STE_rate_setpoint s)
    (_STE_rate_max s) (_STE_rate_min s) (_SEB_error s) (_SEB_rate_error s)
    (_SPE_weighting s) (_SKE_weighting s) (_throttle_integ_state s)
    (_pitch_integ_state s) (_last_throttle_setpoint s)
    (_last_pitch_setpoint s) (_pitch_setpoint_unc s)
    (_throttle_setpoint_max s) (_throttle_setpoint_min s)
    (_pitch_setpoint_max s) (_pitch_setpoint_min s) (_throttle_trim s) (_dt s)
    (_states_initialized s) (_climbout_mode_active s)
    (_uncommanded_descent_recovery s) (_percent_undersped s) (_tecs_mode s)
    (_TAS_rate_filter s) (_STE_rate_error_filter s)
    (_alt_control_traj_generator s) (_velocity_control_traj_generator s).

Ltac member_setter proj :=
  let e := eval cbv delta [TECS_eta] in TECS_eta in
  match eval pattern proj in e with
  | ?F _ => let t := eval cbv beta in (fun v s => F (fun _ => v) s) in exact t
  end.

#[export] Instance set_equivalent_airspeed_min : Setter _equivalent_airspeed_min := ltac:(member_setter _equivalent_airspeed_min).
#[export] Instance set_equivalent_airspeed_max : Setter _equivalent_airspeed_max := ltac:(member_setter _equivalent_airspeed_max).
#[export] Instance set_equivalent_airspeed_trim : Setter _equivalent_airspeed_trim := ltac:(member_setter _equivalent_airspeed_trim).
#[export] Instance set_max_climb_rate : Setter _max_climb_rate := ltac:(member_setter _max_climb_rate).
#[export] Instance set_max_sink_rate : Setter _max_sink_rate := ltac:(member_setter _max_sink_rate).
#[export] Instance set_min_sink_rate : Setter _min_sink_rate := ltac:(member_setter _min_sink_rate).
#[export] Instance set_vert_accel_limit : Setter _vert_accel_limit := ltac:(member_setter _vert_accel_limit).
#[export] Instance set_jerk_max : Setter _jerk_max := ltac:(member_setter _jerk_max).
#[export] Instance set_pitch_damping_gain : Setter _pitch_damping_gain := ltac:(member_setter _pitch_damping_gain).
#[export] Instance set_throttle_damping_gain : Setter _throttle_damping_gain := ltac:(member_setter _throttle_damping_gain).
#[export] Instance set_integrator_gain_pitch : Setter _integrator_gain_pitch := ltac:(member_setter _integrator_gain_pitch).
#[export] Instance set_integrator_gain_throttle : Setter _integrator_gain_throttle := ltac:(member_setter _integrator_gain_throttle).
#[export] Instance set_airspeed_error_gain : Setter _airspeed_error_gain := ltac:(member_setter _airspeed_error_gain).
#[export] Instance set_height_error_gain : Setter _height_error_gain := ltac:(member_setter _height_error_gain).
#[export] Instance set_height_setpoint_gain_ff : Setter _height_setpoint_gain_ff := ltac:(member_setter _height_setpoint_gain_ff).
#[export] Instance set_pitch_speed_weight : Setter _pitch_speed_weight := ltac:(member_setter _pitch_speed_weight).
#[export] Instance set_load_factor_correction : Setter _load_factor_correction := ltac:(member_setter _load_factor_correction).
#[export] Instance set_load_factor : Setter _load_factor := ltac:(member_setter _load_factor).
#[export] Instance set_throttle_slewrate : Setter _throttle_slewrate := ltac:(member_setter _throttle_slewrate).
#[export] Instance set_tas_estimate_freq : Setter _tas_estimate_freq := ltac:(member_setter _tas_estimate_freq).
#[export] Instance set_speed_derivative_time_const : Setter _speed_derivative_time_const := ltac:(member_setter _speed_derivative_time_const).
#[export] Instance set_STE_rate_time_const : Setter _STE_rate_time_const := ltac:(member_setter _STE_rate_time_const).
#[export] Instance set_SEB_rate_ff : Setter _SEB_rate_ff := ltac:(member_setter _SEB_rate_ff).
#[export] Instance set_airspeed_enabled : Setter _airspeed_enabled := ltac:(member_setter _airspeed_enabled).
#[export] Instance set_detect_underspeed_enabled : Setter _detect_underspeed_enabled := ltac:(member_setter _detect_underspeed_enabled).
#[export] Instance set_state_update_timestamp : Setter _state_update_timestamp := ltac:(member_setter _state_update_timestamp).
#[export] Instance set_speed_update_timestamp : Setter _speed_update_timestamp := ltac:(member_setter _speed_update_timestamp).
#[export] Instance set_pitch_update_timestamp : Setter _pitch_update_timestamp := ltac:(member_setter _pitch_update_timestamp).
#[export] Instance set_vert_vel_state : Setter _vert_vel_state := ltac:(member_setter _vert_vel_state).
#[export] Instance set_vert_pos_state : Setter _vert_pos_state := ltac:(member_setter _vert_pos_state).
#[export] Instance set_EAS : Setter _EAS := ltac:(member_setter _EAS).
#[export] Instance set_tas_rate_state : Setter _tas_rate_state := ltac:(member_setter _tas_rate_state).
#[export] Instance set_tas_state : Setter _tas_state := ltac:(member_setter _tas_state).
#[export] Instance set_tas_innov : Setter _tas_innov := ltac:(member_setter _tas_innov).
#[export] Instance set_tas_rate_raw : Setter _tas_rate_raw := ltac:(member_setter _tas_rate_raw).
#[export] Instance set_tas_rate_filtered : Setter _tas_rate_filtered := ltac:(member_setter _tas_rate_filtered).
#[export] Instance set_EAS_setpoint : Setter _EAS_setpoint := ltac:(member_setter _EAS_setpoint).
#[export] Instance set_TAS_setpoint : Setter _TAS_setpoint := ltac:(member_setter _TAS_setpoint).
#[export] Instance set_TAS_setpoint_last : Setter _TAS_setpoint_last := ltac:(member_setter _TAS_setpoint_last).
#[export] Instance set_TAS_setpoint_adj : Setter _TAS_setpoint_adj := ltac:(member_setter _TAS_setpoint_adj).
#[export] Instance set_TAS_rate_setpoint : Setter _TAS_rate_setpoint := ltac:(member_setter _TAS_rate_setpoint).
#[export] Instance set_TAS_max : Setter _TAS_max := ltac:(member_setter _TAS_max).
#[export] Instance set_TAS_min : Setter _TAS_min := ltac:(member_setter _TAS_min).
#[export] Instance set_hgt_setpoint : Setter _hgt_setpoint := ltac:(member_setter _hgt_setpoint).
#[export] Instance set_hgt_rate_setpoint : Setter _hgt_rate_setpoint := ltac:(member_setter _hgt_rate_setpoint).
#[export] Instance set_SPE_setpoint : Setter _SPE_setpoint := ltac:(member_setter _SPE_setpoint).
#[export] Instance set_SKE_setpoint : Setter _SKE_setpoint := ltac:(member_setter _SKE_setpoint).
#[export] Instance set_SPE_rate_setpoint : Setter _SPE_rate_setpoint := ltac:(member_setter _SPE_rate_setpoint).
#[export] Instance set_SKE_rate_setpoint : Setter _SKE_rate_setpoint := ltac:(member_setter _SKE_rate_setpoint).
#[export] Instance set_SPE_estimate : Setter _SPE_estimate := ltac:(member_setter _SPE_estimate).
#[export] Instance set_SKE_estimate : Setter _SKE_estimate := ltac:(member_setter _SKE_estimate).
#[export] Instance set_SPE_rate : Setter _SPE_rate := ltac:(member_setter _SPE_rate).
#[export] Instance set_SKE_rate : Setter _SKE_rate := ltac:(member_setter _SKE_rate).
#[export] Instance set_STE_error : Setter _STE_error := ltac:(member_setter _STE_error).
#[export] Instance set_STE_rate_error : Setter _STE_rate_error := ltac:(member_setter _STE_rate_error).
#[export] Instance set_STE_rate_setpoint : Setter _STE_rate_setpoint := ltac:(member_setter _STE_rate_setpoint).
#[export] Instance set_STE_rate_max : Setter _STE_rate_max := ltac:(member_setter _STE_rate_max).
#[export] Instance set_STE_rate_min : Setter _STE_rate_min := ltac:(member_setter _STE_rate_min).
#[export] Instance set_SEB_error : Setter _SEB_error := ltac:(member_setter _SEB_error).
#[export] Instance set_SEB_rate_error : Setter _SEB_rate_error := ltac:(member_setter _SEB_rate_error).
#[export] Instance set_SPE_weighting : Setter _SPE_weighting := ltac:(member_setter _SPE_weighting).
#[export] Instance set_SKE_weighting : Setter _SKE_weighting := ltac:(member_setter _SKE_weighting).
#[export] Instance set_throttle_integ_state : Setter _throttle_integ_state := ltac:(member_setter _throttle_integ_state).
#[export] Instance set_pitch_integ_state : Setter _pitch_integ_state := ltac:(member_setter _pitch_integ_state).
#[export] Instance set_last_throttle_setpoint : Setter _last_throttle_setpoint := ltac:(member_setter _last_throttle_setpoint).
#[export] Instance set_last_pitch_setpoint : Setter _last_pitch_setpoint := ltac:(member_setter _last_pitch_setpoint).
#[export] Instance set_pitch_setpoint_unc : Setter _pitch_setpoint_unc := ltac:(member_setter _pitch_setpoint_unc).
#[export] Instance set_throttle_setpoint_max : Setter _throttle_setpoint_max := ltac:(member_setter _throttle_setpoint_max).
#[export] Instance set_throttle_setpoint_min : Setter _throttle_setpoint_min := ltac:(member_setter _throttle_setpoint_min).
#[export] Instance set_pitch_setpoint_max : Setter _pitch_setpoint_max := ltac:(member_setter _pitch_setpoint_max).
#[export] Instance set_pitch_setpoint_min : Setter _pitch_setpoint_min := ltac:(member_setter _pitch_setpoint_min).
#[export] Instance set_throttle_trim : Setter _throttle_trim := ltac:(member_setter _throttle_trim).
#[export] Instance set_dt : Setter _dt := ltac:(member_setter _dt).
#[export] Instance set_states_initialized : Setter _states_initialized := ltac:(member_setter _states_initialized).
#[export] Instance set_climbout_mode_active : Setter _climbout_mode_active := ltac:(member_setter _climbout_mode_active).
#[export] Instance set_uncommanded_descent_recovery : Setter _uncommanded_descent_recovery := ltac:(member_setter _uncommanded_descent_recovery).
#[export] Instance set_percent_undersped : Setter _percent_undersped := ltac:(member_setter _percent_undersped).
#[export] Instance set_tecs_mode : Setter _tecs_mode := ltac:(member_setter _tecs_mode).
#[export] Instance set_TAS_rate_filter : Setter _TAS_rate_filter := ltac:(member_setter _TAS_rate_filter).
#[export] Instance set_STE_rate_error_filter : Setter _STE_rate_error_filter := ltac:(member_setter _STE_rate_error_filter).
#[export] Instance set_alt_control_traj_generator : Setter _alt_control_traj_generator := ltac:(member_setter _alt_control_traj_generator).
#[export] Instance set_velocity_control_traj_generator : Setter _velocity_control_traj_generator := ltac:(member_setter _velocity_control_traj_generator).

(** ** Statements

    A member function of the class is a state transformer on the object.
    Its body is written with a small set of statement forms, so that it
    reads in the order of the source: assignment to a member, sequencing, a
    local constant, and a conditional.  Expressions read the members of the
    current object, bound as [s] in [s => e]. *)

Definition Stmt : Type := TECS -> TECS.

Definition skip : Stmt := fun s => s.

Definition seq (a b : Stmt) : Stmt := fun s => b (a s).

Definition assign {T : Type} (f : TECS -> T) {H : Setter f} (e : TECS -> T) : Stmt :=
  fun s => s.{f := e s}.

Definition local {T : Type} (e : TECS -> T) (k : T -> Stmt) : Stmt :=
  fun s => k (e s) s.

Definition ifelse (c : TECS -> bool) (a b : Stmt) : Stmt :=
  fun s => if c s then a s else b s.

End Controller.

Arguments assign {AF VS MVS T} f {H} e _.

Declare Scope stmt_scope.
Delimit Scope stmt_scope with stmt.
Bind Scope stmt_scope with Stmt.

Notation "a ;; b" := (seq a b) (at level 90, right associativity) : stmt_scope.
Notation "f ::= s => e" := (assign f (fun s => e))
  (at level 80, s name, e at level 79) : stmt_scope.
Notation "'LET' x := s => e 'IN' k" := (local (fun s => e) (fun x => k))
  (at level 90, x name, s name, e at level 79, k at level 90,
   right associativity) : stmt_scope.
Notation "'IF' s => c 'THEN' a 'ELSE' b 'FI'" := (ifelse (fun s => c) a b)
  (at level 0, s name, c at level 79, a at level 90, b at level 90) : stmt_scope.
Notation "'IF' s => c 'THEN' a 'FI'" := (ifelse (fun s => c) a skip)
  (at level 0, s name, c at level 79, a at level 90) : stmt_scope.

Section Code.

Context {AF : AlphaFilterOps} {VS : VelocitySmoothingOps}
        {MVS : ManualVelocitySmoothingZOps}.

Local Open Scope stmt_scope.

(** ** Helpers declared in TECS.hpp *)

(** Modelled from the spec: [airspeed_sensor_enabled()] of TECS.hpp, the
    host-set airspeed-sensor-enabled flag. *)
Definition airspeed_sensor_enabled (s : TECS) : bool := _airspeed_enabled s.

(** Modelled from the spec: [SEB_setpoint()] of TECS.hpp, which returns
    [_SPE_setpoint * _SPE_weighting - _SKE_setpoint * _SKE_weighting]. *)
Definition SEB_setpoint (s : TECS) : float :=
  _SPE_setpoint s * _SPE_weighting s - _SKE_setpoint s * _SKE_weighting s.

(** Modelled from the spec: [resetIntegrals()] of TECS.hpp, which zeroes both
    integrators. *)
Definition resetIntegrals : Stmt :=
  _throttle_integ_state ::= s => Fin 0 ;;
  _pitch_integ_state ::= s => Fin 0.

(** Modelled from the spec: [resetTrajectoryGenerators(altitude)] of
    TECS.hpp, which resets both generators to position [altitude] with zero
    velocity and acceleration. *)
Definition resetTrajectoryGenerators (altitude : float) : Stmt :=
  _alt_control_traj_generator ::= s =>
    VS_reset (Fin 0) (Fin 0) altitude (_alt_control_traj_generator s) ;;
  _velocity_control_traj_generator ::= s =>
    MVS_reset (Fin 0) (Fin 0) altitude (_velocity_control_traj_generator s).

(** [(now - timestamp) * 1e-6f]: the unsigned 64-bit difference of two clock
    readings, in seconds. *)
Definition elapsed (now timestamp : Z) : float :=
  Fl.of_uint64 ((now - timestamp) mod 2 ^ 64) * Fin (1 # 1000000).

(** ** TECS.cpp

    [now] stands for the value [hrt_absolute_time()] returns in the call. *)

Definition update_vehicle_state_estimates (now : Z)
    (equivalent_airspeed speed_deriv_forward : float)
    (altitude_lock : bool) (altitude vz : float) : Stmt :=
  LET dt := s => Fl.fmaxf (elapsed now (_state_update_timestamp s)) DT_MIN IN
  LET reset_altitude := s => false IN
  LET stale := s => (_state_update_timestamp s =? 0)%Z || (dt >? DT_MAX) IN
  LET dt := s => if stale then DT_DEFAULT else dt IN
  LET reset_altitude := s => if stale then true else reset_altitude IN
  LET reset_altitude := s => if negb altitude_lock then true else reset_altitude IN
  IF s => reset_altitude THEN _states_initialized ::= s => false FI ;;
  _state_update_timestamp ::= s => now ;;
  _EAS ::= s => equivalent_airspeed ;;
  _vert_vel_state ::= s => - vz ;;
  _vert_pos_state ::= s => altitude ;;
  IF s => Fl.isfinite equivalent_airspeed && airspeed_sensor_enabled s THEN
    _tas_rate_raw ::= s => speed_deriv_forward ;;
    _TAS_rate_filter ::= s => AlphaFilter_update speed_deriv_forward (_TAS_rate_filter s) ;;
    _tas_rate_filtered ::= s => AlphaFilter_getState (_TAS_rate_filter s)
  ELSE
    _tas_rate_raw ::= s => Fin 0 ;;
    _tas_rate_filtered ::= s => Fin 0
  FI.

Definition _update_speed_states (now : Z)
    (equivalent_airspeed_setpoint equivalent_airspeed EAS2TAS : float) : Stmt :=
  LET dt := s => math.constrain (elapsed now (_speed_update_timestamp s)) DT_MIN DT_MAX IN
  _EAS_setpoint ::= s => equivalent_airspeed_setpoint ;;
  _TAS_setpoint ::= s => _EAS_setpoint s * EAS2TAS ;;
  _TAS_max ::= s => _equivalent_airspeed_max s * EAS2TAS ;;
  _TAS_min ::= s => _equivalent_airspeed_min s * EAS2TAS ;;
  IF s => negb (Fl.isfinite equivalent_airspeed) || negb (airspeed_sensor_enabled s) THEN
    _EAS ::= s => _equivalent_airspeed_trim s
  ELSE
    _EAS ::= s => equivalent_airspeed
  FI ;;
  IF s => (_speed_update_timestamp s =? 0)%Z THEN
    _tas_rate_state ::= s => Fin 0 ;;
    _tas_state ::= s => _EAS s * EAS2TAS
  FI ;;
  _tas_innov ::= s => _EAS s * EAS2TAS - _tas_state s ;;
  LET tas_rate_state_input := s =>
    _tas_innov s * _tas_estimate_freq s * _tas_estimate_freq s IN
  _tas_rate_state ::= s => _tas_rate_state s + tas_rate_state_input * dt ;;
  LET tas_state_input := s =>
    _tas_rate_state s + _tas_rate_raw s
    + _tas_innov s * _tas_estimate_freq s * Fin (14142 # 10000) IN
  LET new_tas_state := s => _tas_state s + tas_state_input * dt IN
  IF s => new_tas_state <? Fin 0 THEN
    LET tas_state_input := s => - _tas_state s / dt IN
    _tas_rate_state ::= s =>
      tas_state_input - _tas_rate_raw s
      - _tas_innov s * _tas_estimate_freq s * Fin (14142 # 10000) ;;
    _tas_state ::= s => Fin 0
  ELSE
    _tas_state ::= s => new_tas_state
  FI ;;
  _speed_update_timestamp ::= s => now.

(** The locals [max_tas_rate_sp] and [min_tas_rate_sp] of
    [_update_speed_setpoint]: the limits of the demanded TAS rate, with a 50%
    margin. *)
Definition max_tas_rate_sp (s : TECS) : float :=
  Fin (5 # 10) * _STE_rate_max s / math.max (_tas_state s) FLT_EPSILON.

Definition min_tas_rate_sp (s : TECS) : float :=
  Fin (5 # 10) * _STE_rate_min s / math.max (_tas_state s) FLT_EPSILON.

Definition _update_speed_setpoint : Stmt :=
  IF s => _uncommanded_descent_recovery s THEN
    _TAS_setpoint ::= s => _TAS_min s
  ELSE IF s => _percent_undersped s >? FLT_EPSILON THEN
    _TAS_setpoint ::= s =>
      _TAS_min s * _percent_undersped s
      + (Fin 1 - _percent_undersped s) * _TAS_setpoint s
  FI FI ;;
  _TAS_setpoint ::= s => math.constrain (_TAS_setpoint s) (_TAS_min s) (_TAS_max s) ;;
  LET max_tas_rate_sp := s => max_tas_rate_sp s IN
  LET min_tas_rate_sp := s => min_tas_rate_sp s IN
  _TAS_setpoint_adj ::= s => math.constrain (_TAS_setpoint s) (_TAS_min s) (_TAS_max s) ;;
  IF s => airspeed_sensor_enabled s THEN
    _TAS_rate_setpoint ::= s =>
      math.constrain ((_TAS_setpoint_adj s - _tas_state s) * _airspeed_error_gain s)
                     min_tas_rate_sp max_tas_rate_sp
  ELSE
    _TAS_rate_setpoint ::= s => Fin 0
  FI.

Definition runAltitudeControllerSmoothVelocity
    (alt_sp_amsl_m target_climbrate_m_s target_sinkrate_m_s alt_amsl : float) : Stmt :=
  LET target_climbrate_m_s := s => math.min target_climbrate_m_s (_max_climb_rate s) IN
  LET target_sinkrate_m_s := s => math.min target_sinkrate_m_s (_max_sink_rate s) IN
  LET delta_trajectory_to_target_m := s =>
    alt_sp_amsl_m - VS_getCurrentPosition (_alt_control_traj_generator s) IN
  LET height_rate_target := s =>
    math.signNoZero delta_trajectory_to_target_m
    * computeMaxSpeedFromDistance (_jerk_max s) (_vert_accel_limit s)
        (Fl.fabsf delta_trajectory_to_target_m) (Fin 0) IN
  LET height_rate_target := s =>
    math.constrain height_rate_target (- target_sinkrate_m_s) target_climbrate_m_s IN
  _alt_control_traj_generator ::= s =>
    VS_updateDurations height_rate_target (_alt_control_traj_generator s) ;;
  _alt_control_traj_generator ::= s =>
    VS_updateTraj (_dt s) (_alt_control_traj_generator s) ;;
  _hgt_setpoint ::= s => VS_getCurrentPosition (_alt_control_traj_generator s) ;;
  _hgt_rate_setpoint ::= s =>
    (_hgt_setpoint s - alt_amsl) * _height_error_gain s
    + _height_setpoint_gain_ff s * VS_getCurrentVelocity (_alt_control_traj_generator s) ;;
  _hgt_rate_setpoint ::= s =>
    math.constrain (_hgt_rate_setpoint s) (- _max_sink_rate s) (_max_climb_rate s).

Definition _detect_underspeed : Stmt :=
  IF s => negb (_detect_underspeed_enabled s) THEN
    _percent_undersped ::= s => Fin 0
  ELSE
    LET tas_error_bound := s => kTASErrorPercentage * _equivalent_airspeed_trim s IN
    LET tas_underspeed_soft_bound := s =>
      kTASErrorPercentage * _equivalent_airspeed_trim s IN
    LET tas_fully_undersped := s =>
      math.max (_TAS_min s - tas_error_bound - tas_underspeed_soft_bound) (Fin 0) IN
    LET tas_starting_to_underspeed := s =>
      math.max (_TAS_min s - tas_error_bound) tas_fully_undersped IN
    _percent_undersped ::= s =>
      Fin 1 - math.constrain
                ((_tas_state s - tas_fully_undersped)
                 / math.max (tas_starting_to_underspeed - tas_fully_undersped)
                            FLT_EPSILON)
                (Fin 0) (Fin 1)
  FI.

Definition _update_energy_estimates : Stmt :=
  _SPE_setpoint ::= s => _hgt_setpoint s * CONSTANTS_ONE_G ;;
  _SKE_setpoint ::= s => Fin (5 # 10) * _TAS_setpoint_adj s * _TAS_setpoint_adj s ;;
  _STE_error ::= s =>
    _SPE_setpoint s - _SPE_estimate s + _SKE_setpoint s - _SKE_estimate s ;;
  _SEB_error ::= s =>
    SEB_setpoint s
    - (_SPE_estimate s * _SPE_weighting s - _SKE_estimate s * _SKE_weighting s) ;;
  _SPE_rate_setpoint ::= s => _hgt_rate_setpoint s * CONSTANTS_ONE_G ;;
  _SKE_rate_setpoint ::= s => _tas_state s * _TAS_rate_setpoint s ;;
  _SPE_estimate ::= s => _vert_pos_state s * CONSTANTS_ONE_G ;;
  _SKE_estimate ::= s => Fin (5 # 10) * _tas_state s * _tas_state s ;;
  _SPE_rate ::= s => _vert_vel_state s * CONSTANTS_ONE_G ;;
  _SKE_rate ::= s => _tas_state s * _tas_rate_filtered s.

Definition _update_throttle_setpoint : Stmt :=
  _STE_rate_setpoint ::= s => _SPE_rate_setpoint s + _SKE_rate_setpoint s ;;
  _STE_rate_error_filter ::= s =>
    AlphaFilter_update
      (- _SPE_rate s - _SKE_rate s + _SPE_rate_setpoint s + _SKE_rate_setpoint s)
      (_STE_rate_error_filter s) ;;
  _STE_rate_error ::= s => AlphaFilter_getState (_STE_rate_error_filter s) ;;
  _STE_rate_setpoint ::= s =>
    _STE_rate_setpoint s + _load_factor_correction s * (_load_factor s - Fin 1) ;;
  _STE_rate_setpoint ::= s =>
    math.constrain (_STE_rate_setpoint s) (_STE_rate_min s) (_STE_rate_max s) ;;
  LET throttle_predicted := s =>
    if _STE_rate_setpoint s >=? Fin 0 then
      _throttle_trim s
      + _STE_rate_setpoint s / _STE_rate_max s * (_throttle_setpoint_max s - _throttle_trim s)
    else
      _throttle_trim s
      + _STE_rate_setpoint s / _STE_rate_min s * (_throttle_setpoint_min s - _throttle_trim s) IN
  LET STE_rate_to_throttle := s => Fin 1 / (_STE_rate_max s - _STE_rate_min s) IN
  LET throttle_setpoint := s =>
    (_STE_rate_error s * _throttle_damping_gain s) * STE_rate_to_throttle
    + throttle_predicted IN
  LET throttle_setpoint := s =>
    math.constrain throttle_setpoint (_throttle_setpoint_min s) (_throttle_setpoint_max s) IN
  IF s => airspeed_sensor_enabled s THEN
    IF s => _integrator_gain_throttle s >? Fin 0 THEN
      LET integ_state_max := s => _throttle_setpoint_max s - throttle_setpoint IN
      LET integ_state_min := s => _throttle_setpoint_min s - throttle_setpoint IN
      LET throttle_integ_input := s =>
        (_STE_rate_error s * _integrator_gain_throttle s) * _dt s
        * STE_rate_to_throttle * (Fin 1 - _percent_undersped s) IN
      LET throttle_integ_input := s =>
        if _throttle_integ_state s >? integ_state_max
        then math.min (Fin 0) throttle_integ_input
        else if _throttle_integ_state s <? integ_state_min
        then math.max (Fin 0) throttle_integ_input
        else throttle_integ_input IN
      _throttle_integ_state ::= s => _throttle_integ_state s + throttle_integ_input ;;
      IF s => _climbout_mode_active s THEN
        _throttle_integ_state ::= s => integ_state_max
      FI
    ELSE
      _throttle_integ_state ::= s => Fin 0
    FI
  FI ;;
  LET throttle_setpoint := s =>
    if airspeed_sensor_enabled s
    then throttle_setpoint + _throttle_integ_state s
    else throttle_predicted IN
  LET throttle_setpoint := s =>
    _percent_undersped s * _throttle_setpoint_max s
    + (Fin 1 - _percent_undersped s) * throttle_setpoint IN
  LET throttle_setpoint := s =>
    if Fl.fabsf (_throttle_slewrate s) >? Fin (1 # 100) then
      let throttle_increment_limit :=
        _dt s * (_throttle_setpoint_max s - _throttle_setpoint_min s)
        * _throttle_slewrate s in
      math.constrain throttle_setpoint
        (_last_throttle_setpoint s - throttle_increment_limit)
        (_last_throttle_setpoint s + throttle_increment_limit)
    else throttle_setpoint IN
  _last_throttle_setpoint ::= s =>
    math.constrain throttle_setpoint (_throttle_setpoint_min s) (_throttle_setpoint_max s).

Definition _detect_uncommanded_descent : Stmt :=
  LET STE_rate := s => _SPE_rate s + _SKE_rate s IN
  LET underspeed_detected := s => _percent_undersped s >? FLT_EPSILON IN
  LET enter_mode := s =>
    negb (_uncommanded_descent_recovery s) && negb underspeed_detected
    && (_STE_error s >? Fin 200)
    && (STE_rate <? Fin 0)
    && (_last_throttle_setpoint s >=? _throttle_setpoint_max s * Fin (9 # 10)) IN
  LET exit_mode := s =>
    _uncommanded_descent_recovery s
    && (underspeed_detected || (_STE_error s <? Fin 0)) IN
  IF s => enter_mode THEN
    _uncommanded_descent_recovery ::= s => true
  ELSE IF s => exit_mode THEN
    _uncommanded_descent_recovery ::= s => false
  FI FI.

(** The locals [climb_angle_to_SEB_rate] and [pitch_increment] of
    [_update_pitch_setpoint]. *)
Definition climb_angle_to_SEB_rate (s : TECS) : float :=
  _tas_state s * CONSTANTS_ONE_G.

Definition pitch_increment (s : TECS) : float :=
  _dt s * _vert_accel_limit s / _tas_state s.

Definition _update_pitch_setpoint : Stmt :=
  LET SEB_rate_setpoint := s =>
    _SPE_rate_setpoint s * _SPE_weighting s - _SKE_rate_setpoint s * _SKE_weighting s IN
  _SEB_rate_error ::= s =>
    SEB_rate_setpoint - (_SPE_rate s * _SPE_weighting s - _SKE_rate s * _SKE_weighting s) ;;
  LET climb_angle_to_SEB_rate := s => climb_angle_to_SEB_rate s IN
  IF s => _integrator_gain_pitch s >? Fin 0 THEN
    LET pitch_integ_input := s => _SEB_rate_error s * _integrator_gain_pitch s IN
    LET pitch_integ_input := s =>
      if _pitch_setpoint_unc s >? _pitch_setpoint_max s
      then math.min pitch_integ_input (Fin 0)
      else if _pitch_setpoint_unc s <? _pitch_setpoint_min s
      then math.max pitch_integ_input (Fin 0)
      else pitch_integ_input IN
    _pitch_integ_state ::= s => _pitch_integ_state s + pitch_integ_input * _dt s
  ELSE
    _pitch_integ_state ::= s => Fin 0
  FI ;;
  LET SEB_rate_correction := s =>
    _SEB_rate_error s * _pitch_damping_gain s + _pitch_integ_state s
    + _SEB_rate_ff s * SEB_rate_setpoint IN
  LET SEB_rate_correction := s =>
    if _climbout_mode_active s
    then SEB_rate_correction + _pitch_setpoint_min s * climb_angle_to_SEB_rate
    else SEB_rate_correction IN
  _pitch_setpoint_unc ::= s => SEB_rate_correction / climb_angle_to_SEB_rate ;;
  LET pitch_setpoint := s =>
    math.constrain (_pitch_setpoint_unc s) (_pitch_setpoint_min s) (_pitch_setpoint_max s) IN
  LET pitch_increment := s => pitch_increment s IN
  _last_pitch_setpoint ::= s =>
    math.constrain pitch_setpoint
      (_last_pitch_setpoint s - pitch_increment)
      (_last_pitch_setpoint s + pitch_increment).

Definition _updateTrajectoryGenerationConstraints : Stmt :=
  _alt_control_traj_generator ::= s =>
    VS_setMaxJerk (_jerk_max s) (_alt_control_traj_generator s) ;;
  _alt_control_traj_generator ::= s =>
    VS_setMaxAccel (_vert_accel_limit s) (_alt_control_traj_generator s) ;;
  _alt_control_traj_generator ::= s =>
    VS_setMaxVel (Fl.fmaxf (_max_climb_rate s) (_max_sink_rate s))
                 (_alt_control_traj_generator s) ;;
  _velocity_control_traj_generator ::= s =>
    MVS_setMaxJerk (_jerk_max s) (_velocity_control_traj_generator s) ;;
  _velocity_control_traj_generator ::= s =>
    MVS_setMaxAccelUp (_vert_accel_limit s) (_velocity_control_traj_generator s) ;;
  _velocity_control_traj_generator ::= s =>
    MVS_setMaxAccelDown (_vert_accel_limit s) (_velocity_control_traj_generator s) ;;
  _velocity_control_traj_generator ::= s =>
    MVS_setMaxVelUp (_max_sink_rate s) (_velocity_control_traj_generator s) ;;
  _velocity_control_traj_generator ::= s =>
    MVS_setMaxVelDown (_max_climb_rate s) (_velocity_control_traj_generator s).

(** The second half of [_calculateHeightRateSetpoint], from
    [if (control_altitude)] on, with the values the locals have there. *)
Definition _calculateHeightRateSetpoint_control
    (control_altitude : bool)
    (altitude_sp_amsl target_climbrate target_sinkrate altitude_amsl : float) : Stmt :=
  IF s => control_altitude THEN
    runAltitudeControllerSmoothVelocity altitude_sp_amsl target_climbrate target_sinkrate
                                        altitude_amsl
  ELSE
    _alt_control_traj_generator ::= s =>
      VS_setCurrentVelocity (_hgt_rate_setpoint s) (_alt_control_traj_generator s) ;;
    _alt_control_traj_generator ::= s =>
      VS_setCurrentPosition altitude_amsl (_alt_control_traj_generator s) ;;
    _hgt_setpoint ::= s => altitude_amsl
  FI.

Definition _calculateHeightRateSetpoint
    (altitude_sp_amsl height_rate_sp target_climbrate target_sinkrate altitude_amsl : float)
    : Stmt :=
  LET control_altitude := s => true IN
  LET input_is_height_rate := s => Fl.isfinite height_rate_sp IN
  _velocity_control_traj_generator ::= s =>
    MVS_setVelSpFeedback (_hgt_rate_setpoint s) (_velocity_control_traj_generator s) ;;
  IF s => input_is_height_rate THEN
    _velocity_control_traj_generator ::= s =>
      MVS_setCurrentPositionEstimate altitude_amsl (_velocity_control_traj_generator s) ;;
    _velocity_control_traj_generator ::= s =>
      MVS_update (_dt s) height_rate_sp (_velocity_control_traj_generator s) ;;
    _hgt_rate_setpoint ::= s =>
      MVS_getCurrentVelocity (_velocity_control_traj_generator s) ;;
    LET altitude_sp_amsl := s =>
      MVS_getCurrentPosition (_velocity_control_traj_generator s) IN
    LET control_altitude := s => Fl.isfinite altitude_sp_amsl IN
    _calculateHeightRateSetpoint_control control_altitude altitude_sp_amsl
      target_climbrate target_sinkrate altitude_amsl
  ELSE
    _velocity_control_traj_generator ::= s =>
      MVS_reset (Fin 0) (_hgt_rate_setpoint s) (_hgt_setpoint s)
                (_velocity_control_traj_generator s) ;;
    _calculateHeightRateSetpoint_control control_altitude altitude_sp_amsl
      target_climbrate target_sinkrate altitude_amsl
  FI.

Definition _initialize_states
    (pitch throttle_trim baro_altitude pitch_min_climbout EAS2TAS : float) : Stmt :=
  IF s => (_pitch_update_timestamp s =? 0)%Z || (_dt s >? DT_MAX)
          || negb (_states_initialized s) THEN
    _vert_vel_state ::= s => Fin 0 ;;
    _vert_pos_state ::= s => baro_altitude ;;
    _tas_rate_state ::= s => Fin 0 ;;
    _tas_state ::= s => _EAS s * EAS2TAS ;;
    _last_throttle_setpoint ::= s => throttle_trim ;;
    _last_pitch_setpoint ::= s =>
      math.constrain pitch (_pitch_setpoint_min s) (_pitch_setpoint_max s) ;;
    _pitch_setpoint_unc ::= s => _last_pitch_setpoint s ;;
    _TAS_setpoint_last ::= s => _EAS s * EAS2TAS ;;
    _TAS_setpoint_adj ::= s => _TAS_setpoint_last s ;;
    _uncommanded_descent_recovery ::= s => false ;;
    _STE_rate_error ::= s => Fin 0 ;;
    _hgt_setpoint ::= s => baro_altitude ;;
    resetIntegrals ;;
    IF s => (_dt s >? DT_MAX) || (_dt s <? DT_MIN) THEN
      _dt ::= s => DT_DEFAULT
    FI ;;
    resetTrajectoryGenerators baro_altitude
  ELSE IF s => _climbout_mode_active s THEN
    _pitch_setpoint_min ::= s => pitch_min_climbout ;;
    _throttle_setpoint_min ::= s => _throttle_setpoint_max s - Fin (1 # 100) ;;
    _TAS_setpoint_last ::= s => _EAS s * EAS2TAS ;;
    _TAS_setpoint_adj ::= s => _EAS s * EAS2TAS ;;
    _hgt_setpoint ::= s => baro_altitude ;;
    _uncommanded_descent_recovery ::= s => false
  FI FI ;;
  _STE_rate_error_filter ::= s =>
    AlphaFilter_setParameters DT_DEFAULT (_STE_rate_time_const s)
                              (_STE_rate_error_filter s) ;;
  _STE_rate_error_filter ::= s => AlphaFilter_reset (Fin 0) (_STE_rate_error_filter s) ;;
  _TAS_rate_filter ::= s =>
    AlphaFilter_setParameters DT_DEFAULT (_speed_derivative_time_const s)
                              (_TAS_rate_filter s) ;;
  _TAS_rate_filter ::= s => AlphaFilter_reset (Fin 0) (_TAS_rate_filter s) ;;
  _states_initialized ::= s => true.

Definition _update_STE_rate_lim : Stmt :=
  _STE_rate_max ::= s => math.max (_max_climb_rate s) FLT_EPSILON * CONSTANTS_ONE_G ;;
  _STE_rate_min ::= s => - math.max (_min_sink_rate s) FLT_EPSILON * CONSTANTS_ONE_G.

Definition _update_speed_height_weights : Stmt :=
  LET pitch_speed_weight := s => math.constrain (_pitch_speed_weight s) (Fin 0) (Fin 2) IN
  LET pitch_speed_weight := s =>
    if _climbout_mode_active s && airspeed_sensor_enabled s then Fin 2
    else if (_percent_undersped s >? FLT_EPSILON) && airspeed_sensor_enabled s then
      Fin 2 * _percent_undersped s + (Fin 1 - _percent_undersped s) * pitch_speed_weight
    else if negb (airspeed_sensor_enabled s) then Fin 0
    else pitch_speed_weight IN
  _SPE_weighting ::= s => math.constrain (Fin 2 - pitch_speed_weight) (Fin 0) (Fin 1) ;;
  _SKE_weighting ::= s => math.constrain pitch_speed_weight (Fin 0) (Fin 1).

(** The arguments of [update_pitch_throttle], together with the two clock
    readings of the call: [hrt_now] is read on entry, [hrt_now_speed] inside
    [_update_speed_states]. *)
Record StepArgs : Type := {
  hrt_now : Z;
  hrt_now_speed : Z;
  pitch : float;
  baro_altitude : float;
  hgt_setpoint : float;
  EAS_setpoint : float;
  equivalent_airspeed : float;
  eas_to_tas : float;
  climb_out_setpoint : bool;
  pitch_min_climbout : float;
  throttle_min : float;
  throttle_max : float;
  throttle_trim : float;
  pitch_limit_min : float;
  pitch_limit_max : float;
  target_climbrate : float;
  target_sinkrate : float;
  hgt_rate_sp : float
}.

(** The head of [update_pitch_throttle]: the time step and the class
    variables set from the inputs. *)
Definition capture_inputs (a : StepArgs) : Stmt :=
  _dt ::= s => Fl.fmaxf (elapsed (hrt_now a) (_pitch_update_timestamp s)) DT_MIN ;;
  _throttle_setpoint_max ::= s => throttle_max a ;;
  _throttle_setpoint_min ::= s => throttle_min a ;;
  _pitch_setpoint_max ::= s => pitch_limit_max a ;;
  _pitch_setpoint_min ::= s => pitch_limit_min a ;;
  _climbout_mode_active ::= s => climb_out_setpoint a ;;
  _throttle_trim ::= s => throttle_trim a.

(** The tail of [update_pitch_throttle]: the time stamp and the mode for the
    next frame. *)
Definition publish_mode (a : StepArgs) : Stmt :=
  _pitch_update_timestamp ::= s => hrt_now a ;;
  IF s => _percent_undersped s >? FLT_EPSILON THEN
    _tecs_mode ::= s => ECL_TECS_MODE_UNDERSPEED
  ELSE IF s => _uncommanded_descent_recovery s THEN
    _tecs_mode ::= s => ECL_TECS_MODE_BAD_DESCENT
  ELSE IF s => _climbout_mode_active s THEN
    _tecs_mode ::= s => ECL_TECS_MODE_CLIMBOUT
  ELSE
    _tecs_mode ::= s => ECL_TECS_MODE_NORMAL
  FI FI FI.

Definition update_pitch_throttle (a : StepArgs) : Stmt :=
  capture_inputs a ;;
  _initialize_states (pitch a) (throttle_trim a) (baro_altitude a)
                     (pitch_min_climbout a) (eas_to_tas a) ;;
  _updateTrajectoryGenerationConstraints ;;
  _update_speed_states (hrt_now_speed a) (EAS_setpoint a)
                       (equivalent_airspeed a) (eas_to_tas a) ;;
  _update_STE_rate_lim ;;
  _detect_underspeed ;;
  _update_speed_height_weights ;;
  _detect_uncommanded_descent ;;
  _update_speed_setpoint ;;
  _calculateHeightRateSetpoint (hgt_setpoint a) (hgt_rate_sp a)
    (target_climbrate a) (target_sinkrate a) (baro_altitude a) ;;
  _update_energy_estimates ;;
  _update_throttle_setpoint ;;
  _update_pitch_setpoint ;;
  publish_mode a.

End Code.

(** ** A reference implementation of the external components

    Used only to run the controller on concrete inputs.  The filter is the
    first-order IIR the spec describes; the generators carry (position,
    velocity, acceleration) and follow their velocity demand at once, without
    the jerk limiting of the real classes (whose square roots have no exact
    rational value).  No theorem below depends on these choices beyond the
    concrete runs, and each run's conclusion is also shown for every
    implementation. *)

Module Ref.

Record filter : Type := { alpha : float; filter_state : float }.

(** Modelled from the spec: the first-order IIR filter with time constant
    [time_constant], sampled every [sample_interval]. *)
Definition filter_ops : AlphaFilterOps := {|
  AlphaFilter := filter;
  AlphaFilter_setParameters := fun sample_interval time_constant f =>
    let denominator := time_constant + sample_interval in
    if denominator >? FLT_EPSILON
    then {| alpha := sample_interval / denominator; filter_state := filter_state f |}
    else f;
  AlphaFilter_reset := fun sample f =>
    {| alpha := alpha f; filter_state := sample |};
  AlphaFilter_update := fun sample f =>
    {| alpha := alpha f;
       filter_state := filter_state f + alpha f * (sample - filter_state f) |};
  AlphaFilter_getState := filter_state
|}.

Record traj : Type := {
  position : float; velocity : float; acceleration : float; demand : float
}.

Definition traj_reset (accel vel pos : float) (g : traj) : traj :=
  {| position := pos; velocity := vel; acceleration := accel; demand := demand g |}.

Definition traj_step (dt vel_sp : float) (g : traj) : traj :=
  {| position := position g + vel_sp * dt; velocity := vel_sp;
     acceleration := Fin 0; demand := vel_sp |}.

Definition alt_ops : VelocitySmoothingOps := {|
  VelocitySmoothing := traj;
  VS_setMaxJerk := fun _ g => g;
  VS_setMaxAccel := fun _ g => g;
  VS_setMaxVel := fun _ g => g;
  VS_getCurrentPosition := position;
  VS_getCurrentVelocity := velocity;
  VS_setCurrentPosition := fun pos g =>
    {| position := pos; velocity := velocity g;
       acceleration := acceleration g; demand := demand g |};
  VS_setCurrentVelocity := fun vel g =>
    {| position := position g; velocity := vel;
       acceleration := acceleration g; demand := demand g |};
  VS_updateDurations := fun vel_sp g =>
    {| position := position g; velocity := velocity g;
       acceleration := acceleration g; demand := vel_sp |};
  VS_updateTraj := fun dt g => traj_step dt (demand g) g;
  VS_reset := traj_reset;
  computeMaxSpeedFromDistance := fun jerk accel braking_distance final_speed =>
    final_speed + accel * braking_distance
|}.

Definition vel_ops : ManualVelocitySmoothingZOps := {|
  ManualVelocitySmoothingZ := traj;
  MVS_setMaxJerk := fun _ g => g;
  MVS_setMaxAccelUp := fun _ g => g;
  MVS_setMaxAccelDown := fun _ g => g;
  MVS_setMaxVelUp := fun _ g => g;
  MVS_setMaxVelDown := fun _ g => g;
  MVS_setVelSpFeedback := fun _ g => g;
  MVS_setCurrentPositionEstimate := fun pos g =>
    {| position := pos; velocity := velocity g;
       acceleration := acceleration g; demand := demand g |};
  MVS_update := traj_step;
  MVS_getCurrentVelocity := velocity;
  MVS_getCurrentPosition := position;
  MVS_reset := traj_reset
|}.

Definition filter0 : @AlphaFilter filter_ops :=
  {| alpha := Fin 0; filter_state := Fin 0 |}.
Definition traj0 : traj :=
  {| position := Fin 0; velocity := Fin 0; acceleration := Fin 0; demand := Fin 0 |}.
Definition alt_traj0 : @VelocitySmoothing alt_ops := traj0.
Definition vel_traj0 : @ManualVelocitySmoothingZ vel_ops := traj0.

(** A freshly constructed controller: no step taken yet, airspeed sensing
    and underspeed detection enabled, and a plausible tuning (minimum, trim
    and maximum airspeed 19, 20 and 30 m/s as in the spec's scenarios). *)
Definition fresh : @TECS filter_ops alt_ops vel_ops := {|
  _equivalent_airspeed_min := Fin 19;
  _equivalent_airspeed_max := Fin 30;
  _equivalent_airspeed_trim := Fin 20;
  _max_climb_rate := Fin 2;
  _max_sink_rate := Fin 2;
  _min_sink_rate := Fin 1;
  _vert_accel_limit := Fin 7;
  _jerk_max := Fin 1000;
  _pitch_damping_gain := Fin (1 # 10);
  _throttle_damping_gain := Fin (1 # 10);
  _integrator_gain_pitch := Fin (1 # 10);
  _integrator_gain_throttle := Fin (1 # 10);
  _airspeed_error_gain := Fin (1 # 10);
  _height_error_gain := Fin (2 # 10);
  _height_setpoint_gain_ff := Fin 0;
  _pitch_speed_weight := Fin 1;
  _load_factor_correction := Fin 0;
  _load_factor := Fin 1;
  _throttle_slewrate := Fin 0;
  _tas_estimate_freq := Fin 0;
  _speed_derivative_time_const := Fin (2 # 10);
  _STE_rate_time_const := Fin (1 # 10);
  _SEB_rate_ff := Fin 1;
  _airspeed_enabled := true;
  _detect_underspeed_enabled := true;
  _state_update_timestamp := 0;
  _speed_update_timestamp := 0;
  _pitch_update_timestamp := 0;
  _vert_vel_state := Fin 0;
  _vert_pos_state := Fin 0;
  _EAS := Fin 0;
  _tas_rate_state := Fin 0;
  _tas_state := Fin 0;
  _tas_innov := Fin 0;
  _tas_rate_raw := Fin 0;
  _tas_rate_filtered := Fin 0;
  _EAS_setpoint := Fin 0;
  _TAS_setpoint := Fin 0;
  _TAS_setpoint_last := Fin 0;
  _TAS_setpoint_adj := Fin 0;
  _TAS_rate_setpoint := Fin 0;
  _TAS_max := Fin 30;
  _TAS_min := Fin 3;
  _hgt_setpoint := Fin 0;
  _hgt_rate_setpoint := Fin 0;
  _SPE_setpoint := Fin 0;
  _SKE_setpoint := Fin 0;
  _SPE_rate_setpoint := Fin 0;
  _SKE_rate_setpoint := Fin 0;
  _SPE_estimate := Fin 0;
  _SKE_estimate := Fin 0;
  _SPE_rate := Fin 0;
  _SKE_rate := Fin 0;
  _STE_error := Fin 0;
  _STE_rate_error := Fin 0;
  _STE_rate_setpoint := Fin 0;
  _STE_rate_max := Fin 0;
  _STE_rate_min := Fin 0;
  _SEB_error := Fin 0;
  _SEB_rate_error := Fin 0;
  _SPE_weighting := Fin 1;
  _SKE_weighting := Fin 1;
  _throttle_integ_state := Fin 0;
  _pitch_integ_state := Fin 0;
  _last_throttle_setpoint := Fin 0;
  _last_pitch_setpoint := Fin 0;
  _pitch_setpoint_unc := Fin 0;
  _throttle_setpoint_max := Fin 1;
  _throttle_setpoint_min := Fin 0;
  _pitch_setpoint_max := Fin (5 # 10);
  _pitch_setpoint_min := Fin (-5 # 10);
  _throttle_trim := Fin 0;
  _dt := DT_DEFAULT;
  _states_initialized := false;
  _climbout_mode_active := false;
  _uncommanded_descent_recovery := false;
  _percent_undersped := Fin 0;
  _tecs_mode := ECL_TECS_MODE_NORMAL;
  _TAS_rate_filter := filter0;
  _STE_rate_error_filter := filter0;
  _alt_control_traj_generator := alt_traj0;
  _velocity_control_traj_generator := vel_traj0
|}.

(** Level cruise at 100 m and trim airspeed: the arguments of the spec's
    first scenario, the call being made one second after power-up. *)
Definition cruise : StepArgs := {|
  hrt_now := 1000000;
  hrt_now_speed := 1000001;
  pitch := Fin 0;
  baro_altitude := Fin 100;
  hgt_setpoint := Fin 100;
  EAS_setpoint := Fin 20;
  equivalent_airspeed := Fin 20;
  eas_to_tas := Fin 1;
  climb_out_setpoint := false;
  pitch_min_climbout := Fin (17 # 100);
  throttle_min := Fin 0;
  throttle_max := Fin 1;
  throttle_trim := Fin (5 # 10);
  pitch_limit_min := Fin (-5 # 10);
  pitch_limit_max := Fin (5 # 10);
  target_climbrate := Fin 2;
  target_sinkrate := Fin 2;
  hgt_rate_sp := NaN
|}.

End Ref.

(** * Vocabulary of the properties

    [wp c st Q] says that [Q] holds of the object after running [c] from
    [st]; [preserves g c] that [c] leaves the observation [g] of the object
    unchanged. *)

Section Vocabulary.

Context {AF : AlphaFilterOps} {VS : VelocitySmoothingOps}
        {MVS : ManualVelocitySmoothingZOps}.

Definition wp (c : Stmt) (st : TECS) (Q : TECS -> Prop) : Prop := Q (c st).

Definition preserves {T : Type} (g : TECS -> T) (c : Stmt) : Prop :=
  forall st, g (c st) = g st.

(** The ramp of [_detect_underspeed], as a function of the TAS state, of the
    speed below which the aircraft is fully undersped, and of the width of
    the ramp. *)
Definition underspeed_ramp (tas full width : float) : float :=
  Fin 1 - math.constrain ((tas - full) / width) (Fin 0) (Fin 1).

(** The locals [tas_fully_undersped] and [tas_starting_to_underspeed] of
    [_detect_underspeed], and the divisor of its ramp. *)
Definition tas_fully_undersped (s : TECS) : float :=
  math.max (_TAS_min s - kTASErrorPercentage * _equivalent_airspeed_trim s
            - kTASErrorPercentage * _equivalent_airspeed_trim s) (Fin 0).

Definition tas_starting_to_underspeed (s : TECS) : float :=
  math.max (_TAS_min s - kTASErrorPercentage * _equivalent_airspeed_trim s)
           (tas_fully_undersped s).

Definition underspeed_ramp_width (s : TECS) : float :=
  math.max (tas_starting_to_underspeed s - tas_fully_undersped s) FLT_EPSILON.

(** What [_detect_underspeed] guarantees of its bound and ramp width, for
    every minimum and trim airspeed: the bound is not negative, the width is
    positive, and they are not both infinite. *)
Definition ramp_params_ok (full width : float) : Prop :=
  match full, width with
  | Fin v, Fin d => (0 <= v /\ 0 < d)%Q
  | Fin v, PInf => (0 <= v)%Q
  | PInf, Fin d => (0 < d)%Q
  | _, _ => False
  end.

(** The transitions of the uncommanded-descent latch across
    [_detect_uncommanded_descent], from [s] to [s'], for a given reading of
    "no underspeed" ([calm]) and of "underspeed": the latch is set exactly
    on [enter], cleared exactly on [exit], and otherwise unchanged. *)
Definition descent_latch_transition (calm underspeed : Prop) (s s' : TECS) : Prop :=
  let enter :=
    _uncommanded_descent_recovery s = false /\ calm
    /\ Fin 200 < _STE_error s
    /\ _SPE_rate s + _SKE_rate s < Fin 0
    /\ _throttle_setpoint_max s * Fin (9 # 10) <= _last_throttle_setpoint s in
  let exit :=
    _uncommanded_descent_recovery s = true
    /\ (underspeed \/ _STE_error s < Fin 0) in
  (_uncommanded_descent_recovery s = false
   /\ _uncommanded_descent_recovery s' = true <-> enter)
  /\ (_uncommanded_descent_recovery s = true
      /\ _uncommanded_descent_recovery s' = false <-> exit)
  /\ (enter \/ exit
      \/ _uncommanded_descent_recovery s' = _uncommanded_descent_recovery s).

(** The transitions with "percent_undersped is zero" and
    "percent_undersped > 0" read literally. *)
Definition descent_latch_with_zero_threshold (s : TECS) : Prop :=
  descent_latch_transition (_percent_undersped s == Fin 0)
                           (Fin 0 < _percent_undersped s)
                           s (_detect_uncommanded_descent s).

(** The published mode follows the precedence UNDERSPEED > BAD_DESCENT >
    CLIMBOUT > NORMAL, for a given reading of "underspeed". *)
Definition mode_precedence (underspeed : Prop) (s' : TECS) : Prop :=
  (_tecs_mode s' = ECL_TECS_MODE_UNDERSPEED <-> underspeed)
  /\ (_tecs_mode s' = ECL_TECS_MODE_BAD_DESCENT <->
      ~ underspeed /\ _uncommanded_descent_recovery s' = true)
  /\ (_tecs_mode s' = ECL_TECS_MODE_CLIMBOUT <->
      ~ underspeed /\ _uncommanded_descent_recovery s' = false
      /\ _climbout_mode_active s' = true)
  /\ (_tecs_mode s' = ECL_TECS_MODE_NORMAL <->
      ~ underspeed /\ _uncommanded_descent_recovery s' = false
      /\ _climbout_mode_active s' = false).

(** The precedence with "percent_undersped > 0" read literally. *)
Definition mode_precedence_with_zero_threshold (s' : TECS) : Prop :=
  mode_precedence (Fin 0 < _percent_undersped s') s'.


(** The total energy error is the one of the current setpoints and the
    current estimates. *)
Definition STE_error_is_current (s' : TECS) : Prop :=
  _STE_error s' == _SPE_setpoint s' - _SPE_estimate s' + _SKE_setpoint s' - _SKE_estimate s'.

(** The step re-initialises the states: the condition of
    [_initialize_states], on the object as [update_pitch_throttle a] finds
    it. *)
Definition reinitialises (a : StepArgs) (s : TECS) : bool :=
  (_pitch_update_timestamp s =? 0)%Z
  || (Fl.fmaxf (elapsed (hrt_now a) (_pitch_update_timestamp s)) DT_MIN >? DT_MAX)
  || negb (_states_initialized s).

(** The step runs the climbout branch of [_initialize_states], which
    overrides the lower limits passed to the call. *)
Definition climbout_override (a : StepArgs) (s : TECS) : bool :=
  negb (reinitialises a s) && climb_out_setpoint a.

(** The pitch setpoint the rate limit of the step starts from: the one
    published by the previous step or, when the step re-initialises, the
    measured pitch constrained to the limits. *)
Definition previous_pitch_setpoint (a : StepArgs) (s : TECS) : float :=
  if reinitialises a s
  then math.constrain (pitch a) (pitch_limit_min a) (pitch_limit_max a)
  else _last_pitch_setpoint s.

(** [update_pitch_throttle] up to, and without, the throttle law. *)
Definition step_until_throttle_law (a : StepArgs) : Stmt :=
  (capture_inputs a ;;
  _initialize_states (pitch a) (throttle_trim a) (baro_altitude a)
                     (pitch_min_climbout a) (eas_to_tas a) ;;
  _updateTrajectoryGenerationConstraints ;;
  _update_speed_states (hrt_now_speed a) (EAS_setpoint a)
                       (equivalent_airspeed a) (eas_to_tas a) ;;
  _update_STE_rate_lim ;;
  _detect_underspeed ;;
  _update_speed_height_weights ;;
  _detect_uncommanded_descent ;;
  _update_speed_setpoint ;;
  _calculateHeightRateSetpoint (hgt_setpoint a) (hgt_rate_sp a)
    (target_climbrate a) (target_sinkrate a) (baro_altitude a) ;;
  _update_energy_estimates)%stmt.

(** The locals of [_update_throttle_setpoint], read on the object as the
    throttle law leaves it: the predicted (feedforward) throttle, the demand
    with feedback (constrained proportional term plus integrator), the demand
    blended with the underspeed ramp, and what the slew limit (around the
    setpoint [last] of the previous step) and the final constraint make of a
    demand. *)
Definition throttle_predicted (s' : TECS) : float :=
  if _STE_rate_setpoint s' >=? Fin 0 then
    _throttle_trim s'
    + _STE_rate_setpoint s' / _STE_rate_max s'
      * (_throttle_setpoint_max s' - _throttle_trim s')
  else
    _throttle_trim s'
    + _STE_rate_setpoint s' / _STE_rate_min s'
      * (_throttle_setpoint_min s' - _throttle_trim s').

Definition throttle_feedback (s' : TECS) : float :=
  math.constrain
    ((_STE_rate_error s' * _throttle_damping_gain s')
     * (Fin 1 / (_STE_rate_max s' - _STE_rate_min s'))
     + throttle_predicted s')
    (_throttle_setpoint_min s') (_throttle_setpoint_max s')
  + _throttle_integ_state s'.

Definition throttle_demand (s' : TECS) : float :=
  if airspeed_sensor_enabled s' then throttle_feedback s' else throttle_predicted s'.

Definition throttle_blended (s' : TECS) (demand : float) : float :=
  _percent_undersped s' * _throttle_setpoint_max s'
  + (Fin 1 - _percent_undersped s') * demand.

Definition throttle_output (last : float) (s' : TECS) (demand : float) : float :=
  let slewed :=
    if Fl.fabsf (_throttle_slewrate s') >? Fin (1 # 100) then
      let throttle_increment_limit :=
        _dt s' * (_throttle_setpoint_max s' - _throttle_setpoint_min s')
        * _throttle_slewrate s' in
      math.constrain (throttle_blended s' demand)
                     (last - throttle_increment_limit)
                     (last + throttle_increment_limit)
    else throttle_blended s' demand in
  math.constrain slewed (_throttle_setpoint_min s') (_throttle_setpoint_max s').



(** Without airspeed sensing the step leaves the throttle integrator at
    zero. *)
Definition integrator_zeroed_without_airspeed (s s' : TECS) : Prop :=
  _airspeed_enabled s = false -> _throttle_integ_state s' == Fin 0.

(** Airspeed measurements are not being used: the condition tested by
    [_update_speed_states] and [update_vehicle_state_estimates]. *)
Definition airspeed_unused (equivalent_airspeed : float) (s : TECS) : bool :=
  negb (Fl.isfinite equivalent_airspeed) || negb (_airspeed_enabled s).

(** One update of the second-order complementary filter of
    [_update_speed_states], from the TAS state [tas] and the TAS rate state
    [rate], towards [target]: the new TAS state and TAS rate state. *)
Definition tas_filter_update (dt target raw freq tas rate : float) : float * float :=
  let innov := target - tas in
  let rate := rate + innov * freq * freq * dt in
  let input := rate + raw + innov * freq * Fin (14142 # 10000) in
  let new_tas := tas + input * dt in
  if new_tas <? Fin 0
  then (Fin 0, - tas / dt - raw - innov * freq * Fin (14142 # 10000))
  else (new_tas, rate).

(** The TAS state and TAS rate state the filter starts from in a step: reset
    by [_update_speed_states] on its first run, else by [_initialize_states]
    when the step re-initialises, else those of the previous step. *)
Definition speed_filter_start (a : StepArgs) (s : TECS) : float * float :=
  if (_speed_update_timestamp s =? 0)%Z
  then ((if airspeed_unused (equivalent_airspeed a) s
         then _equivalent_airspeed_trim s else equivalent_airspeed a) * eas_to_tas a,
        Fin 0)
  else if reinitialises a s then (_EAS s * eas_to_tas a, Fin 0)
  else (_tas_state s, _tas_rate_state s).

(** When airspeed measurements are not used, the step leaves the TAS state
    at [EAS_trim * EAS2TAS]. *)
Definition tas_locked_to_trim (a : StepArgs) (s s' : TECS) : Prop :=
  airspeed_unused (equivalent_airspeed a) s = true ->
  _tas_state s' == _equivalent_airspeed_trim s * eas_to_tas a.

(** The local [throttle_setpoint] of [_update_throttle_setpoint] before the
    integrator is added: the predicted throttle plus the proportional
    feedback, constrained to the throttle limits; and the bounds
    [integ_state_max] and [integ_state_min] it leaves to the integrator. *)
Definition throttle_proportional (s' : TECS) : float :=
  math.constrain
    ((_STE_rate_error s' * _throttle_damping_gain s')
     * (Fin 1 / (_STE_rate_max s' - _STE_rate_min s'))
     + throttle_predicted s')
    (_throttle_setpoint_min s') (_throttle_setpoint_max s').

Definition integ_state_max (s' : TECS) : float :=
  _throttle_setpoint_max s' - throttle_proportional s'.

Definition integ_state_min (s' : TECS) : float :=
  _throttle_setpoint_min s' - throttle_proportional s'.

(** The input of the throttle integrator, before the anti-windup tests. *)
Definition throttle_integ_input (s' : TECS) : float :=
  (_STE_rate_error s' * _integrator_gain_throttle s') * _dt s'
  * (Fin 1 / (_STE_rate_max s' - _STE_rate_min s'))
  * (Fin 1 - _percent_undersped s').

(** The estimator call is the first one, or comes more than [DT_MAX] after
    the previous one. *)
Definition estimator_stale (now : Z) (s : TECS) : bool :=
  (_state_update_timestamp s =? 0)%Z
  || (Fl.fmaxf (elapsed now (_state_update_timestamp s)) DT_MIN >? DT_MAX).

(** The underspeed detector's output lies in [[0,1]]. *)
Definition percent_undersped_in_unit_interval (s' : TECS) : Prop :=
  Fin 0 <= _percent_undersped s' <= Fin 1.

(** A state reset in a step where airspeed measurements are not used
    initialises the TAS state to the trim-based value [EAS_trim * EAS2TAS]
    (where the filter, driven with that same value, holds it). *)
Definition reset_initialises_tas_from_trim (a : StepArgs) (s s' : TECS) : Prop :=
  airspeed_unused (equivalent_airspeed a) s = true ->
  reinitialises a s = true ->
  _tas_state s' == _equivalent_airspeed_trim s * eas_to_tas a.


End Vocabulary.

(** ** Concrete objects and calls

    The inputs at which statements are evaluated below. *)

Module Cases.

Import Ref.

(** In flight at 16 m/s with a minimum airspeed of 19 m/s. *)
Definition slow_flight : @TECS filter_ops alt_ops vel_ops :=
  fresh.{_TAS_min := Fin 19}.{_tas_state := Fin 16}.

(** The same flight after the underspeed detector has run: half way down
    the ramp. *)
Definition half_undersped : @TECS filter_ops alt_ops vel_ops :=
  _detect_underspeed slow_flight.

(** Sinking at full throttle with a large energy deficit, the underspeed
    ramp one unit in the last place above zero: 2^-24. *)
Definition sinking_at_full_throttle : @TECS filter_ops alt_ops vel_ops :=
  fresh.{_percent_undersped := Fin (1 # 16777216)}
       .{_STE_error := Fin 300}
       .{_SPE_rate := Fin (-1)}
       .{_throttle_setpoint_max := Fin 1}
       .{_last_throttle_setpoint := Fin 1}.

(** A slow airframe (minimum airspeed 2 m/s, trim 10 m/s), read by the
    estimator at 1 - 2^-24 m/s just before its first step. *)
Definition slow_airframe : @TECS filter_ops alt_ops vel_ops :=
  update_vehicle_state_estimates 999000 (Fin (16777215 # 16777216)) (Fin 0)
    true (Fin 100) (Fin 0)
    (fresh.{_equivalent_airspeed_min := Fin 2}
          .{_equivalent_airspeed_trim := Fin 10}).

Definition slow_airframe_call : StepArgs := {|
  hrt_now := 1000000;
  hrt_now_speed := 1000001;
  pitch := Fin 0;
  baro_altitude := Fin 100;
  hgt_setpoint := Fin 100;
  EAS_setpoint := Fin 10;
  equivalent_airspeed := Fin (16777215 # 16777216);
  eas_to_tas := Fin 1;
  climb_out_setpoint := false;
  pitch_min_climbout := Fin (17 # 100);
  throttle_min := Fin 0;
  throttle_max := Fin 1;
  throttle_trim := Fin (5 # 10);
  pitch_limit_min := Fin (-5 # 10);
  pitch_limit_max := Fin (5 # 10);
  target_climbrate := Fin 2;
  target_sinkrate := Fin 2;
  hgt_rate_sp := NaN
|}.

(** Level cruise: the estimator reads 20 m/s at 100 m, just before the
    first step. *)
Definition level_cruise : @TECS filter_ops alt_ops vel_ops :=
  update_vehicle_state_estimates 999000 (Fin 20) (Fin 0) true (Fin 100) (Fin 0) fresh.

(** Standing still on the ground: the estimator reads an airspeed of 0. *)
Definition standstill : @TECS filter_ops alt_ops vel_ops :=
  update_vehicle_state_estimates 999000 (Fin 0) (Fin 0) true (Fin 100) (Fin 0) fresh.

Definition standstill_call : StepArgs := {|
  hrt_now := 1000000;
  hrt_now_speed := 1000001;
  pitch := Fin 0;
  baro_altitude := Fin 100;
  hgt_setpoint := Fin 100;
  EAS_setpoint := Fin 20;
  equivalent_airspeed := Fin 0;
  eas_to_tas := Fin 1;
  climb_out_setpoint := false;
  pitch_min_climbout := Fin (17 # 100);
  throttle_min := Fin 0;
  throttle_max := Fin 1;
  throttle_trim := Fin (5 # 10);
  pitch_limit_min := Fin (-5 # 10);
  pitch_limit_max := Fin (5 # 10);
  target_climbrate := Fin 2;
  target_sinkrate := Fin 2;
  hgt_rate_sp := NaN
|}.




(** A climb to 120 m: the first step with the airspeed sensor, which
    starts the throttle integrator, after which the host disables airspeed
    sensing; and the call of the second step, 20 ms later. *)
Definition climb_call : StepArgs := {|
  hrt_now := 20000;
  hrt_now_speed := 20001;
  pitch := Fin 0;
  baro_altitude := Fin 100;
  hgt_setpoint := Fin 120;
  EAS_setpoint := Fin 20;
  equivalent_airspeed := Fin 20;
  eas_to_tas := Fin 1;
  climb_out_setpoint := false;
  pitch_min_climbout := Fin (17 # 100);
  throttle_min := Fin 0;
  throttle_max := Fin 1;
  throttle_trim := Fin (5 # 10);
  pitch_limit_min := Fin (-5 # 10);
  pitch_limit_max := Fin (5 # 10);
  target_climbrate := Fin 2;
  target_sinkrate := Fin 2;
  hgt_rate_sp := NaN
|}.

Definition climbing_without_airspeed : @TECS filter_ops alt_ops vel_ops :=
  (update_vehicle_state_estimates 39000 (Fin 20) (Fin 0) true (Fin 100) (Fin 0)
     (update_pitch_throttle climb_call
        (update_vehicle_state_estimates 19000 (Fin 20) (Fin 0) true (Fin 100)
           (Fin 0) fresh)))
  .{_airspeed_enabled := false}.

Definition second_climb_call : StepArgs := {|
  hrt_now := 40000;
  hrt_now_speed := 40001;
  pitch := Fin 0;
  baro_altitude := Fin 100;
  hgt_setpoint := Fin 120;
  EAS_setpoint := Fin 20;
  equivalent_airspeed := Fin 20;
  eas_to_tas := Fin 1;
  climb_out_setpoint := false;
  pitch_min_climbout := Fin (17 # 100);
  throttle_min := Fin 0;
  throttle_max := Fin 1;
  throttle_trim := Fin (5 # 10);
  pitch_limit_min := Fin (-5 # 10);
  pitch_limit_max := Fin (5 # 10);
  target_climbrate := Fin 2;
  target_sinkrate := Fin 2;
  hgt_rate_sp := NaN
|}.

(** A cold start without an airspeed reading. *)
Definition cold_start_without_airspeed : @TECS filter_ops alt_ops vel_ops :=
  update_vehicle_state_estimates 999000 NaN (Fin 0) true (Fin 100) (Fin 0) fresh.

Definition cold_start_call : StepArgs := {|
  hrt_now := 1000000;
  hrt_now_speed := 1000001;
  pitch := Fin 0;
  baro_altitude := Fin 100;
  hgt_setpoint := Fin 100;
  EAS_setpoint := Fin 20;
  equivalent_airspeed := NaN;
  eas_to_tas := Fin 1;
  climb_out_setpoint := false;
  pitch_min_climbout := Fin (17 # 100);
  throttle_min := Fin 0;
  throttle_max := Fin 1;
  throttle_trim := Fin (5 # 10);
  pitch_limit_min := Fin (-5 # 10);
  pitch_limit_max := Fin (5 # 10);
  target_climbrate := Fin 2;
  target_sinkrate := Fin 2;
  hgt_rate_sp := NaN
|}.

(** Flying at 25 m/s with a TAS filter of 2 rad/s. *)
Definition fast_call : StepArgs := {|
  hrt_now := 20000;
  hrt_now_speed := 20001;
  pitch := Fin 0;
  baro_altitude := Fin 100;
  hgt_setpoint := Fin 100;
  EAS_setpoint := Fin 20;
  equivalent_airspeed := Fin 25;
  eas_to_tas := Fin 1;
  climb_out_setpoint := false;
  pitch_min_climbout := Fin (17 # 100);
  throttle_min := Fin 0;
  throttle_max := Fin 1;
  throttle_trim := Fin (5 # 10);
  pitch_limit_min := Fin (-5 # 10);
  pitch_limit_max := Fin (5 # 10);
  target_climbrate := Fin 2;
  target_sinkrate := Fin 2;
  hgt_rate_sp := NaN
|}.

Definition fast_flight : @TECS filter_ops alt_ops vel_ops :=
  update_pitch_throttle fast_call
    (update_vehicle_state_estimates 19000 (Fin 25) (Fin 0) true (Fin 100) (Fin 0)
       (fresh.{_tas_estimate_freq := Fin 2})).

(** The airspeed reading is lost in that flight. *)
Definition airspeed_lost : @TECS filter_ops alt_ops vel_ops :=
  update_vehicle_state_estimates 39000 NaN (Fin 0) true (Fin 100) (Fin 0) fast_flight.

(** The airspeed reading and the altitude lock are lost together. *)
Definition airspeed_and_lock_lost : @TECS filter_ops alt_ops vel_ops :=
  update_vehicle_state_estimates 39000 NaN (Fin 0) false (Fin 100) (Fin 0) fast_flight.

Definition airspeed_lost_call : StepArgs := {|
  hrt_now := 40000;
  hrt_now_speed := 40001;
  pitch := Fin 0;
  baro_altitude := Fin 100;
  hgt_setpoint := Fin 100;
  EAS_setpoint := Fin 20;
  equivalent_airspeed := NaN;
  eas_to_tas := Fin 1;
  climb_out_setpoint := false;
  pitch_min_climbout := Fin (17 # 100);
  throttle_min := Fin 0;
  throttle_max := Fin 1;
  throttle_trim := Fin (5 # 10);
  pitch_limit_min := Fin (-5 # 10);
  pitch_limit_max := Fin (5 # 10);
  target_climbrate := Fin 2;
  target_sinkrate := Fin 2;
  hgt_rate_sp := NaN
|}.

(** An aircraft read at 14 m/s, below the bottom of the underspeed ramp
    (15 m/s for a minimum airspeed of 19 m/s and a trim of 20 m/s). *)
Definition stalling : @TECS filter_ops alt_ops vel_ops :=
  update_vehicle_state_estimates 999000 (Fin 14) (Fin 0) true (Fin 100) (Fin 0) fresh.

(** The same aircraft with underspeed detection switched off. *)
Definition stalling_undetected : @TECS filter_ops alt_ops vel_ops :=
  stalling.{_detect_underspeed_enabled := false}.

Definition stalling_call : StepArgs := {|
  hrt_now := 1000000;
  hrt_now_speed := 1000001;
  pitch := Fin 0;
  baro_altitude := Fin 100;
  hgt_setpoint := Fin 100;
  EAS_setpoint := Fin 20;
  equivalent_airspeed := Fin 14;
  eas_to_tas := Fin 1;
  climb_out_setpoint := false;
  pitch_min_climbout := Fin (17 # 100);
  throttle_min := Fin 0;
  throttle_max := Fin 1;
  throttle_trim := Fin (5 # 10);
  pitch_limit_min := Fin (-5 # 10);
  pitch_limit_max := Fin (5 # 10);
  target_climbrate := Fin 2;
  target_sinkrate := Fin 2;
  hgt_rate_sp := NaN
|}.

(** A reading of 1 m/s decelerating at 100 m/s^2: the filter would take the
    TAS state below zero. *)
Definition braking_hard : @TECS filter_ops alt_ops vel_ops :=
  update_vehicle_state_estimates 999000 (Fin 1) (Fin (-100)) true (Fin 100) (Fin 0) fresh.

Definition braking_hard_call : StepArgs := {|
  hrt_now := 1000000;
  hrt_now_speed := 1000001;
  pitch := Fin 0;
  baro_altitude := Fin 100;
  hgt_setpoint := Fin 100;
  EAS_setpoint := Fin 20;
  equivalent_airspeed := Fin 1;
  eas_to_tas := Fin 1;
  climb_out_setpoint := false;
  pitch_min_climbout := Fin (17 # 100);
  throttle_min := Fin 0;
  throttle_max := Fin 1;
  throttle_trim := Fin (5 # 10);
  pitch_limit_min := Fin (-5 # 10);
  pitch_limit_max := Fin (5 # 10);
  target_climbrate := Fin 2;
  target_sinkrate := Fin 2;
  hgt_rate_sp := NaN
|}.

(** Level cruise, 20 ms after a first step, with the uncommanded-descent
    recovery latched. *)
Definition recovering : @TECS filter_ops alt_ops vel_ops :=
  (update_vehicle_state_estimates 1019000 (Fin 20) (Fin 0) true (Fin 100) (Fin 0)
     (update_pitch_throttle cruise level_cruise))
  .{_uncommanded_descent_recovery := true}.

Definition second_cruise_call : StepArgs := {|
  hrt_now := 1020000;
  hrt_now_speed := 1020001;
  pitch := Fin 0;
  baro_altitude := Fin 100;
  hgt_setpoint := Fin 100;
  EAS_setpoint := Fin 20;
  equivalent_airspeed := Fin 20;
  eas_to_tas := Fin 1;
  climb_out_setpoint := false;
  pitch_min_climbout := Fin (17 # 100);
  throttle_min := Fin 0;
  throttle_max := Fin 1;
  throttle_trim := Fin (5 # 10);
  pitch_limit_min := Fin (-5 # 10);
  pitch_limit_max := Fin (5 # 10);
  target_climbrate := Fin 2;
  target_sinkrate := Fin 2;
  hgt_rate_sp := NaN
|}.

(** The climb to 120 m after its first step, airspeed sensing kept on. *)
Definition climbing : @TECS filter_ops alt_ops vel_ops :=
  update_vehicle_state_estimates 39000 (Fin 20) (Fin 0) true (Fin 100) (Fin 0)
    (update_pitch_throttle climb_call
       (update_vehicle_state_estimates 19000 (Fin 20) (Fin 0) true (Fin 100)
          (Fin 0) fresh)).

(** The second step of the climb with the nose held level: an upper pitch
    limit of 0 rad, below the pitch demand of the first step. *)
Definition level_off_call : StepArgs := {|
  hrt_now := 40000;
  hrt_now_speed := 40001;
  pitch := Fin 0;
  baro_altitude := Fin 100;
  hgt_setpoint := Fin 120;
  EAS_setpoint := Fin 20;
  equivalent_airspeed := Fin 20;
  eas_to_tas := Fin 1;
  climb_out_setpoint := false;
  pitch_min_climbout := Fin (17 # 100);
  throttle_min := Fin 0;
  throttle_max := Fin 1;
  throttle_trim := Fin (5 # 10);
  pitch_limit_min := Fin (-5 # 10);
  pitch_limit_max := Fin 0;
  target_climbrate := Fin 2;
  target_sinkrate := Fin 2;
  hgt_rate_sp := NaN
|}.

(** The object of that step as the pitch law finds it. *)
Definition levelling_off : @TECS filter_ops alt_ops vel_ops :=
  _update_throttle_setpoint (step_until_throttle_law level_off_call climbing).

(** The second step of the climb flown as a climbout. *)
Definition climbout_call : StepArgs := {|
  hrt_now := 40000;
  hrt_now_speed := 40001;
  pitch := Fin 0;
  baro_altitude := Fin 100;
  hgt_setpoint := Fin 120;
  EAS_setpoint := Fin 20;
  equivalent_airspeed := Fin 20;
  eas_to_tas := Fin 1;
  climb_out_setpoint := true;
  pitch_min_climbout := Fin (17 # 100);
  throttle_min := Fin 0;
  throttle_max := Fin 1;
  throttle_trim := Fin (5 # 10);
  pitch_limit_min := Fin (-5 # 10);
  pitch_limit_max := Fin (5 # 10);
  target_climbrate := Fin 2;
  target_sinkrate := Fin 2;
  hgt_rate_sp := NaN
|}.

(** The second step of the climb with the throttle capped at the trim
    throttle, as the throttle law finds the object. *)
Definition throttle_capped_call : StepArgs := {|
  hrt_now := 40000;
  hrt_now_speed := 40001;
  pitch := Fin 0;
  baro_altitude := Fin 100;
  hgt_setpoint := Fin 120;
  EAS_setpoint := Fin 20;
  equivalent_airspeed := Fin 20;
  eas_to_tas := Fin 1;
  climb_out_setpoint := false;
  pitch_min_climbout := Fin (17 # 100);
  throttle_min := Fin 0;
  throttle_max := Fin (5 # 10);
  throttle_trim := Fin (5 # 10);
  pitch_limit_min := Fin (-5 # 10);
  pitch_limit_max := Fin (5 # 10);
  target_climbrate := Fin 2;
  target_sinkrate := Fin 2;
  hgt_rate_sp := NaN
|}.

Definition throttle_capped : @TECS filter_ops alt_ops vel_ops :=
  step_until_throttle_law throttle_capped_call climbing.

(** The aircraft read at 14 m/s, with a throttle slew rate of 0.5 of the
    throttle range per second. *)
Definition stalling_slewed : @TECS filter_ops alt_ops vel_ops :=
  stalling.{_throttle_slewrate := Fin (5 # 10)}.

(** Level cruise after its first step, and 19 ms later with fresh
    estimates. *)
Definition after_first_cruise_step : @TECS filter_ops alt_ops vel_ops :=
  update_pitch_throttle cruise level_cruise.

Definition cruising : @TECS filter_ops alt_ops vel_ops :=
  update_vehicle_state_estimates 1019000 (Fin 20) (Fin 0) true (Fin 100) (Fin 0)
    after_first_cruise_step.

(** A call whose clock reading, 0.5 s, is older than the time stamp of the
    first step, 1 s. *)
Definition stale_clock_call : StepArgs := {|
  hrt_now := 500000;
  hrt_now_speed := 500001;
  pitch := Fin 0;
  baro_altitude := Fin 100;
  hgt_setpoint := Fin 100;
  EAS_setpoint := Fin 20;
  equivalent_airspeed := Fin 20;
  eas_to_tas := Fin 1;
  climb_out_setpoint := false;
  pitch_min_climbout := Fin (17 # 100);
  throttle_min := Fin 0;
  throttle_max := Fin 1;
  throttle_trim := Fin (5 # 10);
  pitch_limit_min := Fin (-5 # 10);
  pitch_limit_max := Fin (5 # 10);
  target_climbrate := Fin 2;
  target_sinkrate := Fin 2;
  hgt_rate_sp := NaN
|}.

(** Level cruise after its first step, the estimator having lost its
    altitude lock, with the uncommanded-descent recovery latched. *)
Definition recovering_without_lock : @TECS filter_ops alt_ops vel_ops :=
  (update_vehicle_state_estimates 1019000 (Fin 20) (Fin 0) false (Fin 100) (Fin 0)
     after_first_cruise_step)
  .{_uncommanded_descent_recovery := true}.



End Cases.

(** * Proofs *)

(** ** Running statements *)

Section Logic.

Context {AF : AlphaFilterOps} {VS : VelocitySmoothingOps}
        {MVS : ManualVelocitySmoothingZOps}.

Lemma wp_intro c st (Q : TECS -> Prop) : wp c st Q -> Q (c st).
Proof. exact (fun H => H). Qed.

Lemma wp_seq a b st Q : wp a st (fun st' => wp b st' Q) -> wp (seq a b) st Q.
Proof. exact (fun H => H). Qed.

Lemma wp_skip st (Q : TECS -> Prop) : Q st -> wp skip st Q.
Proof. exact (fun H => H). Qed.

Lemma wp_assign {T} (f : TECS -> T) {H : Setter f} e st (Q : TECS -> Prop) :
  Q (assign f e st) -> wp (assign f e) st Q.
Proof. exact (fun H0 => H0). Qed.

Lemma wp_local {T} (e : TECS -> T) k st Q :
  (forall x, x = e st -> wp (k x) st Q) -> wp (local e k) st Q.
Proof. intros H. apply (H (e st)). reflexivity. Qed.

Lemma wp_local_forget {T} (e : TECS -> T) k st Q :
  (forall x, wp (k x) st Q) -> wp (local e k) st Q.
Proof. intros H. apply (H (e st)). Qed.

Lemma wp_ifelse c a b st Q :
  (c st = true -> wp a st Q) -> (c st = false -> wp b st Q) ->
  wp (ifelse c a b) st Q.
Proof. unfold wp, ifelse. destruct (c st); auto. Qed.

Lemma wp_ifelse_forget c a b st Q :
  wp a st Q -> wp b st Q -> wp (ifelse c a b) st Q.
Proof. unfold wp, ifelse. destruct (c st); auto. Qed.

End Logic.

(** Put a goal about [c st] in the form [wp c st Q]. *)
Ltac wp_start :=
  match goal with
  | |- context [?c ?st] =>
      lazymatch type of c with
      | Stmt => pattern (c st); apply wp_intro
      end
  end.

Ltac wp_head c :=
  lazymatch c with
  | ?f _ => wp_head f
  | _ => c
  end.

Ltac wp_unfold :=
  lazymatch goal with
  | |- wp ?c _ _ => let h := wp_head c in unfold h
  end.

(** One step of forward execution, keeping what is learnt on the way. *)
Ltac wp_step :=
  cbv beta;
  lazymatch goal with
  | |- wp (seq _ _) _ _ => apply wp_seq
  | |- wp skip _ _ => apply wp_skip
  | |- wp (assign _ _) _ _ => apply wp_assign
  | |- wp (local _ _) _ _ =>
      let x := fresh "x" in
      let Hx := fresh "Hx" in
      apply wp_local; intros x Hx; cbn in Hx
  | |- wp (ifelse _ _ _) _ _ =>
      let E := fresh "E" in
      apply wp_ifelse; intros E; cbn in E
  | |- wp _ _ _ => wp_unfold
  end.

(** One step of forward execution that forgets values and conditions: enough
    for members the statement does not write. *)
Ltac wp_frame_step :=
  cbv beta;
  lazymatch goal with
  | |- wp (seq _ _) _ _ => apply wp_seq
  | |- wp skip _ _ => apply wp_skip
  | |- wp (assign _ _) _ _ => apply wp_assign
  | |- wp (local _ _) _ _ => apply wp_local_forget; intro
  | |- wp (ifelse _ _ _) _ _ => apply wp_ifelse_forget
  | |- wp _ _ _ => wp_unfold
  end.

Ltac wp_run := wp_start; repeat wp_step; cbv beta.

Ltac frame :=
  let st := fresh "st" in
  intros st; wp_start; repeat wp_frame_step; cbv beta; reflexivity.

(** ** Facts about the extended rationals *)

Ltac fl_unfold :=
  cbv beta iota delta
    [Fl.le Fl.lt Fl.finite Fl.leb Fl.ltb Fl.gtb Fl.geb Fl.add Fl.sub Fl.mul Fl.div
     Fl.neg Fl.sgn Fl.inf_of Fl.flip CompOpp Fl.isfinite Fl.isnan Fl.fabsf
     Fl.fmaxf Fl.feq math.constrain math.max math.min
     FLT_EPSILON CONSTANTS_ONE_G DT_MIN DT_MAX DT_DEFAULT kTASErrorPercentage] in *.

Ltac q_cases :=
  repeat match goal with
    | |- context [(?x ?= ?y)%Q] => destruct (Qcompare_spec x y)
    | H : context [(?x ?= ?y)%Q] |- _ => destruct (Qcompare_spec x y)
    end.

Ltac q_abstract_div :=
  repeat match goal with
    | |- context [(?a / ?b)%Q] =>
        let r := fresh "r" in set (r := (a / b)%Q) in *; clearbody r
    | H : context [(?a / ?b)%Q] |- _ =>
        let r := fresh "r" in set (r := (a / b)%Q) in *; clearbody r
    end.

Ltac fl_solve :=
  fl_unfold; q_cases; try discriminate; try tauto; try lra.

Module FlFacts.

Lemma constrain_bounds v lo hi :
  Fl.isnan v = false -> lo <= hi -> lo <= math.constrain v lo hi <= hi.
Proof. destruct v, lo, hi; intros Hn Hle; split; fl_solve. Qed.

Lemma constrain_nan v lo hi :
  lo <= hi -> Fl.isnan (math.constrain v lo hi) = false -> Fl.isnan v = false.
Proof. destruct v, lo, hi; intros Hle Hn; fl_solve. Qed.

Lemma max_ge_r x y : Fl.isnan y = false -> y <= math.max x y.
Proof. destruct x, y; intros Hn; fl_solve. Qed.

Lemma le_finite_or_pinf lo x :
  Fl.finite lo -> lo <= x -> x = PInf \/ exists q, x = Fin q.
Proof. destruct lo, x; intros Hf Hle; fl_solve; eauto. Qed.

End FlFacts.

(** ** The underspeed ramp *)

Section Underspeed.

Context {AF : AlphaFilterOps} {VS : VelocitySmoothingOps}
        {MVS : ManualVelocitySmoothingZOps}.

Lemma detect_underspeed_value s :
  _percent_undersped (_detect_underspeed s) =
  if _detect_underspeed_enabled s
  then underspeed_ramp (_tas_state s) (tas_fully_undersped s) (underspeed_ramp_width s)
  else Fin 0.
Proof.
  wp_run.
  - destruct (_detect_underspeed_enabled s); [discriminate | reflexivity].
  - destruct (_detect_underspeed_enabled s); [ | discriminate].
    subst. reflexivity.
Qed.

Lemma ramp_params s :
  ramp_params_ok (tas_fully_undersped s) (underspeed_ramp_width s).
Proof.
  unfold underspeed_ramp_width, tas_starting_to_underspeed, tas_fully_undersped.
  generalize (kTASErrorPercentage * _equivalent_airspeed_trim s).
  generalize (_TAS_min s). intros tas_min bound.
  unfold ramp_params_ok. destruct tas_min, bound; fl_solve.
Qed.

Lemma ramp_range tas full width :
  Fl.finite tas -> ramp_params_ok full width ->
  Fin 0 <= underspeed_ramp tas full width <= Fin 1.
Proof.
  unfold underspeed_ramp, ramp_params_ok.
  destruct tas, full, width; intros Ht Hp; split; fl_solve; q_abstract_div; lra.
Qed.

Lemma Qdiv_le_mono (a b d : Q) : (0 < d)%Q -> (a <= b)%Q -> (a / d <= b / d)%Q.
Proof.
  intros Hd Hab. unfold Qdiv. apply Qmult_le_compat_r; [assumption|].
  apply Qlt_le_weak, Qinv_lt_0_compat, Hd.
Qed.

Lemma ramp_mono t1 t2 full width :
  Fl.finite t1 -> Fl.finite t2 -> t1 <= t2 -> ramp_params_ok full width ->
  underspeed_ramp t2 full width <= underspeed_ramp t1 full width.
Proof.
  unfold underspeed_ramp, ramp_params_ok.
  destruct t1 as [a| | |], t2 as [b| | |], full as [f| | |], width as [d| | |];
    intros H1 H2 Hle Hp; try discriminate; try contradiction.
  - assert (((a + - f) / d <= (b + - f) / d)%Q) by (apply Qdiv_le_mono; fl_solve).
    fl_solve; q_abstract_div; lra.
  - fl_solve.
  - fl_solve.
Qed.

(** C9, amended.  For every finite TAS state the underspeed detector's output
    [_percent_undersped] lies in [0,1]; and with the minimum and trim
    airspeeds (and every other member) held fixed, raising the TAS state from
    its value to any larger [t] does not raise [_percent_undersped]. *)
Theorem percent_undersped_in_unit_interval_and_monotone (s : TECS) (t : float) :
  Fl.finite (_tas_state s) -> Fl.finite t -> _tas_state s <= t ->
  Fin 0 <= _percent_undersped (_detect_underspeed s) <= Fin 1
  /\ _percent_undersped (_detect_underspeed (s.{_tas_state := t}))
     <= _percent_undersped (_detect_underspeed s).
Proof.
  intros Hs Ht Hle.
  rewrite !detect_underspeed_value.
  change (_detect_underspeed_enabled (s.{_tas_state := t}))
    with (_detect_underspeed_enabled s).
  change (tas_fully_undersped (s.{_tas_state := t})) with (tas_fully_undersped s).
  change (underspeed_ramp_width (s.{_tas_state := t})) with (underspeed_ramp_width s).
  change (_tas_state (s.{_tas_state := t})) with t.
  pose proof (ramp_params s) as Hp.
  destruct (_detect_underspeed_enabled s).
  - split; [apply ramp_range | apply ramp_mono]; assumption.
  - split; [split |]; reflexivity.
Qed.

End Underspeed.

(** At 16 m/s the ramp is half way (0.5); at 18 m/s it is back at 0. *)
Lemma percent_undersped_at_16_and_18 :
  Fin 0 <= _percent_undersped (_detect_underspeed Cases.slow_flight) <= Fin 1
  /\ _percent_undersped (_detect_underspeed (Cases.slow_flight.{_tas_state := Fin 18}))
     <= _percent_undersped (_detect_underspeed Cases.slow_flight).
Proof.
  apply (percent_undersped_in_unit_interval_and_monotone Cases.slow_flight (Fin 18));
    vm_compute; reflexivity.
Defined.

(** C9 as written fails: a TAS state that is not a number passes through the
    ramp.  When the airspeed reading and the altitude lock are lost together,
    the next step re-initialises the TAS state from the stored reading, and
    the detector, run on that TAS state, leaves [_percent_undersped] not a
    number: outside [[0,1]]. *)
Lemma percent_undersped_not_a_number_after_airspeed_loss :
  ~ percent_undersped_in_unit_interval
      (update_pitch_throttle Cases.airspeed_lost_call Cases.airspeed_and_lock_lost).
Proof.
  intros [H _]. vm_compute in H. discriminate H.
Qed.

(** ** The speed/height weights *)

Section Weights.

Context {AF : AlphaFilterOps} {VS : VelocitySmoothingOps}
        {MVS : ManualVelocitySmoothingZOps}.

Lemma weights_of_weight w :
  Fl.isnan w = false ->
  let spe := math.constrain (Fin 2 - w) (Fin 0) (Fin 1) in
  let ske := math.constrain w (Fin 0) (Fin 1) in
  Fin 0 <= spe <= Fin 1 /\ Fin 0 <= ske <= Fin 1 /\ Fin 1 <= spe + ske.
Proof.
  cbv zeta. destruct w; intros Hn; repeat split; fl_solve.
Qed.

Lemma underspeed_weight_not_nan p w0 :
  Fl.finite p -> Fl.isnan w0 = false ->
  Fl.isnan (Fin 2 * p + (Fin 1 - p) * math.constrain w0 (Fin 0) (Fin 2)) = false.
Proof.
  destruct p, w0; intros Hp Hw; fl_solve.
Qed.

(** C10.  After the weight-update stage, [_SPE_weighting] and
    [_SKE_weighting] each lie in [0,1] and their sum is at least 1, for every
    configured [_pitch_speed_weight] (any number: not NaN), every finite
    [_percent_undersped] and every combination of the climbout flag and the
    airspeed-sensor flag. *)
Theorem speed_height_weights_in_unit_interval (s : TECS) :
  Fl.isnan (_pitch_speed_weight s) = false ->
  Fl.finite (_percent_undersped s) ->
  Fin 0 <= _SPE_weighting (_update_speed_height_weights s) <= Fin 1
  /\ Fin 0 <= _SKE_weighting (_update_speed_height_weights s) <= Fin 1
  /\ Fin 1 <= _SPE_weighting (_update_speed_height_weights s)
              + _SKE_weighting (_update_speed_height_weights s).
Proof.
  intros Hw Hp. wp_run. cbn.
  apply weights_of_weight.
  subst.
  destruct (_climbout_mode_active s && airspeed_sensor_enabled s); [reflexivity|].
  destruct ((_percent_undersped s >? FLT_EPSILON) && airspeed_sensor_enabled s).
  - apply underspeed_weight_not_nan; assumption.
  - destruct (negb (airspeed_sensor_enabled s)); [reflexivity|].
    destruct (_pitch_speed_weight s); try discriminate; fl_solve.
Qed.

End Weights.

(** Half way down the underspeed ramp, with a configured weight of 1, the
    weights are 0.5 (height) and 1 (speed). *)
Lemma speed_height_weights_when_half_undersped :
  Fin 0 <= _SPE_weighting (_update_speed_height_weights Cases.half_undersped) <= Fin 1
  /\ Fin 0 <= _SKE_weighting (_update_speed_height_weights Cases.half_undersped) <= Fin 1
  /\ Fin 1 <= _SPE_weighting (_update_speed_height_weights Cases.half_undersped)
              + _SKE_weighting (_update_speed_height_weights Cases.half_undersped).
Proof.
  apply (speed_height_weights_in_unit_interval Cases.half_undersped);
    vm_compute; reflexivity.
Defined.

(** ** The uncommanded-descent latch *)

Section Latch.

Context {AF : AlphaFilterOps} {VS : VelocitySmoothingOps}
        {MVS : ManualVelocitySmoothingZOps}.

Lemma descent_latch_value s :
  _uncommanded_descent_recovery (_detect_uncommanded_descent s) =
  if negb (_uncommanded_descent_recovery s)
     && negb (_percent_undersped s >? FLT_EPSILON)
     && (_STE_error s >? Fin 200)
     && (_SPE_rate s + _SKE_rate s <? Fin 0)
     && (_last_throttle_setpoint s >=? _throttle_setpoint_max s * Fin (9 # 10))
  then true
  else if _uncommanded_descent_recovery s
          && ((_percent_undersped s >? FLT_EPSILON) || (_STE_error s <? Fin 0))
  then false
  else _uncommanded_descent_recovery s.
Proof.
  wp_run; subst; cbn.
  - rewrite E. reflexivity.
  - rewrite E, E0. reflexivity.
  - rewrite E, E0. reflexivity.
Qed.

(** C7, amended.  The uncommanded-descent latch becomes true iff it was
    false, no underspeed is detected ([_percent_undersped] does not exceed
    FLT_EPSILON), [_STE_error > 200], [_SPE_rate + _SKE_rate < 0] and
    [_last_throttle_setpoint >= 0.9 * _throttle_setpoint_max]; it becomes
    false iff it was true and an underspeed is detected ([_percent_undersped >
    FLT_EPSILON]) or [_STE_error < 0]; otherwise it is unchanged. *)
Theorem descent_latch_transitions (s : TECS) :
  descent_latch_transition (~ FLT_EPSILON < _percent_undersped s)
                           (FLT_EPSILON < _percent_undersped s)
                           s (_detect_uncommanded_descent s).
Proof.
  unfold descent_latch_transition. cbv zeta.
  rewrite descent_latch_value.
  unfold Fl.lt, Fl.le, Fl.gtb, Fl.geb.
  destruct (_uncommanded_descent_recovery s);
    destruct (FLT_EPSILON <? _percent_undersped s);
    destruct (Fin 200 <? _STE_error s);
    destruct (_SPE_rate s + _SKE_rate s <? Fin 0);
    destruct (_throttle_setpoint_max s * Fin (9 # 10) <=? _last_throttle_setpoint s);
    destruct (_STE_error s <? Fin 0);
    cbn; intuition congruence.
Qed.

End Latch.

(** C7 as written fails: with [_percent_undersped = 2^-24] (not zero, but
    not above FLT_EPSILON either) the latch is set. *)
Lemma descent_latch_set_despite_nonzero_underspeed :
  ~ descent_latch_with_zero_threshold Cases.sinking_at_full_throttle.
Proof.
  intros [[H _] _].
  assert (Hset : _uncommanded_descent_recovery Cases.sinking_at_full_throttle = false
                 /\ _uncommanded_descent_recovery
                      (_detect_uncommanded_descent Cases.sinking_at_full_throttle) = true)
    by (split; vm_compute; reflexivity).
  destruct (H Hset) as (_ & Hzero & _).
  clear H Hset. vm_compute in Hzero. discriminate Hzero.
Qed.

(** ** The published mode *)

Section Mode.

Context {AF : AlphaFilterOps} {VS : VelocitySmoothingOps}
        {MVS : ManualVelocitySmoothingZOps}.

Lemma publish_mode_value a s :
  let s' := publish_mode a s in
  _percent_undersped s' = _percent_undersped s
  /\ _uncommanded_descent_recovery s' = _uncommanded_descent_recovery s
  /\ _climbout_mode_active s' = _climbout_mode_active s
  /\ _tecs_mode s' =
     if _percent_undersped s >? FLT_EPSILON then ECL_TECS_MODE_UNDERSPEED
     else if _uncommanded_descent_recovery s then ECL_TECS_MODE_BAD_DESCENT
     else if _climbout_mode_active s then ECL_TECS_MODE_CLIMBOUT
     else ECL_TECS_MODE_NORMAL.
Proof.
  cbv zeta. wp_run; cbn; repeat split; try reflexivity;
    repeat match goal with H : _ = _ |- _ => rewrite H end; reflexivity.
Qed.

(** C8, amended.  At the end of every step the published [_tecs_mode]
    follows the precedence UNDERSPEED > BAD_DESCENT > CLIMBOUT > NORMAL: it
    is UNDERSPEED iff [_percent_undersped > FLT_EPSILON]; else BAD_DESCENT
    iff the uncommanded-descent latch is set; else CLIMBOUT iff climbout is
    active; else NORMAL. *)
Theorem published_mode_precedence (a : StepArgs) (s : TECS) :
  mode_precedence (FLT_EPSILON < _percent_undersped (update_pitch_throttle a s))
                  (update_pitch_throttle a s).
Proof.
  unfold update_pitch_throttle, seq.
  match goal with |- context [publish_mode a ?st] => generalize st end.
  intros st. unfold mode_precedence.
  destruct (publish_mode_value a st) as (-> & -> & -> & ->).
  unfold Fl.lt, Fl.gtb.
  destruct (FLT_EPSILON <? _percent_undersped st);
    destruct (_uncommanded_descent_recovery st);
    destruct (_climbout_mode_active st);
    intuition congruence.
Qed.

End Mode.

(** C8 as written fails: the first step of an airframe whose TAS state is
    one unit in the last place below the start of the underspeed ramp ends
    with [_percent_undersped = 2^-24 > 0], and the published mode is NORMAL. *)
Lemma mode_normal_despite_nonzero_underspeed :
  ~ mode_precedence_with_zero_threshold
      (update_pitch_throttle Cases.slow_airframe_call Cases.slow_airframe).
Proof.
  intros [[_ H] _].
  assert (Hpos : Fin 0 < _percent_undersped
                   (update_pitch_throttle Cases.slow_airframe_call Cases.slow_airframe))
    by (vm_compute; reflexivity).
  specialize (H Hpos). clear Hpos. vm_compute in H. discriminate H.
Qed.

(** ** Divisions by the TAS state *)

Section Divisions.

Context {AF : AlphaFilterOps} {VS : VelocitySmoothingOps}
        {MVS : ManualVelocitySmoothingZOps}.


End Divisions.



(** What the divisions by zero give there: an unbounded pitch increment and
    a pitch demand that is not a number. *)
Lemma pitch_law_at_standstill :
  let s' := update_pitch_throttle Cases.standstill_call Cases.standstill in
  pitch_increment s' = PInf /\ _pitch_setpoint_unc s' = NaN.
Proof. split; vm_compute; reflexivity. Qed.

(** ** The energy accountant *)

Section Energy.

Context {AF : AlphaFilterOps} {VS : VelocitySmoothingOps}
        {MVS : ManualVelocitySmoothingZOps}.

(** What [_update_energy_estimates] computes: the error is taken against the
    estimates the object held on entry, which are refreshed afterwards. *)
Lemma energy_estimates_value s :
  let s' := _update_energy_estimates s in
  _STE_error s' = _SPE_setpoint s' - _SPE_estimate s + _SKE_setpoint s' - _SKE_estimate s
  /\ _SPE_setpoint s' = _hgt_setpoint s * CONSTANTS_ONE_G
  /\ _SKE_setpoint s' = Fin (5 # 10) * _TAS_setpoint_adj s * _TAS_setpoint_adj s
  /\ _SPE_estimate s' = _vert_pos_state s * CONSTANTS_ONE_G
  /\ _SKE_estimate s' = Fin (5 # 10) * _tas_state s * _tas_state s.
Proof. cbv zeta. repeat split; reflexivity. Qed.

End Energy.

(** C6 at its failing input.  First step in level cruise, on target (100 m,
    20 m/s): the current setpoints equal the current estimates, so the total
    energy error of the claim is 0, while the step leaves [_STE_error =
    1180.665], the error against the estimates of before the step (both 0). *)
Theorem STE_error_stale_on_first_cruise_step :
  let s' := update_pitch_throttle Ref.cruise Cases.level_cruise in
  _STE_error s' == Fin (1180665 # 1000)
  /\ _SPE_setpoint s' - _SPE_estimate s' + _SKE_setpoint s' - _SKE_estimate s' == Fin 0
  /\ ~ STE_error_is_current s'.
Proof.
  cbv zeta. split; [| split].
  - vm_compute. reflexivity.
  - vm_compute. reflexivity.
  - intros H. vm_compute in H. discriminate H.
Qed.

(** ** Members a stage does not write

    [frames g] moves the observation [g] of the object back through every
    stage that leaves it unchanged. *)

Ltac frames g :=
  repeat match goal with
    | |- context [g (?c ?st)] =>
        let F := fresh "F" in
        assert (F : preserves g c) by frame;
        rewrite (F st); clear F
    end.

(** ** The published setpoints and their limits *)

Section Limits.

Context {AF : AlphaFilterOps} {VS : VelocitySmoothingOps}
        {MVS : ManualVelocitySmoothingZOps}.


Lemma initialize_states_limits p tt b pmc E (s : TECS) :
  let reset := (_pitch_update_timestamp s =? 0)%Z || (_dt s >? DT_MAX)
               || negb (_states_initialized s) in
  let s2 := _initialize_states p tt b pmc E s in
  _throttle_setpoint_max s2 = _throttle_setpoint_max s
  /\ _pitch_setpoint_max s2 = _pitch_setpoint_max s
  /\ _throttle_setpoint_min s2 =
     (if negb reset && _climbout_mode_active s
      then _throttle_setpoint_max s - Fin (1 # 100) else _throttle_setpoint_min s)
  /\ _pitch_setpoint_min s2 =
     (if negb reset && _climbout_mode_active s then pmc else _pitch_setpoint_min s)
  /\ _last_pitch_setpoint s2 =
     (if reset then math.constrain p (_pitch_setpoint_min s) (_pitch_setpoint_max s)
      else _last_pitch_setpoint s)
  /\ _throttle_integ_state s2 = (if reset then Fin 0 else _throttle_integ_state s).
Proof.
  cbv zeta. wp_run; cbn.
  all: repeat match goal with H : _ = true |- _ => rewrite H | H : _ = false |- _ => rewrite H end.
  all: cbn; repeat split; reflexivity.
Qed.


Lemma throttle_law_output s :
  _last_throttle_setpoint (_update_throttle_setpoint s) =
  throttle_output (_last_throttle_setpoint s) (_update_throttle_setpoint s)
                  (throttle_demand (_update_throttle_setpoint s)).
Proof.
  wp_run.
  all: unfold throttle_output, throttle_blended, throttle_demand, throttle_feedback,
         throttle_predicted; cbn.
  all: unfold airspeed_sensor_enabled in *;
    repeat match goal with
      | H : _ = true |- _ => rewrite H in *
      | H : _ = false |- _ => rewrite H in *
      end.
  all: subst; reflexivity.
Qed.

Lemma step_split a s :
  update_pitch_throttle a s =
  publish_mode a (_update_pitch_setpoint (_update_throttle_setpoint
    (step_until_throttle_law a s))).
Proof. reflexivity. Qed.

Lemma limits_until_throttle_law a s :
  let s11 := step_until_throttle_law a s in
  _throttle_setpoint_max s11 = throttle_max a
  /\ _pitch_setpoint_max s11 = pitch_limit_max a
  /\ _throttle_setpoint_min s11 =
     (if climbout_override a s then throttle_max a - Fin (1 # 100) else throttle_min a)
  /\ _pitch_setpoint_min s11 =
     (if climbout_override a s then pitch_min_climbout a else pitch_limit_min a)
  /\ _last_pitch_setpoint s11 = previous_pitch_setpoint a s.
Proof.
  cbv zeta. unfold step_until_throttle_law, seq.
  frames (@_throttle_setpoint_max AF VS MVS).
  frames (@_pitch_setpoint_max AF VS MVS).
  frames (@_throttle_setpoint_min AF VS MVS).
  frames (@_pitch_setpoint_min AF VS MVS).
  frames (@_last_pitch_setpoint AF VS MVS).
  destruct (initialize_states_limits (pitch a) (throttle_trim a) (baro_altitude a)
             (pitch_min_climbout a) (eas_to_tas a) (capture_inputs a s))
    as (_ & _ & -> & -> & -> & _).
  repeat split; reflexivity.
Qed.






End Limits.


(** ** The throttle law without airspeed sensing *)

Section NoAirspeed.

Context {AF : AlphaFilterOps} {VS : VelocitySmoothingOps}
        {MVS : ManualVelocitySmoothingZOps}.

Lemma throttle_integ_frozen s :
  _airspeed_enabled s = false ->
  _throttle_integ_state (_update_throttle_setpoint s) = _throttle_integ_state s.
Proof.
  intros Hd. wp_run; unfold airspeed_sensor_enabled in *; try congruence.
  reflexivity.
Qed.

Lemma initialize_states_throttle p tt b pmc E (s : TECS) :
  let reset := (_pitch_update_timestamp s =? 0)%Z || (_dt s >? DT_MAX)
               || negb (_states_initialized s) in
  let s2 := _initialize_states p tt b pmc E s in
  _last_throttle_setpoint s2 = (if reset then tt else _last_throttle_setpoint s)
  /\ _throttle_integ_state s2 = (if reset then Fin 0 else _throttle_integ_state s).
Proof.
  cbv zeta. wp_run; cbn.
  all: repeat match goal with
         | H : _ = true |- _ => rewrite H
         | H : _ = false |- _ => rewrite H
         end.
  all: cbn; repeat split; reflexivity.
Qed.

Lemma throttle_until_throttle_law a s :
  let st := step_until_throttle_law a s in
  _airspeed_enabled st = _airspeed_enabled s
  /\ _last_throttle_setpoint st =
     (if reinitialises a s then throttle_trim a else _last_throttle_setpoint s)
  /\ _throttle_integ_state st =
     (if reinitialises a s then Fin 0 else _throttle_integ_state s).
Proof.
  cbv zeta. unfold step_until_throttle_law, seq.
  frames (@_airspeed_enabled AF VS MVS).
  frames (@_last_throttle_setpoint AF VS MVS).
  frames (@_throttle_integ_state AF VS MVS).
  destruct (initialize_states_throttle (pitch a) (throttle_trim a) (baro_altitude a)
             (pitch_min_climbout a) (eas_to_tas a) (capture_inputs a s))
    as (-> & ->).
  repeat split; reflexivity.
Qed.

Lemma throttle_output_after_pitch_law a last d st :
  throttle_output last (publish_mode a (_update_pitch_setpoint st)) d
  = throttle_output last st d
  /\ throttle_predicted (publish_mode a (_update_pitch_setpoint st))
     = throttle_predicted st
  /\ _throttle_integ_state (publish_mode a (_update_pitch_setpoint st))
     = _throttle_integ_state st
  /\ _last_throttle_setpoint (publish_mode a (_update_pitch_setpoint st))
     = _last_throttle_setpoint st.
Proof.
  unfold throttle_output, throttle_blended, throttle_predicted.
  frames (@_throttle_slewrate AF VS MVS).
  frames (@_percent_undersped AF VS MVS).
  frames (@_throttle_setpoint_max AF VS MVS).
  frames (@_throttle_setpoint_min AF VS MVS).
  frames (@_dt AF VS MVS).
  frames (@_STE_rate_setpoint AF VS MVS).
  frames (@_STE_rate_max AF VS MVS).
  frames (@_STE_rate_min AF VS MVS).
  frames (@_throttle_trim AF VS MVS).
  frames (@_throttle_integ_state AF VS MVS).
  frames (@_last_throttle_setpoint AF VS MVS).
  repeat split; reflexivity.
Qed.

(** C5, amended.  For every step with airspeed sensing disabled, the
    throttle law uses the feedforward (predicted) throttle only: the published
    throttle is the predicted throttle, blended with the underspeed ramp,
    slew-limited around the previous setpoint and constrained; neither the
    proportional feedback nor the integrator is added.  The throttle
    integrator state is left as it was (and is zero when the step
    re-initialises the states). *)
Theorem throttle_feedforward_only_without_airspeed (a : StepArgs) (s : TECS) :
  _airspeed_enabled s = false ->
  let s' := update_pitch_throttle a s in
  _last_throttle_setpoint s' =
    throttle_output
      (if reinitialises a s then throttle_trim a else _last_throttle_setpoint s)
      s' (throttle_predicted s')
  /\ _throttle_integ_state s' =
     (if reinitialises a s then Fin 0 else _throttle_integ_state s).
Proof.
  intros Hd. cbv zeta. rewrite step_split.
  destruct (throttle_until_throttle_law a s) as (Hen & Hlast & Hinteg).
  rewrite Hd in Hen. revert Hen Hlast Hinteg.
  generalize (step_until_throttle_law a s). intros st Hen Hlast Hinteg.
  destruct (throttle_output_after_pitch_law a
              (if reinitialises a s then throttle_trim a else _last_throttle_setpoint s)
              (throttle_predicted (_update_throttle_setpoint st))
              (_update_throttle_setpoint st)) as (Hout & -> & -> & ->).
  rewrite Hout.
  rewrite <- Hlast, <- Hinteg. split.
  - rewrite throttle_law_output. unfold throttle_demand, airspeed_sensor_enabled.
    assert (F : preserves (@_airspeed_enabled AF VS MVS) _update_throttle_setpoint) by frame.
    rewrite (F st), Hen. reflexivity.
  - apply throttle_integ_frozen. exact Hen.
Qed.

End NoAirspeed.

(** The second step of the climb, airspeed sensing disabled: the published
    throttle is the predicted 0.504 and the integrator keeps its value. *)
Lemma throttle_feedforward_only_in_climb :
  let s' := update_pitch_throttle Cases.second_climb_call Cases.climbing_without_airspeed in
  _last_throttle_setpoint s' =
    throttle_output
      (if reinitialises Cases.second_climb_call Cases.climbing_without_airspeed
       then throttle_trim Cases.second_climb_call
       else _last_throttle_setpoint Cases.climbing_without_airspeed)
      s' (throttle_predicted s')
  /\ _throttle_integ_state s' =
     (if reinitialises Cases.second_climb_call Cases.climbing_without_airspeed
      then Fin 0 else _throttle_integ_state Cases.climbing_without_airspeed).
Proof.
  apply (throttle_feedforward_only_without_airspeed
           Cases.second_climb_call Cases.climbing_without_airspeed).
  reflexivity.
Defined.

(** C5 as written fails: in that step the integrator is not zeroed, it keeps
    the value 1/1125000 the first step gave it. *)
Lemma throttle_integrator_kept_without_airspeed :
  ~ integrator_zeroed_without_airspeed Cases.climbing_without_airspeed
      (update_pitch_throttle Cases.second_climb_call Cases.climbing_without_airspeed).
Proof.
  intros H. specialize (H eq_refl). vm_compute in H. discriminate H.
Qed.

(** ** The speed filter when airspeed measurements are not used *)

Section SensorLoss.

Context {AF : AlphaFilterOps} {VS : VelocitySmoothingOps}
        {MVS : ManualVelocitySmoothingZOps}.

Lemma update_speed_states_value now sp eas E (s : TECS) :
  let s' := _update_speed_states now sp eas E s in
  let dt := math.constrain (elapsed now (_speed_update_timestamp s)) DT_MIN DT_MAX in
  let eas_used := if airspeed_unused eas s then _equivalent_airspeed_trim s else eas in
  let first := (_speed_update_timestamp s =? 0)%Z in
  let tas0 := if first then eas_used * E else _tas_state s in
  let rate0 := if first then Fin 0 else _tas_rate_state s in
  let upd := tas_filter_update dt (eas_used * E) (_tas_rate_raw s)
               (_tas_estimate_freq s) tas0 rate0 in
  _EAS s' = eas_used
  /\ _tas_innov s' = eas_used * E - tas0
  /\ _tas_state s' = fst upd
  /\ _tas_rate_state s' = snd upd.
Proof.
  cbv zeta. unfold tas_filter_update, airspeed_unused.
  wp_run; cbn.
  all: unfold airspeed_sensor_enabled in *;
    repeat match goal with
      | H : _ = true |- _ => rewrite H in *
      | H : _ = false |- _ => rewrite H in *
      end.
  all: subst; cbn.
  all: repeat match goal with
      | H : _ = true |- _ => rewrite H in *
      | H : _ = false |- _ => rewrite H in *
      end; repeat split; try reflexivity.
Qed.

(** The filter stays at its target once there. *)
Lemma tas_filter_fixed_point dt target raw freq tas rate :
  Fl.finite dt -> Fl.finite target -> Fin 0 <= target -> Fl.finite freq ->
  tas == target -> rate == Fin 0 -> raw == Fin 0 ->
  fst (tas_filter_update dt target raw freq tas rate) == target
  /\ snd (tas_filter_update dt target raw freq tas rate) == Fin 0.
Proof.
  unfold tas_filter_update.
  destruct dt as [d| | |], target as [t| | |], raw as [r| | |], freq as [w| | |],
    tas as [x| | |], rate as [y| | |]; intros H1 H2 H3 H4 H5 H6 H7;
    try discriminate; try contradiction.
  fl_unfold.
  assert (Hrate : (y + (t + - x) * w * w * d == 0)%Q)
    by (rewrite H5, H6; ring).
  assert (Hnew : (x + (y + (t + - x) * w * w * d + r + (t + - x) * w * (14142 # 10000)) * d
                  == t)%Q)
    by (rewrite H5, H6, H7; ring).
  revert Hrate Hnew.
  generalize (x + (y + (t + - x) * w * w * d + r + (t + - x) * w * (14142 # 10000)) * d)%Q.
  generalize (y + (t + - x) * w * w * d)%Q.
  intros rate1 new Hrate Hnew.
  q_cases; cbn; try (split; assumption); lra.
Qed.

Lemma initialize_states_speed p tt b pmc E (s : TECS) :
  let reset := (_pitch_update_timestamp s =? 0)%Z || (_dt s >? DT_MAX)
               || negb (_states_initialized s) in
  let s2 := _initialize_states p tt b pmc E s in
  _tas_state s2 = (if reset then _EAS s * E else _tas_state s)
  /\ _tas_rate_state s2 = (if reset then Fin 0 else _tas_rate_state s)
  /\ _tas_rate_raw s2 = _tas_rate_raw s
  /\ _tas_estimate_freq s2 = _tas_estimate_freq s
  /\ _speed_update_timestamp s2 = _speed_update_timestamp s
  /\ _airspeed_enabled s2 = _airspeed_enabled s
  /\ _equivalent_airspeed_trim s2 = _equivalent_airspeed_trim s.
Proof.
  cbv zeta. wp_run; cbn.
  all: repeat match goal with
         | H : _ = true |- _ => rewrite H
         | H : _ = false |- _ => rewrite H
         end.
  all: cbn; repeat split; reflexivity.
Qed.

Lemma vehicle_state_estimates_rates now eas sdf lock alt vz (s : TECS) :
  airspeed_unused eas s = true ->
  _tas_rate_raw (update_vehicle_state_estimates now eas sdf lock alt vz s) = Fin 0
  /\ _tas_rate_filtered (update_vehicle_state_estimates now eas sdf lock alt vz s)
     = Fin 0.
Proof.
  unfold airspeed_unused. intros Hu. wp_run; cbn; try (split; reflexivity).
  all: unfold airspeed_sensor_enabled in *;
    destruct (Fl.isfinite eas), (_airspeed_enabled s); discriminate.
Qed.

(** The speed states a step publishes, from the states it started with. *)
Lemma speed_filter_published a s :
  let s' := update_pitch_throttle a s in
  let eas_used := if airspeed_unused (equivalent_airspeed a) s
                  then _equivalent_airspeed_trim s else equivalent_airspeed a in
  let dt := math.constrain (elapsed (hrt_now_speed a) (_speed_update_timestamp s))
                           DT_MIN DT_MAX in
  let upd := tas_filter_update dt (eas_used * eas_to_tas a) (_tas_rate_raw s)
               (_tas_estimate_freq s) (fst (speed_filter_start a s))
               (snd (speed_filter_start a s)) in
  _EAS s' = eas_used
  /\ _tas_innov s' = eas_used * eas_to_tas a - fst (speed_filter_start a s)
  /\ _tas_state s' = fst upd
  /\ _tas_rate_state s' = snd upd.
Proof.
  cbv zeta. unfold update_pitch_throttle, seq.
  frames (@_EAS AF VS MVS).
  frames (@_tas_innov AF VS MVS).
  match goal with
  | |- context [_update_speed_states ?n ?sp ?e ?E ?st] =>
      destruct (update_speed_states_value n sp e E st) as (H1 & H2 & H3 & H4);
      revert H1 H2 H3 H4; generalize (_update_speed_states n sp e E st)
  end.
  intros s4 H1 H2 H3 H4.
  frames (@_tas_state AF VS MVS).
  frames (@_tas_rate_state AF VS MVS).
  rewrite H1, H2, H3, H4. clear s4 H1 H2 H3 H4.
  destruct (initialize_states_speed (pitch a) (throttle_trim a) (baro_altitude a)
             (pitch_min_climbout a) (eas_to_tas a) (capture_inputs a s))
    as (H1 & H2 & H3 & H4 & H5 & H6 & H7).
  revert H1 H2 H3 H4 H5 H6 H7.
  generalize (_initialize_states (pitch a) (throttle_trim a) (baro_altitude a)
             (pitch_min_climbout a) (eas_to_tas a) (capture_inputs a s)).
  intros s2 H1 H2 H3 H4 H5 H6 H7.
  unfold speed_filter_start, airspeed_unused.
  frames (@_tas_rate_raw AF VS MVS).
  frames (@_tas_estimate_freq AF VS MVS).
  frames (@_speed_update_timestamp AF VS MVS).
  frames (@_airspeed_enabled AF VS MVS).
  frames (@_equivalent_airspeed_trim AF VS MVS).
  frames (@_tas_state AF VS MVS).
  frames (@_tas_rate_state AF VS MVS).
  rewrite H1, H2, H3, H4, H5, H6, H7.
  change ((_pitch_update_timestamp (capture_inputs a s) =? 0)%Z
          || (_dt (capture_inputs a s) >? DT_MAX)
          || negb (_states_initialized (capture_inputs a s)))
    with (reinitialises a s).
  change (_speed_update_timestamp (capture_inputs a s)) with (_speed_update_timestamp s).
  change (_airspeed_enabled (capture_inputs a s)) with (_airspeed_enabled s).
  change (_equivalent_airspeed_trim (capture_inputs a s))
    with (_equivalent_airspeed_trim s).
  change (_EAS (capture_inputs a s)) with (_EAS s).
  change (_tas_state (capture_inputs a s)) with (_tas_state s).
  change (_tas_rate_state (capture_inputs a s)) with (_tas_rate_state s).
  change (_tas_rate_raw (capture_inputs a s)) with (_tas_rate_raw s).
  change (_tas_estimate_freq (capture_inputs a s)) with (_tas_estimate_freq s).
  destruct (_speed_update_timestamp s =? 0)%Z, (reinitialises a s);
    repeat split; reflexivity.
Qed.

(** The speed filter when airspeed measurements are not used.  For every
    step in which the equivalent airspeed input is not finite or airspeed
    sensing is disabled, the speed filter is driven with EAS :=
    [_equivalent_airspeed_trim]: [_EAS] is the trim airspeed and the
    innovation is [EAS_trim * EAS2TAS] minus the TAS state the filter starts
    from ([speed_filter_start]); the TAS state is held at [EAS_trim * EAS2TAS]
    once the filter starts there with a zero rate state and a zero raw rate,
    as it does on the first run of the filter.  In that condition
    [update_vehicle_state_estimates] sets [_tas_rate_raw] and
    [_tas_rate_filtered] to 0. *)
Theorem speed_filter_driven_with_trim_when_airspeed_unused
    (a : StepArgs) (s : TECS) (now : Z) (speed_deriv_forward : float)
    (altitude_lock : bool) (altitude vz : float) :
  airspeed_unused (equivalent_airspeed a) s = true ->
  let s' := update_pitch_throttle a s in
  let target := _equivalent_airspeed_trim s * eas_to_tas a in
  let e := update_vehicle_state_estimates now (equivalent_airspeed a)
             speed_deriv_forward altitude_lock altitude vz s in
  _EAS s' = _equivalent_airspeed_trim s
  /\ _tas_innov s' = target - fst (speed_filter_start a s)
  /\ (Fl.finite target -> Fin 0 <= target -> Fl.finite (_tas_estimate_freq s) ->
      fst (speed_filter_start a s) == target ->
      snd (speed_filter_start a s) == Fin 0 ->
      _tas_rate_raw s == Fin 0 ->
      _tas_state s' == target /\ _tas_rate_state s' == Fin 0)
  /\ _tas_rate_raw e = Fin 0 /\ _tas_rate_filtered e = Fin 0.
Proof.
  intros Hu. cbv zeta.
  destruct (speed_filter_published a s) as (HE & Hi & Hf & Hr).
  rewrite Hu in HE, Hi, Hf, Hr.
  split; [exact HE |]. split; [exact Hi |]. split.
  - intros H1 H2 H3 H4 H5 H6.
    assert (Hdt : Fl.finite (math.constrain
               (elapsed (hrt_now_speed a) (_speed_update_timestamp s)) DT_MIN DT_MAX))
      by (unfold elapsed, Fl.of_uint64; fl_solve).
    rewrite Hf, Hr.
    exact (tas_filter_fixed_point _ _ _ _ _ _ Hdt H1 H2 H3 H4 H5 H6).
  - apply vehicle_state_estimates_rates. exact Hu.
Qed.

End SensorLoss.

(** A cold start without an airspeed reading: the filter starts at the trim
    airspeed of 20 m/s and the TAS state is held there. *)
Lemma speed_filter_held_at_trim_on_cold_start :
  let a := Cases.cold_start_call in
  let s := Cases.cold_start_without_airspeed in
  let s' := update_pitch_throttle a s in
  let e := update_vehicle_state_estimates 1019000 (equivalent_airspeed a) (Fin 0) true
             (Fin 100) (Fin 0) s in
  _EAS s' = _equivalent_airspeed_trim s
  /\ (_tas_state s' == _equivalent_airspeed_trim s * eas_to_tas a
      /\ _tas_rate_state s' == Fin 0)
  /\ _tas_rate_raw e = Fin 0 /\ _tas_rate_filtered e = Fin 0.
Proof.
  cbv zeta.
  assert (Hu : airspeed_unused (equivalent_airspeed Cases.cold_start_call)
                 Cases.cold_start_without_airspeed = true)
    by (vm_compute; reflexivity).
  destruct (speed_filter_driven_with_trim_when_airspeed_unused
              Cases.cold_start_call Cases.cold_start_without_airspeed
              1019000 (Fin 0) true (Fin 100) (Fin 0) Hu)
    as (H1 & _ & H3 & H4).
  split; [exact H1 |]. split; [| exact H4].
  refine (H3 _ _ _ _ _ _); vm_compute; reflexivity.
Defined.

(** The filter moves the TAS state towards the trim value, it does not set
    it: when the airspeed reading is lost in flight at 25 m/s (filter
    frequency 2 rad/s), the next step leaves the TAS state at 24.7092 m/s. *)
Lemma tas_state_not_locked_when_airspeed_lost :
  ~ tas_locked_to_trim Cases.airspeed_lost_call Cases.airspeed_lost
      (update_pitch_throttle Cases.airspeed_lost_call Cases.airspeed_lost).
Proof.
  intros H. specialize (H eq_refl). vm_compute in H. discriminate H.
Qed.

(** C4 at its failing input.  The airspeed reading and the altitude lock
    are lost together in flight: [update_vehicle_state_estimates] stores the
    reading, which is not a number, in [_EAS], and clears
    [_states_initialized].  The next step, with airspeed measurements unused,
    re-initialises the states: [_initialize_states] sets the TAS state from
    the stored [_EAS], not from the trim airspeed, and the filter keeps it.
    The step ends with a TAS state that is not a number, where the claim has
    [EAS_trim * EAS2TAS = 20], and publishes a throttle and a pitch that are
    not numbers. *)
Theorem tas_state_reset_from_stored_reading_not_trim :
  let a := Cases.airspeed_lost_call in
  let s := Cases.airspeed_and_lock_lost in
  let s' := update_pitch_throttle a s in
  airspeed_unused (equivalent_airspeed a) s = true
  /\ reinitialises a s = true
  /\ _EAS s = NaN
  /\ _equivalent_airspeed_trim s * eas_to_tas a == Fin 20
  /\ _tas_state s' = NaN
  /\ _last_throttle_setpoint s' = NaN /\ _last_pitch_setpoint s' = NaN
  /\ ~ reset_initialises_tas_from_trim a s s'.
Proof.
  cbv zeta.
  assert (Hu : airspeed_unused (equivalent_airspeed Cases.airspeed_lost_call)
                 Cases.airspeed_and_lock_lost = true) by (vm_compute; reflexivity).
  assert (Hre : reinitialises Cases.airspeed_lost_call Cases.airspeed_and_lock_lost = true)
    by (vm_compute; reflexivity).
  split; [exact Hu |]. split; [exact Hre |].
  split; [vm_compute; reflexivity |]. split; [vm_compute; reflexivity |].
  split; [vm_compute; reflexivity |]. split; [vm_compute; reflexivity |].
  split; [vm_compute; reflexivity |].
  intros H. specialize (H Hu Hre). clear Hu Hre. vm_compute in H. exact H.
Qed.

(** * Further properties of the stages *)

(** ** Underspeed across a whole step *)

Section UnderspeedStep.

Context {AF : AlphaFilterOps} {VS : VelocitySmoothingOps}
        {MVS : ManualVelocitySmoothingZOps}.

Lemma ramp_at_bottom tas full width :
  ramp_params_ok full width -> Fl.finite tas -> tas <= full ->
  underspeed_ramp tas full width == Fin 1.
Proof.
  unfold underspeed_ramp, ramp_params_ok.
  destruct tas as [t| | |], full as [f| | |], width as [d| | |];
    intros Hp Ht Hle; try discriminate; try contradiction.
  - assert (((t + - f) / d <= 0)%Q).
    { assert (H0 : (0 == 0 / d)%Q) by (unfold Qdiv; ring).
      rewrite H0. apply Qdiv_le_mono; fl_solve. }
    fl_solve; q_abstract_div; lra.
  - fl_solve.
  - fl_solve.
Qed.

Lemma percent_undersped_published a s :
  let s' := update_pitch_throttle a s in
  _percent_undersped s' =
  if _detect_underspeed_enabled s
  then underspeed_ramp (_tas_state s') (tas_fully_undersped s') (underspeed_ramp_width s')
  else Fin 0.
Proof.
  cbv zeta. unfold underspeed_ramp_width, tas_starting_to_underspeed, tas_fully_undersped.
  unfold update_pitch_throttle, seq.
  match goal with
  | |- context [_detect_underspeed ?st] =>
      assert (Hen : _detect_underspeed_enabled st = _detect_underspeed_enabled s)
        by (frames (@_detect_underspeed_enabled AF VS MVS); reflexivity);
      pose proof (detect_underspeed_value st) as Hv;
      assert (P1 : preserves (@_tas_state AF VS MVS) _detect_underspeed) by frame;
      assert (P2 : preserves (@_TAS_min AF VS MVS) _detect_underspeed) by frame;
      assert (P3 : preserves (@_equivalent_airspeed_trim AF VS MVS) _detect_underspeed)
        by frame;
      specialize (P1 st); specialize (P2 st); specialize (P3 st);
      revert Hen Hv P1 P2 P3; generalize (_detect_underspeed st); generalize st
  end.
  intros st s5 Hen Hv P1 P2 P3.
  frames (@_percent_undersped AF VS MVS).
  frames (@_tas_state AF VS MVS).
  frames (@_TAS_min AF VS MVS).
  frames (@_equivalent_airspeed_trim AF VS MVS).
  rewrite Hv, P1, P2, P3, Hen.
  reflexivity.
Qed.

Lemma mode_published a s :
  let s' := update_pitch_throttle a s in
  _tecs_mode s' =
  if _percent_undersped s' >? FLT_EPSILON then ECL_TECS_MODE_UNDERSPEED
  else if _uncommanded_descent_recovery s' then ECL_TECS_MODE_BAD_DESCENT
  else if _climbout_mode_active s' then ECL_TECS_MODE_CLIMBOUT
  else ECL_TECS_MODE_NORMAL.
Proof.
  cbv zeta. unfold update_pitch_throttle, seq.
  match goal with |- context [publish_mode a ?st] => generalize st end.
  intros st. destruct (publish_mode_value a st) as (-> & -> & -> & ->).
  reflexivity.
Qed.

Lemma throttle_demand_after_pitch_law a st :
  throttle_demand (publish_mode a (_update_pitch_setpoint st)) = throttle_demand st.
Proof.
  unfold throttle_demand, throttle_feedback, throttle_predicted, airspeed_sensor_enabled.
  frames (@_airspeed_enabled AF VS MVS).
  frames (@_STE_rate_error AF VS MVS).
  frames (@_throttle_damping_gain AF VS MVS).
  frames (@_STE_rate_setpoint AF VS MVS).
  frames (@_STE_rate_max AF VS MVS).
  frames (@_STE_rate_min AF VS MVS).
  frames (@_throttle_trim AF VS MVS).
  frames (@_throttle_setpoint_max AF VS MVS).
  frames (@_throttle_setpoint_min AF VS MVS).
  frames (@_throttle_integ_state AF VS MVS).
  reflexivity.
Qed.

Lemma throttle_published a s :
  let s' := update_pitch_throttle a s in
  _last_throttle_setpoint s' =
    throttle_output (_last_throttle_setpoint (step_until_throttle_law a s)) s'
                    (throttle_demand s')
  /\ _throttle_setpoint_max s' = throttle_max a
  /\ _throttle_slewrate s' = _throttle_slewrate s.
Proof.
  cbv zeta. rewrite step_split.
  destruct (limits_until_throttle_law a s) as (Hmax & _).
  assert (Hslew : _throttle_slewrate (step_until_throttle_law a s) = _throttle_slewrate s)
    by (unfold step_until_throttle_law, seq; frames (@_throttle_slewrate AF VS MVS);
        reflexivity).
  revert Hmax Hslew. generalize (step_until_throttle_law a s). intros st Hmax Hslew.
  rewrite throttle_demand_after_pitch_law.
  destruct (throttle_output_after_pitch_law a (_last_throttle_setpoint st)
              (throttle_demand (_update_throttle_setpoint st))
              (_update_throttle_setpoint st)) as (-> & _ & _ & ->).
  split; [apply throttle_law_output |].
  frames (@_throttle_setpoint_max AF VS MVS).
  frames (@_throttle_slewrate AF VS MVS).
  split; assumption.
Qed.

Lemma blend_at_full_underspeed p hi demand :
  p == Fin 1 -> Fl.finite hi -> Fl.finite demand ->
  p * hi + (Fin 1 - p) * demand == hi.
Proof.
  destruct p as [q| | |], hi as [m| | |], demand as [d| | |];
    intros Hq Hm Hd; try discriminate; try contradiction.
  fl_unfold. rewrite Hq. ring.
Qed.

Lemma constrain_at_upper_limit x lo hi :
  x == hi -> Fl.finite hi -> lo <= hi -> math.constrain x lo hi == hi.
Proof.
  destruct x, lo, hi; intros Hx Hh Hl; try discriminate; try contradiction; fl_solve.
Qed.

(** X1.  Whenever a step of [update_pitch_throttle] with underspeed
    detection enabled ends with a finite TAS state at or below the bottom of
    the underspeed ramp, [max(TAS_min - 2 * 0.1 * EAS_trim, 0)], it ends with
    [_percent_undersped = 1] and mode UNDERSPEED, and the throttle law blends
    every finite demand to [throttle_max]; that is also the published
    throttle when the slew limit is switched off and [throttle_max] is not
    below the lower limit in force. *)
Theorem fully_undersped_below_ramp (a : StepArgs) (s : TECS) :
  let s' := update_pitch_throttle a s in
  _detect_underspeed_enabled s = true ->
  Fl.finite (_tas_state s') ->
  _tas_state s' <= tas_fully_undersped s' ->
  Fl.finite (throttle_max a) -> Fl.finite (throttle_demand s') ->
  _percent_undersped s' == Fin 1
  /\ _tecs_mode s' = ECL_TECS_MODE_UNDERSPEED
  /\ throttle_blended s' (throttle_demand s') == throttle_max a
  /\ ((Fl.fabsf (_throttle_slewrate s) >? Fin (1 # 100)) = false ->
      _throttle_setpoint_min s' <= throttle_max a ->
      _last_throttle_setpoint s' == throttle_max a).
Proof.
  cbv zeta. intros Hen.
  pose proof (percent_undersped_published a s) as Hp. cbv zeta in Hp. rewrite Hen in Hp.
  pose proof (mode_published a s) as Hm. cbv zeta in Hm.
  destruct (throttle_published a s) as (Hout & Hmax & Hslew).
  revert Hp Hm Hout Hmax Hslew.
  generalize (_last_throttle_setpoint (step_until_throttle_law a s)).
  generalize (update_pitch_throttle a s).
  intros s' last Hp Hm Hout Hmax Hslew Hfin Hle Hhi Hd.
  assert (H1 : _percent_undersped s' == Fin 1).
  { rewrite Hp. apply ramp_at_bottom; [apply ramp_params | assumption | assumption]. }
  assert (Hb : throttle_blended s' (throttle_demand s') == throttle_max a).
  { unfold throttle_blended. rewrite Hmax.
    apply blend_at_full_underspeed; assumption. }
  split; [exact H1 |]. split; [| split; [exact Hb |]].
  - rewrite Hm. clear - H1. destruct (_percent_undersped s'); try contradiction.
    revert H1. fl_unfold. intros H1. q_cases; try reflexivity; lra.
  - intros Hs Hlo. rewrite Hout. unfold throttle_output. cbv zeta.
    rewrite Hslew, Hs, Hmax.
    apply constrain_at_upper_limit; assumption.
Qed.

(** X2.  With underspeed detection disabled, every step ends with
    [_percent_undersped = 0] and never publishes the mode UNDERSPEED. *)
Theorem no_underspeed_mode_when_detection_disabled (a : StepArgs) (s : TECS) :
  _detect_underspeed_enabled s = false ->
  let s' := update_pitch_throttle a s in
  _percent_undersped s' = Fin 0 /\ _tecs_mode s' <> ECL_TECS_MODE_UNDERSPEED.
Proof.
  intros Hen. cbv zeta.
  pose proof (percent_undersped_published a s) as Hp. cbv zeta in Hp. rewrite Hen in Hp.
  pose proof (mode_published a s) as Hm. cbv zeta in Hm.
  revert Hp Hm. generalize (update_pitch_throttle a s). intros s' Hp Hm.
  split; [exact Hp |]. rewrite Hm, Hp.
  replace (Fin 0 >? FLT_EPSILON) with false by reflexivity.
  destruct (_uncommanded_descent_recovery s'), (_climbout_mode_active s'); discriminate.
Qed.

End UnderspeedStep.

(** A first step at 14 m/s: fully undersped, mode UNDERSPEED, full
    throttle. *)
Lemma fully_undersped_at_14 :
  let s' := update_pitch_throttle Cases.stalling_call Cases.stalling in
  _percent_undersped s' == Fin 1
  /\ _tecs_mode s' = ECL_TECS_MODE_UNDERSPEED
  /\ throttle_blended s' (throttle_demand s') == throttle_max Cases.stalling_call
  /\ _last_throttle_setpoint s' == throttle_max Cases.stalling_call.
Proof.
  cbv zeta.
  destruct (fully_undersped_below_ramp Cases.stalling_call Cases.stalling)
    as (H1 & H2 & H3 & H4); [vm_compute; reflexivity .. |].
  split; [exact H1 |]. split; [exact H2 |]. split; [exact H3 |].
  refine (H4 _ _); vm_compute; reflexivity.
Defined.

(** The same step with detection switched off: no underspeed is reported. *)
Lemma no_underspeed_mode_at_14_undetected :
  let s' := update_pitch_throttle Cases.stalling_call Cases.stalling_undetected in
  _percent_undersped s' = Fin 0 /\ _tecs_mode s' <> ECL_TECS_MODE_UNDERSPEED.
Proof.
  apply (no_underspeed_mode_when_detection_disabled
           Cases.stalling_call Cases.stalling_undetected).
  reflexivity.
Defined.

(** ** Rate limits of the total energy *)

Section EnergyRateLimits.

Context {AF : AlphaFilterOps} {VS : VelocitySmoothingOps}
        {MVS : ManualVelocitySmoothingZOps}.

Lemma STE_rate_lim_value s :
  _STE_rate_max (_update_STE_rate_lim s)
  = math.max (_max_climb_rate s) FLT_EPSILON * CONSTANTS_ONE_G
  /\ _STE_rate_min (_update_STE_rate_lim s)
     = - math.max (_min_sink_rate s) FLT_EPSILON * CONSTANTS_ONE_G.
Proof. split; reflexivity. Qed.

(** The limits a step ends with are the ones [_update_STE_rate_lim] computes
    from some climb rate [x] and sink rate [y]. *)
Lemma STE_rate_limits_published a s :
  exists x y,
    _STE_rate_max (update_pitch_throttle a s) = math.max x FLT_EPSILON * CONSTANTS_ONE_G
    /\ _STE_rate_min (update_pitch_throttle a s)
       = - math.max y FLT_EPSILON * CONSTANTS_ONE_G.
Proof.
  unfold update_pitch_throttle, seq.
  match goal with
  | |- context [_update_STE_rate_lim ?st] =>
      destruct (STE_rate_lim_value st) as (H1 & H2);
      exists (_max_climb_rate st), (_min_sink_rate st);
      revert H1 H2; generalize (_max_climb_rate st) (_min_sink_rate st);
      generalize (_update_STE_rate_lim st)
  end.
  intros s5 x y H1 H2.
  frames (@_STE_rate_max AF VS MVS). frames (@_STE_rate_min AF VS MVS).
  split; assumption.
Qed.

Lemma STE_rate_lim_signs x y :
  let hi := math.max x FLT_EPSILON * CONSTANTS_ONE_G in
  let lo := - math.max y FLT_EPSILON * CONSTANTS_ONE_G in
  Fin 0 < hi /\ lo < Fin 0 /\ Fin 0 < hi - lo.
Proof.
  cbv zeta. destruct x, y; repeat split; fl_solve.
Qed.

(** X3.  Every step ends with [_STE_rate_max > 0 > _STE_rate_min], whatever
    the configured climb and sink rates are (zero, negative or not a number):
    the divisor [_STE_rate_max - _STE_rate_min] of the throttle law's gain is
    positive, and neither divisor of the predicted throttle is zero. *)
Theorem STE_rate_limits_have_opposite_signs (a : StepArgs) (s : TECS) :
  let s' := update_pitch_throttle a s in
  Fin 0 < _STE_rate_max s' /\ _STE_rate_min s' < Fin 0
  /\ Fin 0 < _STE_rate_max s' - _STE_rate_min s'.
Proof.
  cbv zeta. destruct (STE_rate_limits_published a s) as (x & y & -> & ->).
  apply STE_rate_lim_signs.
Qed.

End EnergyRateLimits.

(** ** The time step *)

Section TimeStep.

Context {AF : AlphaFilterOps} {VS : VelocitySmoothingOps}
        {MVS : ManualVelocitySmoothingZOps}.

Lemma initialize_states_dt p tt b pmc E (s : TECS) :
  let reset := (_pitch_update_timestamp s =? 0)%Z || (_dt s >? DT_MAX)
               || negb (_states_initialized s) in
  _dt (_initialize_states p tt b pmc E s)
  = (if reset && ((_dt s >? DT_MAX) || (_dt s <? DT_MIN)) then DT_DEFAULT else _dt s)
  /\ _states_initialized (_initialize_states p tt b pmc E s) = true.
Proof.
  cbv zeta. wp_run; cbn.
  all: repeat match goal with
         | H : _ = true |- _ => rewrite H
         | H : _ = false |- _ => rewrite H
         end.
  all: cbn; split; reflexivity.
Qed.

Lemma elapsed_finite now ts : exists q, elapsed now ts = Fin q /\ (0 <= q)%Q.
Proof.
  unfold elapsed, Fl.of_uint64. eexists. split; [reflexivity |].
  apply Qmult_le_0_compat; [| discriminate].
  change 0%Q with (inject_Z 0). rewrite <- Zle_Qle.
  apply Z.mod_pos_bound. reflexivity.
Qed.

Lemma time_step_published a s :
  let s' := update_pitch_throttle a s in
  let dt := Fl.fmaxf (elapsed (hrt_now a) (_pitch_update_timestamp s)) DT_MIN in
  _dt s' = (if reinitialises a s && ((dt >? DT_MAX) || (dt <? DT_MIN))
            then DT_DEFAULT else dt)
  /\ _states_initialized s' = true
  /\ _pitch_update_timestamp s' = hrt_now a
  /\ _speed_update_timestamp s' = hrt_now_speed a.
Proof.
  cbv zeta. unfold update_pitch_throttle, seq. split; [| split; [| split]].
  - match goal with
    | |- context [_initialize_states ?p ?tt ?b ?pmc ?E ?st] =>
        destruct (initialize_states_dt p tt b pmc E st) as (H & _);
        revert H; generalize (_initialize_states p tt b pmc E st)
    end.
    intros s2 H. frames (@_dt AF VS MVS). rewrite H. reflexivity.
  - match goal with
    | |- context [_initialize_states ?p ?tt ?b ?pmc ?E ?st] =>
        destruct (initialize_states_dt p tt b pmc E st) as (_ & H);
        revert H; generalize (_initialize_states p tt b pmc E st)
    end.
    intros s2 H. frames (@_states_initialized AF VS MVS). exact H.
  - match goal with
    | |- context [publish_mode a ?st] => generalize st
    end.
    intros st. wp_run; reflexivity.
  - frames (@_speed_update_timestamp AF VS MVS).
    match goal with
    | |- context [_update_speed_states ?n ?sp ?e ?E ?st] => generalize st
    end.
    intros st. wp_run; reflexivity.
Qed.

(** The time step of a step is in range. *)
Lemma time_step_in_range a s :
  DT_MIN <= _dt (update_pitch_throttle a s) <= DT_MAX.
Proof.
  destruct (time_step_published a s) as (-> & _).
  unfold reinitialises.
  destruct (elapsed_finite (hrt_now a) (_pitch_update_timestamp s)) as (q & -> & Hq).
  destruct (_pitch_update_timestamp s =? 0)%Z, (_states_initialized s); cbn [negb orb andb].
  all: split; fl_unfold;
    repeat (progress (cbn [orb andb negb] in *; q_cases));
    try reflexivity; try discriminate; try lra.
Qed.

(** X4.  Every step ends with a time step [_dt] in [[DT_MIN, DT_MAX]] =
    [[0.001, 1]] s, whatever the clock readings are.  With [e] the interval
    since the previous step: when [e] is at most [DT_MAX] the time step is
    [fmaxf(e, DT_MIN)], so a shorter interval is raised to [DT_MIN]; when [e]
    is longer than [DT_MAX] the step re-initialises the states and the time
    step is replaced by [DT_DEFAULT]. *)
Theorem time_step_within_bounds (a : StepArgs) (s : TECS) :
  let s' := update_pitch_throttle a s in
  let e := elapsed (hrt_now a) (_pitch_update_timestamp s) in
  DT_MIN <= _dt s' <= DT_MAX
  /\ (e <= DT_MAX -> _dt s' = Fl.fmaxf e DT_MIN)
  /\ (e < DT_MIN -> _dt s' = DT_MIN)
  /\ (DT_MAX < e -> reinitialises a s = true /\ _dt s' = DT_DEFAULT).
Proof.
  cbv zeta. split; [apply time_step_in_range |].
  destruct (time_step_published a s) as (-> & _).
  unfold reinitialises.
  destruct (elapsed_finite (hrt_now a) (_pitch_update_timestamp s)) as (q & -> & Hq).
  split; [| split].
  - intros Hle.
    assert (H1 : (Fl.fmaxf (Fin q) DT_MIN >? DT_MAX) = false) by (revert Hle; fl_solve).
    assert (H2 : (Fl.fmaxf (Fin q) DT_MIN <? DT_MIN) = false) by (revert Hle; fl_solve).
    rewrite H1, H2, andb_false_r. reflexivity.
  - intros Hlt.
    assert (H0 : Fl.fmaxf (Fin q) DT_MIN = DT_MIN) by (revert Hlt; fl_solve).
    rewrite H0.
    replace (DT_MIN >? DT_MAX) with false by reflexivity.
    replace (DT_MIN <? DT_MIN) with false by reflexivity.
    rewrite andb_false_r. reflexivity.
  - intros Hgt.
    assert (H1 : (Fl.fmaxf (Fin q) DT_MIN >? DT_MAX) = true) by (revert Hgt; fl_solve).
    rewrite H1, orb_true_r. cbn [orb andb]. split; reflexivity.
Qed.

End TimeStep.

(** ** The airspeed state and the airspeed demand *)

Section Airspeed.

Context {AF : AlphaFilterOps} {VS : VelocitySmoothingOps}
        {MVS : ManualVelocitySmoothingZOps}.

Lemma tas_filter_not_negative dt target raw freq tas rate :
  Fl.isnan (fst (tas_filter_update dt target raw freq tas rate)) = false ->
  Fin 0 <= fst (tas_filter_update dt target raw freq tas rate).
Proof.
  unfold tas_filter_update. cbv zeta.
  match goal with
  | |- context [if ?x <? Fin 0 then _ else _] => generalize x
  end.
  intros x. destruct (x <? Fin 0) eqn:E; cbn [fst].
  - intros _. reflexivity.
  - destruct x; intros Hn; try discriminate; revert E; fl_solve.
Qed.

(** X5.  The TAS state a step ends with is never negative: the filter clips
    it at zero.  (It is not a number when the filter's inputs are not.) *)
Theorem tas_state_not_negative (a : StepArgs) (s : TECS) :
  Fl.isnan (_tas_state (update_pitch_throttle a s)) = false ->
  Fin 0 <= _tas_state (update_pitch_throttle a s).
Proof.
  destruct (speed_filter_published a s) as (_ & _ & -> & _).
  apply tas_filter_not_negative.
Qed.

(** The TAS demand before it is constrained: [_TAS_min] in an uncommanded
    descent, the blend with [_TAS_min] when undersped, else the setpoint. *)
Lemma speed_setpoint_value s :
  let s' := _update_speed_setpoint s in
  let demand :=
    if _uncommanded_descent_recovery s then _TAS_min s
    else if _percent_undersped s >? FLT_EPSILON
         then _TAS_min s * _percent_undersped s
              + (Fin 1 - _percent_undersped s) * _TAS_setpoint s
         else _TAS_setpoint s in
  _TAS_setpoint_adj s'
  = math.constrain (math.constrain demand (_TAS_min s) (_TAS_max s))
                   (_TAS_min s) (_TAS_max s)
  /\ _TAS_rate_setpoint s'
     = (if _airspeed_enabled s
        then math.constrain ((_TAS_setpoint_adj s' - _tas_state s) * _airspeed_error_gain s)
                            (min_tas_rate_sp s) (max_tas_rate_sp s)
        else Fin 0).
Proof.
  cbv zeta. wp_run; cbn.
  all: unfold airspeed_sensor_enabled in *;
    repeat match goal with
      | H : _ = true |- _ => rewrite H in *
      | H : _ = false |- _ => rewrite H in *
      end.
  all: subst; cbn; split; reflexivity.
Qed.

(** What a step publishes of the airspeed demand, in terms of the object
    [st] the speed-setpoint stage ran on. *)
Lemma speed_setpoint_published a s :
  exists st,
    let s' := update_pitch_throttle a s in
    _TAS_min s' = _TAS_min st /\ _TAS_max s' = _TAS_max st
    /\ _tas_state s' = _tas_state st
    /\ _STE_rate_max s' = _STE_rate_max st /\ _STE_rate_min s' = _STE_rate_min st
    /\ _airspeed_enabled st = _airspeed_enabled s
    /\ _uncommanded_descent_recovery s' = _uncommanded_descent_recovery st
    /\ _TAS_setpoint_adj s' = _TAS_setpoint_adj (_update_speed_setpoint st)
    /\ _TAS_rate_setpoint s' = _TAS_rate_setpoint (_update_speed_setpoint st).
Proof.
  unfold update_pitch_throttle, seq.
  match goal with
  | |- context [_update_speed_setpoint ?st] =>
      exists st;
      assert (Hen : _airspeed_enabled st = _airspeed_enabled s)
        by (frames (@_airspeed_enabled AF VS MVS); reflexivity);
      revert Hen; generalize st
  end.
  intros st Hen. cbv zeta.
  assert (P1 : preserves (@_TAS_min AF VS MVS) _update_speed_setpoint) by frame.
  assert (P2 : preserves (@_TAS_max AF VS MVS) _update_speed_setpoint) by frame.
  assert (P3 : preserves (@_tas_state AF VS MVS) _update_speed_setpoint) by frame.
  assert (P4 : preserves (@_STE_rate_max AF VS MVS) _update_speed_setpoint) by frame.
  assert (P5 : preserves (@_STE_rate_min AF VS MVS) _update_speed_setpoint) by frame.
  assert (P6 : preserves (@_uncommanded_descent_recovery AF VS MVS) _update_speed_setpoint)
    by frame.
  specialize (P1 st). specialize (P2 st). specialize (P3 st). specialize (P4 st).
  specialize (P5 st). specialize (P6 st).
  revert P1 P2 P3 P4 P5 P6. generalize (_update_speed_setpoint st).
  intros s9 P1 P2 P3 P4 P5 P6.
  frames (@_TAS_min AF VS MVS). frames (@_TAS_max AF VS MVS).
  frames (@_tas_state AF VS MVS).
  frames (@_STE_rate_max AF VS MVS). frames (@_STE_rate_min AF VS MVS).
  frames (@_uncommanded_descent_recovery AF VS MVS).
  frames (@_TAS_setpoint_adj AF VS MVS). frames (@_TAS_rate_setpoint AF VS MVS).
  repeat split; assumption.
Qed.

Lemma tas_rate_limits_ordered tas x y :
  Fl.finite tas ->
  Fin (5 # 10) * (- math.max y FLT_EPSILON * CONSTANTS_ONE_G) / math.max tas FLT_EPSILON
  <= Fin (5 # 10) * (math.max x FLT_EPSILON * CONSTANTS_ONE_G) / math.max tas FLT_EPSILON.
Proof.
  destruct tas as [t| | |]; intros Ht; try discriminate.
  assert (Hd : exists d, math.max (Fin t) FLT_EPSILON = Fin d /\ (0 < d)%Q).
  { unfold math.max. fl_unfold. q_cases; eexists; split; try reflexivity; lra. }
  destruct Hd as (d & -> & Hd).
  assert (Hhi : forall v, (0 < v)%Q -> (0 <= v / d)%Q).
  { intros v Hv. apply Qle_shift_div_l; [assumption | lra]. }
  assert (Hlo : forall v, (v < 0)%Q -> (v / d <= 0)%Q).
  { intros v Hv. apply Qle_shift_div_r; [assumption | lra]. }
  destruct x as [x| | |], y as [y| | |]; fl_unfold; q_cases; try reflexivity;
    try discriminate; try lra.
  all: repeat match goal with
         | |- context [(?v / ?w)%Q] =>
             first [ assert (0 <= v / w)%Q by (apply Hhi; lra)
                   | assert (v / w <= 0)%Q by (apply Hlo; lra) ];
             generalize dependent (v / w)%Q; intros
         | H : context [(?v / ?w)%Q] |- _ =>
             first [ assert (0 <= v / w)%Q by (apply Hhi; lra)
                   | assert (v / w <= 0)%Q by (apply Hlo; lra) ];
             generalize dependent (v / w)%Q; intros
         end; try lra.
Qed.

(** X6.  Every step ends with the demanded airspeed [_TAS_setpoint_adj]
    within [[_TAS_min, _TAS_max]], when these are ordered and the demand is a
    number; with the demanded airspeed rate [_TAS_rate_setpoint] equal to 0
    when airspeed sensing is disabled; and otherwise, for a finite TAS state,
    within the limits [0.5 * _STE_rate_min / max(_tas_state, FLT_EPSILON)] and
    [0.5 * _STE_rate_max / max(_tas_state, FLT_EPSILON)] unless it is not a
    number. *)
Theorem airspeed_demand_within_limits (a : StepArgs) (s : TECS) :
  let s' := update_pitch_throttle a s in
  (_TAS_min s' <= _TAS_max s' -> Fl.isnan (_TAS_setpoint_adj s') = false ->
   _TAS_min s' <= _TAS_setpoint_adj s' <= _TAS_max s')
  /\ (_airspeed_enabled s = false -> _TAS_rate_setpoint s' = Fin 0)
  /\ (_airspeed_enabled s = true -> Fl.finite (_tas_state s') ->
      Fl.isnan (_TAS_rate_setpoint s') = false ->
      min_tas_rate_sp s' <= _TAS_rate_setpoint s' <= max_tas_rate_sp s').
Proof.
  cbv zeta.
  destruct (speed_setpoint_published a s)
    as (st & Hmin & Hmax & Htas & HM & Hm & Hen & _ & Hadj & Hrate).
  destruct (STE_rate_limits_published a s) as (x & y & HM' & Hm').
  unfold min_tas_rate_sp, max_tas_rate_sp.
  rewrite HM', Hm'. rewrite HM in HM'. rewrite Hm in Hm'.
  rewrite Hmin, Hmax, Htas, Hadj, Hrate. clear Hmin Hmax Htas Hadj Hrate HM Hm.
  destruct (speed_setpoint_value st) as (-> & ->).
  rewrite Hen. unfold min_tas_rate_sp, max_tas_rate_sp. rewrite HM', Hm'.
  split; [| split].
  - intros Hle Hn. apply FlFacts.constrain_bounds; [| assumption].
    exact (FlFacts.constrain_nan _ _ _ Hle Hn).
  - intros ->. reflexivity.
  - intros -> Hfin Hn.
    pose proof (tas_rate_limits_ordered _ x y Hfin) as Hle.
    apply FlFacts.constrain_bounds; [| assumption].
    exact (FlFacts.constrain_nan _ _ _ Hle Hn).
Qed.

(** X7.  While the uncommanded-descent recovery is latched at the end of a
    step, the demanded airspeed of that step is the minimum airspeed
    [_TAS_min] (for ordered airspeed limits). *)
Theorem minimum_airspeed_demanded_in_descent_recovery (a : StepArgs) (s : TECS) :
  let s' := update_pitch_throttle a s in
  _uncommanded_descent_recovery s' = true ->
  _TAS_min s' <= _TAS_max s' ->
  _TAS_setpoint_adj s' = _TAS_min s'.
Proof.
  cbv zeta.
  destruct (speed_setpoint_published a s)
    as (st & Hmin & Hmax & _ & _ & _ & _ & Hrec & Hadj & _).
  rewrite Hmin, Hmax, Hrec, Hadj.
  destruct (speed_setpoint_value st) as (-> & _).
  intros -> Hle. revert Hle.
  generalize (_TAS_min st) (_TAS_max st). intros lo hi Hle.
  destruct lo, hi; try discriminate; revert Hle; unfold math.constrain; fl_unfold;
    q_cases; try reflexivity; try discriminate; intros; try lra.
Qed.

End Airspeed.

(** A reading of 1 m/s decelerating at 100 m/s^2: the TAS state is clipped
    at 0. *)
Lemma tas_state_clipped_when_braking_hard :
  Fin 0 <= _tas_state (update_pitch_throttle Cases.braking_hard_call Cases.braking_hard).
Proof.
  apply (tas_state_not_negative Cases.braking_hard_call Cases.braking_hard).
  vm_compute. reflexivity.
Defined.

(** The first step in level cruise: the demanded airspeed is 20 m/s, within
    [[19, 30]], and its demanded rate is 0, within the limits. *)
Lemma airspeed_demand_in_level_cruise :
  let s' := update_pitch_throttle Ref.cruise Cases.level_cruise in
  _TAS_min s' <= _TAS_setpoint_adj s' <= _TAS_max s'
  /\ min_tas_rate_sp s' <= _TAS_rate_setpoint s' <= max_tas_rate_sp s'.
Proof.
  cbv zeta.
  destruct (airspeed_demand_within_limits Ref.cruise Cases.level_cruise)
    as (H1 & _ & H3).
  split; [refine (H1 _ _) | refine (H3 _ _ _)]; vm_compute; reflexivity.
Defined.

(** In level cruise with the recovery latched, the demanded airspeed drops
    from 20 m/s to the minimum, 19 m/s. *)
Lemma minimum_airspeed_demanded_when_recovering :
  let s' := update_pitch_throttle Cases.second_cruise_call Cases.recovering in
  _TAS_setpoint_adj s' = _TAS_min s'.
Proof.
  apply (minimum_airspeed_demanded_in_descent_recovery
           Cases.second_cruise_call Cases.recovering);
    vm_compute; reflexivity.
Defined.

(** ** The height rate demand *)

Section HeightRate.

Context {AF : AlphaFilterOps} {VS : VelocitySmoothingOps}
        {MVS : ManualVelocitySmoothingZOps}.

(** [controlled]: the altitude controller runs, which it does unless a
    height rate is commanded and the velocity generator holds no altitude
    lock (its position is not finite). *)
Lemma height_rate_setpoint_value sp hr tc ts alt (st : TECS) :
  let s' := _calculateHeightRateSetpoint sp hr tc ts alt st in
  let controlled :=
    negb (Fl.isfinite hr)
    || Fl.isfinite (MVS_getCurrentPosition (_velocity_control_traj_generator s')) in
  (controlled = true ->
   (exists x, _hgt_rate_setpoint s'
              = math.constrain x (- _max_sink_rate st) (_max_climb_rate st))
   /\ _hgt_setpoint s' = VS_getCurrentPosition (_alt_control_traj_generator s'))
  /\ (controlled = false ->
      _hgt_setpoint s' = alt
      /\ _hgt_rate_setpoint s'
         = MVS_getCurrentVelocity (_velocity_control_traj_generator s')).
Proof.
  cbv zeta. wp_run; cbn.
  all: subst.
  all: repeat match goal with
         | H : _ = true |- _ => rewrite H
         | H : _ = false |- _ => rewrite H
         end; cbn [negb orb].
  all: split; intros Hc; try discriminate Hc.
  all: split; try reflexivity.
  all: eexists; reflexivity.
Qed.

(** X8.  Every step in which the altitude controller runs (no height rate
    is commanded, or the velocity generator holds a finite altitude) ends with
    the height rate demand [_hgt_rate_setpoint] within
    [[-_max_sink_rate, _max_climb_rate]] unless it is not a number, and with
    [_hgt_setpoint] at the position of the altitude trajectory generator.  In
    the other steps the height setpoint follows the measured altitude and the
    height rate demand is the velocity of the velocity generator, which is
    not constrained. *)
Theorem height_rate_demand_within_rates (a : StepArgs) (s : TECS) :
  let s' := update_pitch_throttle a s in
  let controlled :=
    negb (Fl.isfinite (hgt_rate_sp a))
    || Fl.isfinite (MVS_getCurrentPosition (_velocity_control_traj_generator s')) in
  (controlled = true ->
   (- _max_sink_rate s <= _max_climb_rate s ->
    Fl.isnan (_hgt_rate_setpoint s') = false ->
    - _max_sink_rate s <= _hgt_rate_setpoint s' <= _max_climb_rate s)
   /\ _hgt_setpoint s' = VS_getCurrentPosition (_alt_control_traj_generator s'))
  /\ (controlled = false ->
      _hgt_setpoint s' = baro_altitude a
      /\ _hgt_rate_setpoint s'
         = MVS_getCurrentVelocity (_velocity_control_traj_generator s')).
Proof.
  cbv zeta. unfold update_pitch_throttle, seq.
  match goal with
  | |- context [_calculateHeightRateSetpoint ?sp ?hr ?tc ?ts ?alt ?st] =>
      pose proof (height_rate_setpoint_value sp hr tc ts alt st) as H;
      cbv zeta in H;
      assert (H1 : _max_sink_rate st = _max_sink_rate s)
        by (frames (@_max_sink_rate AF VS MVS); reflexivity);
      assert (H2 : _max_climb_rate st = _max_climb_rate s)
        by (frames (@_max_climb_rate AF VS MVS); reflexivity);
      rewrite H1, H2 in H; clear H1 H2;
      revert H; generalize (_calculateHeightRateSetpoint sp hr tc ts alt st)
  end.
  intros s10 H.
  frames (@_hgt_rate_setpoint AF VS MVS).
  frames (@_hgt_setpoint AF VS MVS).
  frames (@_velocity_control_traj_generator AF VS MVS).
  frames (@_alt_control_traj_generator AF VS MVS).
  destruct H as (Hc & Hn). split; [| exact Hn].
  intros Hctl. destruct (Hc Hctl) as ((x & Hx) & Hpos). split; [| exact Hpos].
  rewrite Hx. intros Hle Hnan.
  apply FlFacts.constrain_bounds; [| assumption].
  exact (FlFacts.constrain_nan _ _ _ Hle Hnan).
Qed.

End HeightRate.

(** The first step in level cruise: no height rate is commanded, and the
    height rate demand is 0, within [[-2, 2]] m/s. *)
Lemma height_rate_demand_in_level_cruise :
  let s := Cases.level_cruise in
  let s' := update_pitch_throttle Ref.cruise s in
  - _max_sink_rate s <= _hgt_rate_setpoint s' <= _max_climb_rate s.
Proof.
  cbv zeta.
  destruct (height_rate_demand_within_rates Ref.cruise Cases.level_cruise) as (H & _).
  destruct H as (H & _); [reflexivity |].
  refine (H _ _); vm_compute; reflexivity.
Defined.

(** ** The integrators *)

Section Integrators.

Context {AF : AlphaFilterOps} {VS : VelocitySmoothingOps}
        {MVS : ManualVelocitySmoothingZOps}.

Lemma pitch_integrator_value s :
  let s' := _update_pitch_setpoint s in
  let input := _SEB_rate_error s' * _integrator_gain_pitch s in
  _pitch_integ_state s'
  = if _integrator_gain_pitch s >? Fin 0 then
      _pitch_integ_state s
      + (if _pitch_setpoint_unc s >? _pitch_setpoint_max s then math.min input (Fin 0)
         else if _pitch_setpoint_unc s <? _pitch_setpoint_min s then math.max input (Fin 0)
         else input) * _dt s
    else Fin 0.
Proof.
  cbv zeta. wp_run; cbn.
  all: repeat match goal with
         | H : _ = true |- _ => rewrite H
         | H : _ = false |- _ => rewrite H
         end.
  all: subst; reflexivity.
Qed.

Lemma integrator_step_down x input dt :
  Fl.finite x -> Fl.finite dt -> Fin 0 < dt ->
  x + math.min input (Fin 0) * dt <= x.
Proof.
  destruct x, input, dt; intros H1 H2 H3; try discriminate; fl_solve; nra.
Qed.

Lemma integrator_step_up x input dt :
  Fl.finite x -> Fl.finite dt -> Fin 0 < dt -> Fl.isnan input = false ->
  x <= x + math.max input (Fin 0) * dt.
Proof.
  destruct x, input, dt; intros H1 H2 H3 H4; try discriminate; fl_solve; nra.
Qed.

(** X9.  The pitch integrator does not wind up: across the pitch law, with
    a positive integrator gain, a finite integrator state and a positive
    finite time step, the integrator state does not increase when the
    unconstrained pitch demand of the previous step exceeded
    [_pitch_setpoint_max], and does not decrease when it was below
    [_pitch_setpoint_min] (and the energy balance rate error is a number).
    With a gain that is not positive the integrator state is set to 0. *)
Theorem pitch_integrator_does_not_wind_up (s : TECS) :
  let s' := _update_pitch_setpoint s in
  ((_integrator_gain_pitch s >? Fin 0) = false -> _pitch_integ_state s' = Fin 0)
  /\ ((_integrator_gain_pitch s >? Fin 0) = true ->
      Fl.finite (_pitch_integ_state s) -> Fl.finite (_dt s) -> Fin 0 < _dt s ->
      (_pitch_setpoint_max s < _pitch_setpoint_unc s ->
       _pitch_integ_state s' <= _pitch_integ_state s)
      /\ (_pitch_setpoint_unc s <= _pitch_setpoint_max s ->
          _pitch_setpoint_unc s < _pitch_setpoint_min s ->
          Fl.isnan (_SEB_rate_error s' * _integrator_gain_pitch s) = false ->
          _pitch_integ_state s <= _pitch_integ_state s')).
Proof.
  cbv zeta. rewrite pitch_integrator_value. split.
  - intros ->. reflexivity.
  - intros -> Hx Hdt Hpos. split.
    + intros Hsat. unfold Fl.gtb. unfold Fl.lt in Hsat. rewrite Hsat.
      apply integrator_step_down; assumption.
    + intros Hle Hsat Hn.
      assert (Hnot : (_pitch_setpoint_unc s >? _pitch_setpoint_max s) = false).
      { clear - Hle. destruct (_pitch_setpoint_unc s), (_pitch_setpoint_max s);
          revert Hle; fl_solve. }
      rewrite Hnot. unfold Fl.lt in Hsat. rewrite Hsat.
      apply integrator_step_up; assumption.
Qed.


Lemma throttle_integrator_value s :
  let s' := _update_throttle_setpoint s in
  _throttle_integ_state s'
  = if _airspeed_enabled s then
      if _integrator_gain_throttle s >? Fin 0 then
        if _climbout_mode_active s then integ_state_max s'
        else _throttle_integ_state s
             + (if _throttle_integ_state s >? integ_state_max s'
                then math.min (Fin 0) (throttle_integ_input s')
                else if _throttle_integ_state s <? integ_state_min s'
                then math.max (Fin 0) (throttle_integ_input s')
                else throttle_integ_input s')
      else Fin 0
    else _throttle_integ_state s.
Proof.
  cbv zeta. wp_run.
  all: unfold integ_state_max, integ_state_min, throttle_integ_input,
         throttle_proportional, throttle_predicted; cbn.
  all: unfold airspeed_sensor_enabled in *;
    repeat match goal with
      | H : _ = true |- _ => rewrite H in *
      | H : _ = false |- _ => rewrite H in *
      end.
  all: subst; reflexivity.
Qed.

Lemma integrator_add_down x input :
  Fl.finite x -> Fl.isnan (x + math.min (Fin 0) input) = false ->
  x + math.min (Fin 0) input <= x.
Proof.
  destruct x, input; intros H1 H2; try discriminate; revert H2; fl_solve.
Qed.

Lemma integrator_add_up x input :
  Fl.finite x -> Fl.isnan (x + math.max (Fin 0) input) = false ->
  x <= x + math.max (Fin 0) input.
Proof.
  destruct x, input; intros H1 H2; try discriminate; revert H2; fl_solve.
Qed.

(** X10.  The throttle integrator does not wind up: across the throttle
    law with airspeed sensing, a positive integrator gain and no climbout,
    the integrator state (finite before, a number after) does not increase
    when it is above [integ_state_max = _throttle_setpoint_max -
    throttle_setpoint], and does not decrease when it is below
    [integ_state_min].  With a gain that is not positive it is set to 0. *)
Theorem throttle_integrator_does_not_wind_up (s : TECS) :
  let s' := _update_throttle_setpoint s in
  _airspeed_enabled s = true ->
  ((_integrator_gain_throttle s >? Fin 0) = false -> _throttle_integ_state s' = Fin 0)
  /\ ((_integrator_gain_throttle s >? Fin 0) = true ->
      _climbout_mode_active s = false ->
      Fl.finite (_throttle_integ_state s) ->
      Fl.isnan (_throttle_integ_state s') = false ->
      (integ_state_max s' < _throttle_integ_state s ->
       _throttle_integ_state s' <= _throttle_integ_state s)
      /\ (_throttle_integ_state s <= integ_state_max s' ->
          _throttle_integ_state s < integ_state_min s' ->
          _throttle_integ_state s <= _throttle_integ_state s')).
Proof.
  cbv zeta. intros Hen. rewrite throttle_integrator_value, Hen. split.
  - intros ->. reflexivity.
  - intros -> -> Hx. generalize (integ_state_max (_update_throttle_setpoint s)).
    generalize (integ_state_min (_update_throttle_setpoint s)).
    generalize (throttle_integ_input (_update_throttle_setpoint s)).
    intros input lo hi Hn. split.
    + intros Hsat. unfold Fl.gtb in *. unfold Fl.lt in Hsat. rewrite Hsat in *.
      apply integrator_add_down; assumption.
    + intros Hle Hsat.
      assert (Hnot : (_throttle_integ_state s >? hi) = false).
      { clear - Hle. destruct (_throttle_integ_state s), hi; revert Hle; fl_solve. }
      rewrite Hnot in *. unfold Fl.lt in Hsat. rewrite Hsat in *.
      apply integrator_add_up; assumption.
Qed.

Lemma climbout_demand prop hi :
  Fl.finite prop -> Fl.finite hi -> prop + (hi - prop) == hi.
Proof.
  destruct prop, hi; intros H1 H2; try discriminate. fl_unfold. ring.
Qed.

Lemma blend_of_upper_limit p hi demand :
  Fl.finite p -> demand == hi -> Fl.finite hi ->
  p * hi + (Fin 1 - p) * demand == hi.
Proof.
  destruct p as [q| | |], hi as [m| | |], demand as [d| | |];
    intros Hq Hd Hm; try discriminate; try contradiction.
  revert Hd. fl_unfold. intros Hd. rewrite Hd. ring.
Qed.

(** The throttle demand after the throttle law, in terms of the
    proportional term and the integrator. *)
Lemma throttle_demand_split s' :
  throttle_demand s'
  = if _airspeed_enabled s' then throttle_proportional s' + _throttle_integ_state s'
    else throttle_predicted s'.
Proof. reflexivity. Qed.

Lemma climbout_published a s :
  let s' := update_pitch_throttle a s in
  _airspeed_enabled s' = _airspeed_enabled s
  /\ ((_integrator_gain_throttle s >? Fin 0) = true -> _airspeed_enabled s = true ->
      climb_out_setpoint a = true ->
      _throttle_integ_state s' = integ_state_max s').
Proof.
  cbv zeta. rewrite step_split. split.
  - unfold step_until_throttle_law, seq. frames (@_airspeed_enabled AF VS MVS).
    reflexivity.
  - intros Hg Hen Hco.
    assert (H1 : _airspeed_enabled (step_until_throttle_law a s) = true)
      by (unfold step_until_throttle_law, seq; frames (@_airspeed_enabled AF VS MVS);
          exact Hen).
    assert (H2 : (_integrator_gain_throttle (step_until_throttle_law a s) >? Fin 0) = true)
      by (unfold step_until_throttle_law, seq;
          frames (@_integrator_gain_throttle AF VS MVS); exact Hg).
    assert (H3 : _climbout_mode_active (step_until_throttle_law a s) = true)
      by (unfold step_until_throttle_law, seq;
          frames (@_climbout_mode_active AF VS MVS); exact Hco).
    revert H1 H2 H3. generalize (step_until_throttle_law a s). intros st H1 H2 H3.
    pose proof (throttle_integrator_value st) as Hv. cbv zeta in Hv.
    rewrite H1, H2, H3 in Hv. revert Hv.
    generalize (_update_throttle_setpoint st). intros s12 Hv.
    unfold integ_state_max, throttle_proportional, throttle_predicted in *.
    frames (@_throttle_integ_state AF VS MVS).
    frames (@_throttle_setpoint_max AF VS MVS).
    frames (@_throttle_setpoint_min AF VS MVS).
    frames (@_STE_rate_error AF VS MVS).
    frames (@_throttle_damping_gain AF VS MVS).
    frames (@_STE_rate_setpoint AF VS MVS).
    frames (@_STE_rate_max AF VS MVS).
    frames (@_STE_rate_min AF VS MVS).
    frames (@_throttle_trim AF VS MVS).
    exact Hv.
Qed.

(** X11.  In a climbout step with airspeed sensing and a positive throttle
    integrator gain, the integrator is set so that the throttle demand
    (proportional term plus integrator) is [throttle_max]; blended with any
    finite underspeed ramp it stays [throttle_max], which is also the
    published throttle when the slew limit is switched off and
    [throttle_max] is not below the lower limit in force. *)
Theorem full_throttle_demanded_in_climbout (a : StepArgs) (s : TECS) :
  let s' := update_pitch_throttle a s in
  climb_out_setpoint a = true -> _airspeed_enabled s = true ->
  (_integrator_gain_throttle s >? Fin 0) = true ->
  Fl.finite (throttle_max a) -> Fl.finite (throttle_proportional s') ->
  throttle_demand s' == throttle_max a
  /\ (Fl.finite (_percent_undersped s') ->
      (Fl.fabsf (_throttle_slewrate s) >? Fin (1 # 100)) = false ->
      _throttle_setpoint_min s' <= throttle_max a ->
      _last_throttle_setpoint s' == throttle_max a).
Proof.
  cbv zeta. intros Hco Hen Hg Hhi.
  destruct (climbout_published a s) as (Hen' & Hinteg).
  specialize (Hinteg Hg Hen Hco). rewrite Hen in Hen'.
  destruct (throttle_published a s) as (Hout & Hmax & Hslew).
  revert Hen' Hinteg Hout Hmax Hslew.
  generalize (_last_throttle_setpoint (step_until_throttle_law a s)).
  generalize (update_pitch_throttle a s).
  intros s' last Hen' Hinteg Hout Hmax Hslew Hp.
  assert (Hd : throttle_demand s' == throttle_max a).
  { rewrite throttle_demand_split, Hen', Hinteg. unfold integ_state_max.
    rewrite Hmax. apply climbout_demand; assumption. }
  split; [exact Hd |].
  intros Hpu Hs Hlo. rewrite Hout. unfold throttle_output. cbv zeta.
  rewrite Hslew, Hs, Hmax.
  apply constrain_at_upper_limit; try assumption.
  unfold throttle_blended. rewrite Hmax.
  apply blend_of_upper_limit; assumption.
Qed.

End Integrators.

(** The climb with the nose held level: the pitch demand of the first step
    is above the upper pitch limit, and the pitch integrator does not grow. *)
Lemma pitch_integrator_held_when_levelling_off :
  _pitch_integ_state (_update_pitch_setpoint Cases.levelling_off)
  <= _pitch_integ_state Cases.levelling_off.
Proof.
  destruct (pitch_integrator_does_not_wind_up Cases.levelling_off) as (_ & H).
  destruct H as (H & _); [vm_compute; reflexivity .. |].
  apply H. vm_compute. reflexivity.
Defined.

(** The second step of the climb flown as a climbout: full throttle. *)
Lemma full_throttle_in_climbout :
  let s' := update_pitch_throttle Cases.climbout_call Cases.climbing in
  throttle_demand s' == throttle_max Cases.climbout_call
  /\ _last_throttle_setpoint s' == throttle_max Cases.climbout_call.
Proof.
  cbv zeta.
  destruct (full_throttle_demanded_in_climbout Cases.climbout_call Cases.climbing)
    as (H1 & H2); [vm_compute; reflexivity .. |].
  split; [exact H1 |]. refine (H2 _ _ _); vm_compute; reflexivity.
Defined.

(** The climb with the throttle capped at the trim throttle: the demand
    saturates, the integrator is above its upper bound 0 and does not
    grow. *)
Lemma throttle_integrator_held_when_capped :
  _throttle_integ_state (_update_throttle_setpoint Cases.throttle_capped)
  <= _throttle_integ_state Cases.throttle_capped.
Proof.
  destruct (throttle_integrator_does_not_wind_up Cases.throttle_capped) as (_ & H);
    [reflexivity |].
  destruct H as (H & _); [vm_compute; reflexivity .. |].
  apply H. vm_compute. reflexivity.
Defined.

(** ** The speed/height weights in the three special regimes *)

Section WeightRegimes.

Context {AF : AlphaFilterOps} {VS : VelocitySmoothingOps}
        {MVS : ManualVelocitySmoothingZOps}.

Lemma speed_height_weights_value s :
  let s' := _update_speed_height_weights s in
  let w0 := math.constrain (_pitch_speed_weight s) (Fin 0) (Fin 2) in
  let w :=
    if _climbout_mode_active s && _airspeed_enabled s then Fin 2
    else if (_percent_undersped s >? FLT_EPSILON) && _airspeed_enabled s then
      Fin 2 * _percent_undersped s + (Fin 1 - _percent_undersped s) * w0
    else if negb (_airspeed_enabled s) then Fin 0
    else w0 in
  _SPE_weighting s' = math.constrain (Fin 2 - w) (Fin 0) (Fin 1)
  /\ _SKE_weighting s' = math.constrain w (Fin 0) (Fin 1).
Proof. cbv zeta. split; reflexivity. Qed.

Lemma speed_height_weights_published a s :
  exists st,
    let s' := update_pitch_throttle a s in
    _SPE_weighting s' = _SPE_weighting (_update_speed_height_weights st)
    /\ _SKE_weighting s' = _SKE_weighting (_update_speed_height_weights st)
    /\ _airspeed_enabled st = _airspeed_enabled s
    /\ _climbout_mode_active st = climb_out_setpoint a
    /\ _percent_undersped st = _percent_undersped s'
    /\ _pitch_speed_weight st = _pitch_speed_weight s.
Proof.
  unfold update_pitch_throttle, seq.
  match goal with
  | |- context [_update_speed_height_weights ?st] =>
      exists st;
      assert (Hen : _airspeed_enabled st = _airspeed_enabled s)
        by (frames (@_airspeed_enabled AF VS MVS); reflexivity);
      assert (Hco : _climbout_mode_active st = climb_out_setpoint a)
        by (frames (@_climbout_mode_active AF VS MVS); reflexivity);
      assert (Hw : _pitch_speed_weight st = _pitch_speed_weight s)
        by (frames (@_pitch_speed_weight AF VS MVS); reflexivity);
      assert (P : preserves (@_percent_undersped AF VS MVS) _update_speed_height_weights)
        by frame;
      specialize (P st);
      revert Hen Hco Hw P; generalize (_update_speed_height_weights st); generalize st
  end.
  intros st s7 Hen Hco Hw P. cbv zeta.
  frames (@_SPE_weighting AF VS MVS). frames (@_SKE_weighting AF VS MVS).
  frames (@_percent_undersped AF VS MVS).
  repeat split; try assumption. symmetry. exact P.
Qed.

Lemma weights_for_speed_priority w :
  w == Fin 2 ->
  math.constrain (Fin 2 - w) (Fin 0) (Fin 1) == Fin 0
  /\ math.constrain w (Fin 0) (Fin 1) == Fin 1.
Proof.
  destruct w; intros Hw; try contradiction. revert Hw. split; fl_solve.
Qed.

Lemma underspeed_weight p w0 :
  p == Fin 1 -> Fl.finite w0 -> Fin 2 * p + (Fin 1 - p) * w0 == Fin 2.
Proof.
  destruct p, w0; intros Hp Hw; try contradiction; try discriminate.
  revert Hp. fl_unfold. intros Hp. rewrite Hp. ring.
Qed.

(** X12.  The speed/height weights a step ends with, in the three regimes
    the code singles out.  Without airspeed sensing the pitch loop controls
    height only: [_SPE_weighting = 1] and [_SKE_weighting = 0], whatever the
    configured weight.  In a climbout with airspeed sensing, and when fully
    undersped ([_percent_undersped = 1]) with airspeed sensing and a finite
    configured weight, it controls speed only: [_SPE_weighting = 0] and
    [_SKE_weighting = 1]. *)
Theorem speed_height_weights_in_special_regimes (a : StepArgs) (s : TECS) :
  let s' := update_pitch_throttle a s in
  (_airspeed_enabled s = false ->
   _SPE_weighting s' = Fin 1 /\ _SKE_weighting s' = Fin 0)
  /\ (_airspeed_enabled s = true -> climb_out_setpoint a = true ->
      _SPE_weighting s' == Fin 0 /\ _SKE_weighting s' == Fin 1)
  /\ (_airspeed_enabled s = true -> _percent_undersped s' == Fin 1 ->
      Fl.finite (_pitch_speed_weight s) ->
      _SPE_weighting s' == Fin 0 /\ _SKE_weighting s' == Fin 1).
Proof.
  cbv zeta.
  destruct (speed_height_weights_published a s) as (st & H1 & H2 & Hen & Hco & Hp & Hw).
  rewrite H1, H2. destruct (speed_height_weights_value st) as (-> & ->).
  rewrite Hen, Hco, Hp.
  generalize (_percent_undersped (update_pitch_throttle a s)). intros p.
  split; [| split].
  - intros ->. rewrite !andb_false_r. cbn [negb andb].
    split; reflexivity.
  - intros -> ->. cbn [andb]. apply weights_for_speed_priority. reflexivity.
  - intros -> Hpu Hfin. rewrite andb_true_r.
    destruct (climb_out_setpoint a);
      [apply weights_for_speed_priority; reflexivity |].
    assert (Hgt : (p >? FLT_EPSILON) = true)
      by (clear - Hpu; destruct p; try contradiction; revert Hpu; fl_solve).
    rewrite Hgt. cbn [andb]. apply weights_for_speed_priority.
    apply underspeed_weight; [assumption |].
    rewrite Hw. clear - Hfin. destruct (_pitch_speed_weight s); try discriminate.
    fl_solve.
Qed.

End WeightRegimes.

(** Without airspeed sensing (the climb), in a climbout, and fully
    undersped (the first step at 14 m/s). *)
Lemma speed_height_weights_in_three_flights :
  (let s' := update_pitch_throttle Cases.second_climb_call
               Cases.climbing_without_airspeed in
   _SPE_weighting s' = Fin 1 /\ _SKE_weighting s' = Fin 0)
  /\ (let s' := update_pitch_throttle Cases.climbout_call Cases.climbing in
      _SPE_weighting s' == Fin 0 /\ _SKE_weighting s' == Fin 1)
  /\ (let s' := update_pitch_throttle Cases.stalling_call Cases.stalling in
      _SPE_weighting s' == Fin 0 /\ _SKE_weighting s' == Fin 1).
Proof.
  cbv zeta. split; [| split].
  - destruct (speed_height_weights_in_special_regimes
                Cases.second_climb_call Cases.climbing_without_airspeed) as (H & _).
    apply H. reflexivity.
  - destruct (speed_height_weights_in_special_regimes
                Cases.climbout_call Cases.climbing) as (_ & H & _).
    apply H; reflexivity.
  - destruct (speed_height_weights_in_special_regimes
                Cases.stalling_call Cases.stalling) as (_ & _ & H).
    refine (H _ _ _); vm_compute; reflexivity.
Defined.

(** ** The throttle between its limits *)

Section ThrottleBounds.

Context {AF : AlphaFilterOps} {VS : VelocitySmoothingOps}
        {MVS : ManualVelocitySmoothingZOps}.






Lemma slew_band last inc lo hi v :
  Fl.finite last -> Fin 0 <= inc -> lo <= last <= hi -> Fl.isnan v = false ->
  last - inc
  <= math.constrain (math.constrain v (last - inc) (last + inc)) lo hi
  <= last + inc.
Proof.
  destruct last, inc, lo, hi, v; intros H1 H2 [H3 H4] H5; try discriminate;
    split; fl_solve.
Qed.

(** X14.  With the throttle slew limit switched on ([|_throttle_slewrate| >
    0.01]), the published throttle of a step differs from the previous
    throttle setpoint (the trim throttle on a re-initialising step) by at
    most [_dt * (throttle_max - throttle_min) * _throttle_slewrate], when
    that increment is not negative, the previous setpoint is finite and
    within the throttle limits in force, and the blended demand is a
    number. *)
Theorem throttle_slew_limit_respected (a : StepArgs) (s : TECS) :
  let s' := update_pitch_throttle a s in
  let last := if reinitialises a s then throttle_trim a else _last_throttle_setpoint s in
  let inc := _dt s' * (throttle_max a - _throttle_setpoint_min s') * _throttle_slewrate s in
  (Fl.fabsf (_throttle_slewrate s) >? Fin (1 # 100)) = true ->
  Fl.finite last -> Fin 0 <= inc ->
  _throttle_setpoint_min s' <= last <= throttle_max a ->
  Fl.isnan (throttle_blended s' (throttle_demand s')) = false ->
  last - inc <= _last_throttle_setpoint s' <= last + inc.
Proof.
  cbv zeta. intros Hs.
  destruct (throttle_published a s) as (Hout & Hmax & Hslew).
  destruct (throttle_until_throttle_law a s) as (_ & Hlast & _).
  rewrite Hlast in Hout. clear Hlast.
  rewrite Hout. unfold throttle_output. cbv zeta. rewrite Hslew, Hs, Hmax.
  clear Hout Hmax Hslew.
  generalize (update_pitch_throttle a s). intros s' Hfin Hinc Hin Hn.
  apply slew_band; assumption.
Qed.

End ThrottleBounds.


(** The first step at 14 m/s with a slew rate of 0.5 per second: full
    throttle is demanded, and the published throttle rises from the trim 0.5
    by the 0.5 the limit allows in the time step of 1 s. *)
Lemma throttle_slewed_when_stalling :
  let s := Cases.stalling_slewed in
  let a := Cases.stalling_call in
  let s' := update_pitch_throttle a s in
  let last := if reinitialises a s then throttle_trim a else _last_throttle_setpoint s in
  let inc := _dt s' * (throttle_max a - _throttle_setpoint_min s') * _throttle_slewrate s in
  last - inc <= _last_throttle_setpoint s' <= last + inc.
Proof.
  apply (throttle_slew_limit_respected Cases.stalling_call Cases.stalling_slewed);
    vm_compute; try reflexivity; split; reflexivity.
Defined.

(** ** Re-initialisation *)

Section Reinitialisation.

Context {AF : AlphaFilterOps} {VS : VelocitySmoothingOps}
        {MVS : ManualVelocitySmoothingZOps}.

Lemma vehicle_state_estimates_value now eas sdf lock alt vz (s : TECS) :
  let e := update_vehicle_state_estimates now eas sdf lock alt vz s in
  _states_initialized e
  = (if estimator_stale now s || negb lock then false else _states_initialized s)
  /\ _vert_vel_state e = - vz /\ _vert_pos_state e = alt
  /\ _state_update_timestamp e = now
  /\ _pitch_update_timestamp e = _pitch_update_timestamp s.
Proof.
  cbv zeta. unfold estimator_stale. wp_run; cbn.
  all: subst.
  all: repeat match goal with
         | H : _ = true |- _ => revert H
         | H : _ = false |- _ => revert H
         end.
  all: destruct lock,
         ((_state_update_timestamp s =? 0)%Z
          || (Fl.fmaxf (elapsed now (_state_update_timestamp s)) DT_MIN >? DT_MAX));
    cbn; intros; try discriminate; repeat split; reflexivity.
Qed.

Lemma initialize_states_vertical p tt b pmc E (s : TECS) :
  let reset := (_pitch_update_timestamp s =? 0)%Z || (_dt s >? DT_MAX)
               || negb (_states_initialized s) in
  let s2 := _initialize_states p tt b pmc E s in
  _vert_vel_state s2 = (if reset then Fin 0 else _vert_vel_state s)
  /\ _vert_pos_state s2 = (if reset then b else _vert_pos_state s).
Proof.
  cbv zeta. wp_run; cbn.
  all: repeat match goal with
         | H : _ = true |- _ => rewrite H
         | H : _ = false |- _ => rewrite H
         end.
  all: cbn; split; reflexivity.
Qed.

Lemma vertical_states_published a s :
  let s' := update_pitch_throttle a s in
  _vert_vel_state s' = (if reinitialises a s then Fin 0 else _vert_vel_state s)
  /\ _vert_pos_state s' = (if reinitialises a s then baro_altitude a else _vert_pos_state s).
Proof.
  cbv zeta. unfold update_pitch_throttle, seq.
  match goal with
  | |- context [_initialize_states ?p ?tt ?b ?pmc ?E ?st] =>
      destruct (initialize_states_vertical p tt b pmc E st) as (H1 & H2);
      revert H1 H2; generalize (_initialize_states p tt b pmc E st)
  end.
  intros s2 H1 H2.
  frames (@_vert_vel_state AF VS MVS). frames (@_vert_pos_state AF VS MVS).
  rewrite H1, H2. split; reflexivity.
Qed.

(** X15.  An estimator update without altitude lock, or the first one, or
    one more than [DT_MAX] after the previous one, clears
    [_states_initialized]; the next step then re-initialises the states: it
    discards the vertical speed and altitude the estimator stored, starting
    from zero vertical speed at the barometric altitude of the call, and
    sets [_states_initialized] again.  A step that does not re-initialise
    keeps the estimator's vertical speed [-vz] and altitude. *)
Theorem estimator_reset_reinitialises_next_step
    (now : Z) (eas speed_deriv_forward : float) (altitude_lock : bool)
    (altitude vz : float) (a : StepArgs) (s : TECS) :
  let e := update_vehicle_state_estimates now eas speed_deriv_forward altitude_lock
             altitude vz s in
  let s' := update_pitch_throttle a e in
  (estimator_stale now s || negb altitude_lock = true ->
   _states_initialized e = false /\ reinitialises a e = true
   /\ _vert_vel_state s' = Fin 0 /\ _vert_pos_state s' = baro_altitude a)
  /\ (reinitialises a e = false ->
      _vert_vel_state s' = - vz /\ _vert_pos_state s' = altitude)
  /\ _states_initialized s' = true.
Proof.
  cbv zeta.
  destruct (vehicle_state_estimates_value now eas speed_deriv_forward altitude_lock
              altitude vz s) as (Hinit & Hvel & Hpos & _).
  destruct (time_step_published a
              (update_vehicle_state_estimates now eas speed_deriv_forward altitude_lock
                 altitude vz s)) as (_ & Hdone & _).
  destruct (vertical_states_published a
              (update_vehicle_state_estimates now eas speed_deriv_forward altitude_lock
                 altitude vz s)) as (Hv & Hp).
  revert Hinit Hvel Hpos Hdone Hv Hp.
  generalize (update_vehicle_state_estimates now eas speed_deriv_forward altitude_lock
                altitude vz s).
  intros e Hinit Hvel Hpos Hdone Hv Hp.
  rewrite Hv, Hp. split; [| split; [| exact Hdone]].
  - intros Hreset. rewrite Hreset in Hinit.
    assert (Hre : reinitialises a e = true).
    { unfold reinitialises. rewrite Hinit. cbn [negb]. apply orb_true_r. }
    rewrite Hre. repeat split; assumption.
  - intros ->. split; assumption.
Qed.

Lemma elapsed_backwards now ts :
  (0 <= now < ts)%Z -> (ts < 2 ^ 64)%Z -> (ts - now < 2 ^ 64 - 1000000)%Z ->
  exists q, elapsed now ts = Fin q /\ (1 < q)%Q.
Proof.
  intros H1 H2 H3. unfold elapsed, Fl.of_uint64. eexists. split; [reflexivity |].
  assert (Hm : ((now - ts) mod 2 ^ 64 = now - ts + 2 ^ 64)%Z).
  { symmetry. apply Z.mod_unique with (q := (-1)%Z); lia. }
  rewrite Hm. unfold Qlt, Qmult, inject_Z. cbn [Qnum Qden]. lia.
Qed.

Lemma elapsed_forwards now ts :
  (0 <= ts <= now)%Z -> (now < 2 ^ 64)%Z ->
  elapsed now ts = Fin (inject_Z (now - ts) * (1 # 1000000)).
Proof.
  intros H1 H2. unfold elapsed, Fl.of_uint64.
  rewrite Z.mod_small by lia. reflexivity.
Qed.

(** X16.  The time step follows the clock with unsigned 64-bit
    wrap-around.  When the clock reading of a step is older than the stored
    time stamp (by less than 2^64 - 10^6 microseconds), the difference wraps
    to more than [DT_MAX]: the step re-initialises the states and runs with
    [DT_DEFAULT].  When it is newer by at most one second, on an initialised
    controller, the step does not re-initialise and its time step is the
    difference in seconds, raised to [DT_MIN]. *)
Theorem time_step_follows_clock (a : StepArgs) (s : TECS) :
  let now := hrt_now a in
  let ts := _pitch_update_timestamp s in
  ((0 <= now < ts)%Z -> (ts < 2 ^ 64)%Z -> (ts - now < 2 ^ 64 - 1000000)%Z ->
   reinitialises a s = true /\ _dt (update_pitch_throttle a s) = DT_DEFAULT)
  /\ ((0 < ts <= now)%Z -> (now < 2 ^ 64)%Z -> (now - ts <= 1000000)%Z ->
      _states_initialized s = true ->
      reinitialises a s = false
      /\ _dt (update_pitch_throttle a s)
         = Fl.fmaxf (Fin (inject_Z (now - ts) * (1 # 1000000))) DT_MIN).
Proof.
  cbv zeta. destruct (time_step_published a s) as (-> & _). split.
  - intros H1 H2 H3.
    destruct (elapsed_backwards _ _ H1 H2 H3) as (q & Hq & Hgt).
    unfold reinitialises. rewrite Hq.
    assert (Hbig : (Fl.fmaxf (Fin q) DT_MIN >? DT_MAX) = true)
      by (fl_solve).
    rewrite Hbig. rewrite orb_true_r. cbn [orb andb]. split; reflexivity.
  - intros H1 H2 H3 Hinit. unfold reinitialises.
    rewrite elapsed_forwards by lia.
    assert (Hq : (0 <= inject_Z (hrt_now a - _pitch_update_timestamp s) * (1 # 1000000)
                  <= 1)%Q).
    { unfold Qle, Qmult, inject_Z. cbn [Qnum Qden]. lia. }
    revert Hq.
    generalize (inject_Z (hrt_now a - _pitch_update_timestamp s) * (1 # 1000000))%Q.
    intros q Hq.
    assert (Hsmall : (Fl.fmaxf (Fin q) DT_MIN >? DT_MAX) = false)
      by (fl_solve).
    rewrite Hsmall, Hinit.
    assert (Hts : (_pitch_update_timestamp s =? 0)%Z = false)
      by (apply Z.eqb_neq; lia).
    rewrite Hts. cbn [orb negb andb]. split; reflexivity.
Qed.

(** X17.  The total energy error a step stores is taken against the energy
    estimates the object held on entry, those of the previous step, while the
    estimates it stores are the current ones: of the altitude and TAS state
    the step ends with. *)
Theorem STE_error_lags_estimates (a : StepArgs) (s : TECS) :
  let s' := update_pitch_throttle a s in
  _STE_error s'
  = _SPE_setpoint s' - _SPE_estimate s + _SKE_setpoint s' - _SKE_estimate s
  /\ _SPE_estimate s' = _vert_pos_state s' * CONSTANTS_ONE_G
  /\ _SKE_estimate s' = Fin (5 # 10) * _tas_state s' * _tas_state s'.
Proof.
  cbv zeta. unfold update_pitch_throttle, seq.
  match goal with
  | |- context [_update_energy_estimates ?st] =>
      destruct (energy_estimates_value st) as (H1 & _ & _ & H4 & H5);
      assert (E1 : _SPE_estimate st = _SPE_estimate s)
        by (frames (@_SPE_estimate AF VS MVS); reflexivity);
      assert (E2 : _SKE_estimate st = _SKE_estimate s)
        by (frames (@_SKE_estimate AF VS MVS); reflexivity);
      rewrite E1, E2 in H1; clear E1 E2;
      assert (P1 : preserves (@_vert_pos_state AF VS MVS) _update_energy_estimates)
        by frame;
      assert (P2 : preserves (@_tas_state AF VS MVS) _update_energy_estimates) by frame;
      specialize (P1 st); specialize (P2 st); rewrite <- P1 in H4; rewrite <- P2 in H5;
      clear P1 P2;
      revert H1 H4 H5; generalize (_update_energy_estimates st)
  end.
  intros s11 H1 H4 H5.
  frames (@_STE_error AF VS MVS). frames (@_SPE_setpoint AF VS MVS).
  frames (@_SKE_setpoint AF VS MVS). frames (@_SPE_estimate AF VS MVS).
  frames (@_SKE_estimate AF VS MVS). frames (@_vert_pos_state AF VS MVS).
  frames (@_tas_state AF VS MVS).
  repeat split; assumption.
Qed.

End Reinitialisation.

(** Level cruise: the estimator loses its altitude lock while reading a
    sink of 1 m/s at 90 m; the next step starts again from zero vertical
    speed at the barometric altitude of 100 m. *)
Lemma lock_loss_reinitialises_cruise :
  let e := update_vehicle_state_estimates 1019000 (Fin 20) (Fin 0) false (Fin 90) (Fin 1)
             Cases.after_first_cruise_step in
  let s' := update_pitch_throttle Cases.second_cruise_call e in
  _states_initialized e = false /\ reinitialises Cases.second_cruise_call e = true
  /\ _vert_vel_state s' = Fin 0
  /\ _vert_pos_state s' = baro_altitude Cases.second_cruise_call.
Proof.
  cbv zeta.
  destruct (estimator_reset_reinitialises_next_step 1019000 (Fin 20) (Fin 0) false
              (Fin 90) (Fin 1) Cases.second_cruise_call Cases.after_first_cruise_step)
    as (H & _).
  apply H. apply orb_true_r.
Defined.

(** Level cruise: a clock reading of 0.5 s after a step stamped 1 s
    re-initialises; a reading 20 ms after it gives a time step of 0.02 s. *)
Lemma time_step_in_cruise :
  (reinitialises Cases.stale_clock_call Cases.cruising = true
   /\ _dt (update_pitch_throttle Cases.stale_clock_call Cases.cruising) = DT_DEFAULT)
  /\ (reinitialises Cases.second_cruise_call Cases.cruising = false
      /\ _dt (update_pitch_throttle Cases.second_cruise_call Cases.cruising)
         = Fl.fmaxf (Fin (inject_Z (hrt_now Cases.second_cruise_call
                                    - _pitch_update_timestamp Cases.cruising)
                          * (1 # 1000000))) DT_MIN).
Proof.
  split.
  - destruct (time_step_follows_clock Cases.stale_clock_call Cases.cruising) as (H & _).
    apply H; vm_compute;
      first [reflexivity | discriminate | split; first [reflexivity | discriminate]].
  - destruct (time_step_follows_clock Cases.second_cruise_call Cases.cruising) as (_ & H).
    apply H; vm_compute;
      first [reflexivity | discriminate | split; first [reflexivity | discriminate]].
Defined.

(** ** What a re-initialising or first step starts from *)

Section FreshStart.

Context {AF : AlphaFilterOps} {VS : VelocitySmoothingOps}
        {MVS : ManualVelocitySmoothingZOps}.

Lemma initialize_states_latch p tt b pmc E (s : TECS) :
  (_pitch_update_timestamp s =? 0)%Z || (_dt s >? DT_MAX)
  || negb (_states_initialized s) = true ->
  let s2 := _initialize_states p tt b pmc E s in
  _uncommanded_descent_recovery s2 = false
  /\ _last_throttle_setpoint s2 = tt
  /\ _throttle_setpoint_max s2 = _throttle_setpoint_max s.
Proof.
  intros Hre. cbv zeta. wp_run; cbn.
  all: try (rewrite Hre in *; discriminate).
  all: repeat split; reflexivity.
Qed.

Lemma descent_latch_published a s :
  reinitialises a s = true ->
  throttle_trim a < throttle_max a * Fin (9 # 10) ->
  _uncommanded_descent_recovery (update_pitch_throttle a s) = false.
Proof.
  intros Hre Htrim. unfold update_pitch_throttle, seq.
  match goal with
  | |- context [_initialize_states ?p ?tt ?b ?pmc ?E ?st] =>
      destruct (initialize_states_latch p tt b pmc E st Hre) as (L1 & L2 & L3);
      change (_throttle_setpoint_max st) with (throttle_max a) in L3;
      revert L1 L2 L3; generalize (_initialize_states p tt b pmc E st)
  end.
  intros s2 L1 L2 L3.
  match goal with
  | |- context [_detect_uncommanded_descent ?st] =>
      pose proof (descent_latch_value st) as Hv;
      assert (H1 : _uncommanded_descent_recovery st = false)
        by (frames (@_uncommanded_descent_recovery AF VS MVS); exact L1);
      assert (H2 : _last_throttle_setpoint st = throttle_trim a)
        by (frames (@_last_throttle_setpoint AF VS MVS); exact L2);
      assert (H3 : _throttle_setpoint_max st = throttle_max a)
        by (frames (@_throttle_setpoint_max AF VS MVS); exact L3);
      rewrite H1, H2, H3 in Hv; clear H1 H2 H3;
      revert Hv; generalize (_detect_uncommanded_descent st); generalize st
  end.
  intros st s8 Hv.
  frames (@_uncommanded_descent_recovery AF VS MVS).
  rewrite Hv.
  assert (Hlow : (throttle_trim a >=? throttle_max a * Fin (9 # 10)) = false).
  { clear - Htrim. destruct (throttle_trim a), (throttle_max a * Fin (9 # 10));
      revert Htrim; fl_solve. }
  rewrite Hlow, !andb_false_r. reflexivity.
Qed.

(** X18.  A step that re-initialises the states with a trim throttle below
    0.9 of [throttle_max] ends with the uncommanded-descent recovery cleared,
    whatever it was before, and does not publish the mode BAD_DESCENT. *)
Theorem descent_recovery_cleared_on_reinitialisation (a : StepArgs) (s : TECS) :
  reinitialises a s = true ->
  throttle_trim a < throttle_max a * Fin (9 # 10) ->
  let s' := update_pitch_throttle a s in
  _uncommanded_descent_recovery s' = false
  /\ _tecs_mode s' <> ECL_TECS_MODE_BAD_DESCENT.
Proof.
  intros Hre Htrim. cbv zeta.
  pose proof (descent_latch_published a s Hre Htrim) as Hl.
  pose proof (mode_published a s) as Hm. cbv zeta in Hm.
  revert Hl Hm. generalize (update_pitch_throttle a s). intros s' Hl Hm.
  split; [exact Hl |]. rewrite Hm, Hl.
  destruct (_percent_undersped s' >? FLT_EPSILON), (_climbout_mode_active s');
    discriminate.
Qed.

(** X19.  On the first run of the speed filter
    ([_speed_update_timestamp = 0]) with no raw airspeed rate, the TAS state
    is initialised to the airspeed in use times EAS2TAS (the measured
    airspeed, or the trim airspeed when measurements are not used), with a
    zero rate state and a zero innovation: for a finite, non-negative
    target and a finite filter frequency. *)
Theorem tas_state_initialised_on_first_run (a : StepArgs) (s : TECS) :
  _speed_update_timestamp s = 0%Z ->
  let s' := update_pitch_throttle a s in
  let target :=
    (if airspeed_unused (equivalent_airspeed a) s
     then _equivalent_airspeed_trim s else equivalent_airspeed a) * eas_to_tas a in
  Fl.finite target -> Fin 0 <= target -> Fl.finite (_tas_estimate_freq s) ->
  _tas_rate_raw s == Fin 0 ->
  _tas_state s' == target /\ _tas_rate_state s' == Fin 0 /\ _tas_innov s' == Fin 0.
Proof.
  intros Hts. cbv zeta.
  destruct (speed_filter_published a s) as (_ & Hi & Hf & Hr).
  unfold speed_filter_start in Hi, Hf, Hr. rewrite Hts in Hi, Hf, Hr.
  cbn [Z.eqb fst snd] in Hi, Hf, Hr. rewrite Hi, Hf, Hr. clear Hi Hf Hr.
  generalize ((if airspeed_unused (equivalent_airspeed a) s
               then _equivalent_airspeed_trim s else equivalent_airspeed a)
              * eas_to_tas a).
  intros target Hfin Hpos Hfreq Hraw.
  assert (Hdt : Fl.finite (math.constrain
             (elapsed (hrt_now_speed a) 0) DT_MIN DT_MAX))
    by (unfold elapsed, Fl.of_uint64; fl_solve).
  assert (Hself : target == target)
    by (clear - Hfin; destruct target; try discriminate; fl_unfold; reflexivity).
  destruct (tas_filter_fixed_point _ _ _ _ _ _ Hdt Hfin Hpos Hfreq Hself
              (Qeq_refl 0 : Fin 0 == Fin 0) Hraw) as (H1 & H2).
  split; [exact H1 |]. split; [exact H2 |].
  clear - Hfin. destruct target; try discriminate. fl_unfold. ring.
Qed.

End FreshStart.

(** Level cruise with the recovery latched: when the estimator loses its
    altitude lock, the next step re-initialises and clears the recovery. *)
Lemma descent_recovery_cleared_after_lock_loss :
  let s' := update_pitch_throttle Cases.second_cruise_call
              Cases.recovering_without_lock in
  _uncommanded_descent_recovery s' = false
  /\ _tecs_mode s' <> ECL_TECS_MODE_BAD_DESCENT.
Proof.
  apply (descent_recovery_cleared_on_reinitialisation
           Cases.second_cruise_call Cases.recovering_without_lock);
    vm_compute; reflexivity.
Defined.

(** The first step in level cruise: the TAS state starts at the measured
    20 m/s. *)
Lemma tas_state_initialised_in_level_cruise :
  let s := Cases.level_cruise in
  let a := Ref.cruise in
  let s' := update_pitch_throttle a s in
  let target :=
    (if airspeed_unused (equivalent_airspeed a) s
     then _equivalent_airspeed_trim s else equivalent_airspeed a) * eas_to_tas a in
  _tas_state s' == target /\ _tas_rate_state s' == Fin 0 /\ _tas_innov s' == Fin 0.
Proof.
  apply (tas_state_initialised_on_first_run Ref.cruise Cases.level_cruise);
    vm_compute; reflexivity.
Defined.

(** ** The published setpoints and the limits in force *)

Section LimitsInForce.

Context {AF : AlphaFilterOps} {VS : VelocitySmoothingOps}
        {MVS : ManualVelocitySmoothingZOps}.




End LimitsInForce.


(** ** Where the underspeed ramp is at 1 *)

Section RampEnds.

Context {AF : AlphaFilterOps} {VS : VelocitySmoothingOps}
        {MVS : ManualVelocitySmoothingZOps}.





End RampEnds.


